(** * The transportation ETL job ([main.py]): model and verified properties

    [main.py] is a single HTTP-triggered function, [etl_transportation_data].
    It validates a storage event, downloads a JSON array of trip records,
    cleans it column by column with pandas, derives two columns
    ([retraso_minutos], [velocidad_media_kmh]), projects the frame on the
    BigQuery schema and hands the result to two external services.

    The development follows the code top-down:
    - [Float64]: Python floats, as IEEE binary64 over [SpecFloat];
    - [pyobj], [exn], the monad [M]: Python values, exceptions, [print];
    - [strptime_HM], [datetime], [timedelta]: the standard-library calls of
      [calculate_delay];
    - columns and [DataFrame]: the pandas operations the job uses;
    - [transform] and [etl_transportation_data]: the job itself.

    Library behaviour that the repository only calls (number and date
    parsing of pandas, [repr] of a float, the storage and BigQuery
    clients) is an explicit parameter: a field of [Lib] or of [World].
    pandas is the 1.x/2.x series, where a column of text holds Python
    objects.  Strings are byte strings: the case functions are defined
    on ASCII text, and the title-casing of other text is a field of
    [Lib]. *)

From Stdlib Require Import ZArith List String Ascii Bool Lia.
From Stdlib Require DecimalString.
From Stdlib Require Import Floats.SpecFloat.
Import ListNotations.

Local Open Scope Z_scope.
Local Open Scope list_scope.

(* ================================================================== *)
(** ** Python floats *)

(** A Python [float] is an IEEE 754 binary64 number.  The operations are
    those of [SpecFloat] at precision 53, rounding to nearest even. *)
Module Float64.

Definition prec : Z := 53.
Definition emax : Z := 1024.

Definition float : Type := spec_float.

Definition zero : float := S754_zero false.
Definition nan : float := S754_nan.
Definition inf : float := S754_infinity false.
Definition neg_inf : float := S754_infinity true.

(** [float(z)] for a Python or numpy integer [z]. *)
Definition of_int (z : Z) : float := binary_normalize prec emax z 0 false.

Definition div (x y : float) : float := SFdiv prec emax x y.
Definition sub (x y : float) : float := SFsub prec emax x y.

(** [x < y]; false as soon as one side is NaN. *)
Definition ltb (x y : float) : bool := SFltb x y.

Definition is_nan (x : float) : bool :=
  match x with S754_nan => true | _ => false end.

Definition is_inf (x : float) : bool :=
  match x with S754_infinity _ => true | _ => false end.

Definition is_finite (x : float) : bool :=
  match x with
  | S754_zero _ | S754_finite _ _ _ => true
  | S754_infinity _ | S754_nan => false
  end.

(** The integer part of a finite float, rounding toward zero. *)
Definition trunc (x : float) : Z :=
  match x with
  | S754_finite s m e => cond_Zopp s (Z.shiftl (Zpos m) e)
  | _ => 0
  end.

Definition eqb (x y : float) : bool :=
  match x, y with
  | S754_zero a, S754_zero b => Bool.eqb a b
  | S754_infinity a, S754_infinity b => Bool.eqb a b
  | S754_nan, S754_nan => true
  | S754_finite a m e, S754_finite b n f =>
      Bool.eqb a b && Pos.eqb m n && Z.eqb e f
  | _, _ => false
  end.

End Float64.

Abbreviation float := Float64.float.

(* ================================================================== *)
(** ** Python values, exceptions and output *)

(** Exceptions, by class.  The message text is not modelled. *)
Inductive exn : Type :=
| ValueError
| TypeError
| OverflowError
| AttributeError
| ZeroDivisionError
| KeyError (key : string)
| ServiceError (what : string).

Inductive result (A : Type) : Type :=
| Ok (a : A)
| Raise (e : exn).
Arguments Ok {A} a.
Arguments Raise {A} e.

(** The scalar values a cell of the frame or a field of the event can
    hold: the JSON scalars as [json.loads] decodes them, the values pandas
    puts in ([NaN] is [PFloat Float64.nan], [pandas.NA] is [PNA]) and the
    [date] objects of [fecha_viaje]. *)
Inductive pyobj : Type :=
| PNone
| PBool (b : bool)
| PInt (z : Z)
| PFloat (f : float)
| PStr (s : string)
| PDate (year month day : Z)
| PNaT
| PNA.

Definition NaN : pyobj := PFloat Float64.nan.

(** [bool(v)]: the truth value of an object ([not v] is its negation).
    [bool(pandas.NA)] raises; the job never takes it. *)
Definition truthy (v : pyobj) : bool :=
  match v with
  | PNone => false
  | PBool b => b
  | PInt z => negb (z =? 0)
  | PFloat f =>
      match f with S754_zero _ => false | _ => true end
  | PStr s => negb (s =? "")%string
  | PDate _ _ _ => true
  | PNaT => true
  | PNA => true
  end.

Definition isinstance_str (v : pyobj) : bool :=
  match v with PStr _ => true | _ => false end.

(** [pandas.isna] on a scalar. *)
Definition isna (v : pyobj) : bool :=
  match v with
  | PNone | PNaT | PNA => true
  | PFloat f => Float64.is_nan f
  | _ => false
  end.

(** What the job writes with [print], one constructor per call site, with
    the values its f-string interpolates. *)
Inductive message : Type :=
| MsgNotJson
| MsgMissingNameOrBucket (name bucket : pyobj)
| MsgSkipNotJsonFile (name : string)
| MsgUnexpectedBucket (name : string) (bucket : pyobj) (expected : option string)
| MsgProcessing (name : string) (bucket : pyobj)
| MsgExtractionComplete
| MsgExtractionError (name : string) (e : exn)
| MsgStartTransform
| MsgDelayWarning (scheduled actual travel : pyobj) (e : exn)
| MsgTransformComplete
| MsgReordered
| MsgColumnMismatch (e : exn)
| MsgActualColumns (cols : list string)
| MsgFrameInfo
| MsgSaved (path : string)
| MsgSaveError (e : exn)
| MsgLoadStarted
| MsgLoadFinished
| MsgLoadError (e : exn).

(** Observable actions of one invocation, in program order. *)
Inductive event : Type :=
| Print (m : message)
| Download (bucket : pyobj) (name : string)
| Upload (bucket : option string) (path : string)
| GetTable (table_id : string)
| LoadTable (uri : string) (table_id : string).

(** Computations that print, call services and may raise: the events so
    far, then a value or the exception that ended the computation. *)
Definition M (A : Type) : Type := (list event * result A)%type.

Definition ret {A} (a : A) : M A := ([], Ok a).
Definition raise {A} (e : exn) : M A := ([], Raise e).
Definition emit (ev : event) : M unit := ([ev], Ok tt).
Definition print (m : message) : M unit := emit (Print m).
Definition lift {A} (r : result A) : M A := ([], r).

Definition bind {A B} (m : M A) (k : A -> M B) : M B :=
  match m with
  | (l, Ok a) => let (l', r) := k a in (l ++ l', r)
  | (l, Raise e) => (l, Raise e)
  end.

Notation "x <- m ;; k" := (bind m (fun x => k))
  (at level 61, m at next level, right associativity).
Notation "m ;;; k" := (bind m (fun _ => k))
  (at level 61, right associativity).

(** [try: m  except <classes handled by h>: h e].  An exception [h] does
    not handle propagates. *)
Definition try_except {A} (m : M A) (h : exn -> option (M A)) : M A :=
  match m with
  | (l, Ok a) => (l, Ok a)
  | (l, Raise e) =>
      match h e with
      | Some k => let (l', r) := k in (l ++ l', r)
      | None => (l, Raise e)
      end
  end.

Fixpoint mapM {A B} (f : A -> M B) (xs : list A) : M (list B) :=
  match xs with
  | [] => ret []
  | x :: xs' => y <- f x ;; ys <- mapM f xs' ;; ret (y :: ys)
  end.

Definition events {A} (m : M A) : list event := fst m.
Definition outcome {A} (m : M A) : result A := snd m.

(* ================================================================== *)
(** ** [datetime.strptime(s, '%H:%M')] *)

Definition digit_in (lo hi : ascii) (c : ascii) : bool :=
  (N_of_ascii lo <=? N_of_ascii c)%N && (N_of_ascii c <=? N_of_ascii hi)%N.

Definition is_digit (c : ascii) : bool := digit_in "0" "9" c.

Definition digit_value (c : ascii) : Z := Z.of_N (N_of_ascii c) - 48.

(** [_strptime] compiles the format to the regular expression
    [(?P<H>2[0-3]|[0-1]\d|\d):(?P<M>[0-5]\d|\d)] and matches it at the
    start of the string.  Each group lists its alternatives in the order
    the backtracking matcher tries them, with the text left after each. *)
Definition group_H (s : string) : list (Z * string) :=
  (match s with
   | String "2" (String d r) =>
       if digit_in "0" "3" d then [(20 + digit_value d, r)] else []
   | _ => []
   end)
  ++
  (match s with
   | String c (String d r) =>
       if digit_in "0" "1" c && is_digit d
       then [(10 * digit_value c + digit_value d, r)] else []
   | _ => []
   end)
  ++
  (match s with
   | String d r => if is_digit d then [(digit_value d, r)] else []
   | _ => []
   end).

Definition group_M (s : string) : list (Z * string) :=
  (match s with
   | String c (String d r) =>
       if digit_in "0" "5" c && is_digit d
       then [(10 * digit_value c + digit_value d, r)] else []
   | _ => []
   end)
  ++
  (match s with
   | String d r => if is_digit d then [(digit_value d, r)] else []
   | _ => []
   end).

(** First alternative of the hour group after which ":" and a minute
    group match; the minute group ends the expression, so its first
    alternative is kept. *)
Fixpoint first_match (hs : list (Z * string)) : option (Z * Z * string) :=
  match hs with
  | [] => None
  | (h, rest) :: hs' =>
      match rest with
      | String ":" rest' =>
          match group_M rest' with
          | (m, tail) :: _ => Some (h, m, tail)
          | [] => first_match hs'
          end
      | _ => first_match hs'
      end
  end.

Record time : Type := mk_time
  { t_hour : Z; t_minute : Z; t_second : Z; t_microsecond : Z }.

(** [datetime.strptime(s, '%H:%M').time()]: [ValueError] when the
    expression does not match or text is left over. *)
Definition strptime_HM (s : string) : result time :=
  match first_match (group_H s) with
  | Some (h, m, EmptyString) => Ok (mk_time h m 0 0)
  | Some (_, _, String _ _) => Raise ValueError
  | None => Raise ValueError
  end.

(* ================================================================== *)
(** ** [datetime] and [timedelta] *)

(** A date is kept as its proleptic Gregorian ordinal, the number on which
    [datetime] arithmetic works ([toordinal] / [fromordinal]). *)
Record datetime : Type := mk_datetime { dt_ordinal : Z; dt_time : time }.

Definition is_leap (y : Z) : bool :=
  (y mod 4 =? 0) && (negb (y mod 100 =? 0) || (y mod 400 =? 0)).

Definition days_before_year (y : Z) : Z :=
  let y' := y - 1 in y' * 365 + y' / 4 - y' / 100 + y' / 400.

Definition days_before_month (y m : Z) : Z :=
  nth (Z.to_nat (m - 1)) [0; 31; 59; 90; 120; 151; 181; 212; 243; 273; 304; 334] 0
  + (if (2 <? m) && is_leap y then 1 else 0).

Definition ymd2ord (y m d : Z) : Z :=
  days_before_year y + days_before_month y m + d.

Definition midnight : time := mk_time 0 0 0 0.

(** [datetime(y, m, d)]. *)
Definition datetime_ymd (y m d : Z) : datetime :=
  mk_datetime (ymd2ord y m d) midnight.

(** [datetime.combine(d, t)]: the date of [d], the time [t]. *)
Definition combine (d : datetime) (t : time) : datetime :=
  mk_datetime (dt_ordinal d) t.

Record timedelta : Type := mk_timedelta
  { td_days : Z; td_seconds : Z; td_microseconds : Z }.

(** [timedelta(days, seconds, microseconds)]: the constructor carries
    microseconds into seconds and seconds into days (floor division). *)
Definition timedelta_new (days seconds microseconds : Z) : timedelta :=
  let s := seconds + microseconds / 1000000 in
  mk_timedelta (days + s / 86400) (s mod 86400) (microseconds mod 1000000).

Definition seconds_of_day (t : time) : Z :=
  t_second t + t_minute t * 60 + t_hour t * 3600.

Definition time_ltb (a b : time) : bool :=
  (t_hour a <? t_hour b)
  || ((t_hour a =? t_hour b)
      && ((t_minute a <? t_minute b)
          || ((t_minute a =? t_minute b)
              && ((t_second a <? t_second b)
                  || ((t_second a =? t_second b)
                      && (t_microsecond a <? t_microsecond b)))))).

(** [a < b]: the fields are compared in lexicographic order. *)
Definition datetime_ltb (a b : datetime) : bool :=
  (dt_ordinal a <? dt_ordinal b)
  || ((dt_ordinal a =? dt_ordinal b) && time_ltb (dt_time a) (dt_time b)).

Definition MAXORDINAL : Z := 3652059.

(** [a + d]: [OverflowError] outside years 1..9999. *)
Definition datetime_add (a : datetime) (d : timedelta) : result datetime :=
  let t := dt_time a in
  let sum := timedelta_new (dt_ordinal a + td_days d)
               (seconds_of_day t + td_seconds d)
               (t_microsecond t + td_microseconds d) in
  if (0 <? td_days sum) && (td_days sum <=? MAXORDINAL) then
    Ok (mk_datetime (td_days sum)
          (mk_time (td_seconds sum / 3600) (td_seconds sum mod 3600 / 60)
             (td_seconds sum mod 3600 mod 60) (td_microseconds sum)))
  else Raise OverflowError.

(** [a - b]. *)
Definition datetime_sub (a b : datetime) : timedelta :=
  timedelta_new (dt_ordinal a - dt_ordinal b)
    (seconds_of_day (dt_time a) - seconds_of_day (dt_time b))
    (t_microsecond (dt_time a) - t_microsecond (dt_time b)).

(** The float nearest to the quotient of two integers, [d] not zero:
    the quotient of the magnitudes is developed to 53 bits and more with
    its remainder, then rounded once (as [long_true_divide] does). *)
Definition int_quotient (n d : Z) : float :=
  let '(m, e, l) :=
    SFdiv_core_binary Float64.prec Float64.emax (Z.abs n) 0 (Z.abs d) 0 in
  binary_round_aux Float64.prec Float64.emax (xorb (n <? 0) (d <? 0)) m e l.

(** [n / d] on two integers. *)
Definition int_truediv (n d : Z) : result float :=
  if d =? 0 then Raise ZeroDivisionError
  else if Float64.is_inf (int_quotient n d) then Raise OverflowError
  else Ok (int_quotient n d).

(** [d.total_seconds()]. *)
Definition total_seconds (d : timedelta) : float :=
  int_quotient
    ((td_days d * 86400 + td_seconds d) * 1000000 + td_microseconds d)
    1000000.

(* ================================================================== *)
(** ** [calculate_delay] *)

(** The operand of a float operation: [bool] and [int] convert (an
    integer too large for a float is an [OverflowError]), anything else
    is a [TypeError]. *)
Definition as_float (v : pyobj) : result float :=
  match v with
  | PFloat f => Ok f
  | PInt z =>
      let f := Float64.of_int z in
      if Float64.is_inf f then Raise OverflowError else Ok f
  | PBool b => Ok (Float64.of_int (if b then 1 else 0))
  | _ => Raise TypeError
  end.

(** [int(x)] on a float. *)
Definition int_of_float (x : float) : result Z :=
  match x with
  | S754_nan => Raise ValueError
  | S754_infinity _ => Raise OverflowError
  | _ => Ok (Float64.trunc x)
  end.

(** The argument of [strptime] must be a [str]. *)
Definition strptime_obj (v : pyobj) : result time :=
  match v with
  | PStr s => strptime_HM s
  | _ => Raise TypeError
  end.

(** The [try] block of [calculate_delay]. *)
Definition calculate_delay_try (scheduled_str actual_str travel_time_min : pyobj)
  : M pyobj :=
  if negb (isinstance_str scheduled_str) || negb (truthy scheduled_str)
     || negb (isinstance_str actual_str) || negb (truthy actual_str)
  then ret PNone
  else
    scheduled_time <- lift (strptime_obj scheduled_str) ;;
    actual_time <- lift (strptime_obj actual_str) ;;
    let dummy_date := datetime_ymd 2000 1 1 in
    let scheduled_dt := combine dummy_date scheduled_time in
    let actual_dt := combine dummy_date actual_time in
    actual_dt <- (if datetime_ltb actual_dt scheduled_dt
                  then lift (datetime_add actual_dt (timedelta_new 1 0 0))
                  else ret actual_dt) ;;
    let calculated_travel_time :=
      Float64.div (total_seconds (datetime_sub actual_dt scheduled_dt))
        (Float64.of_int 60) in
    t <- lift (as_float travel_time_min) ;;
    let delay := Float64.sub calculated_travel_time t in
    if Float64.ltb Float64.zero delay
    then z <- lift (int_of_float delay) ;; ret (PInt z)
    else ret (PInt 0).

(** [calculate_delay]: [ValueError] and [TypeError] are caught, reported
    with [print] and turned into [None]. *)
Definition calculate_delay (scheduled_str actual_str travel_time_min : pyobj)
  : M pyobj :=
  try_except (calculate_delay_try scheduled_str actual_str travel_time_min)
    (fun e =>
       match e with
       | ValueError | TypeError =>
           Some (print (MsgDelayWarning scheduled_str actual_str travel_time_min e) ;;;
                 ret PNone)
       | _ => None
       end).

(* ================================================================== *)
(** ** Strings and text conversions

    Strings are byte strings (UTF-8).  Where Python works on code points
    ([int], [str.title]) the functions below are those of Python on ASCII
    text; a byte above 127 is never a digit or a space here, and the
    title-casing of a text with such bytes is left to the library
    interface below. *)

(** [s.endswith(suffix)]. *)
Definition endswith (s suffix : string) : bool :=
  let n := String.length s in
  let k := String.length suffix in
  (k <=? n)%nat && String.eqb (substring (n - k) k s) suffix.

(** [s.replace(a, b)] for one-character [a] and [b]. *)
Fixpoint str_replace_char (a b : ascii) (s : string) : string :=
  match s with
  | EmptyString => EmptyString
  | String c r =>
      String (if Ascii.eqb c a then b else c) (str_replace_char a b r)
  end.

Definition is_upper (c : ascii) : bool := digit_in "A" "Z" c.
Definition is_lower (c : ascii) : bool := digit_in "a" "z" c.
Definition to_upper (c : ascii) : ascii :=
  if is_lower c then ascii_of_N (N_of_ascii c - 32) else c.
Definition to_lower (c : ascii) : ascii :=
  if is_upper c then ascii_of_N (N_of_ascii c + 32) else c.
Definition is_cased (c : ascii) : bool :=
  is_upper c || is_lower c || (128 <=? N_of_ascii c)%N.

(** [s.title()] on ASCII text: a letter is upper-cased when it follows a
    character that is no letter (or starts the string) and lower-cased
    otherwise.  (A byte above 127 counts as a letter and is kept; see
    [str_title] for text that has one.) *)
Fixpoint title_from (previous_is_cased : bool) (s : string) : string :=
  match s with
  | EmptyString => EmptyString
  | String c r =>
      String (if is_cased c
              then (if previous_is_cased then to_lower c else to_upper c)
              else c)
        (title_from (is_cased c) r)
  end.

Fixpoint is_ascii (s : string) : bool :=
  match s with
  | EmptyString => true
  | String c r => (N_of_ascii c <? 128)%N && is_ascii r
  end.

Definition is_space (c : ascii) : bool :=
  digit_in "009" "013" c || digit_in "028" "031" c || Ascii.eqb c " ".

Fixpoint lstrip (l : list ascii) : list ascii :=
  match l with
  | c :: r => if is_space c then lstrip r else l
  | [] => []
  end.

Definition strip (l : list ascii) : list ascii := rev (lstrip (rev (lstrip l))).

(** Decimal digits with single underscores between them, the first digit
    already read: [acc] is the value so far. *)
Fixpoint digits_value (acc : Z) (after_underscore : bool) (l : list ascii)
  : option Z :=
  match l with
  | [] => if after_underscore then None else Some acc
  | c :: r =>
      if is_digit c then digits_value (10 * acc + digit_value c) false r
      else if Ascii.eqb c "_" && negb after_underscore
           then digits_value acc true r
           else None
  end.

Definition unsigned_value (l : list ascii) : option Z :=
  match l with
  | c :: r => if is_digit c then digits_value (digit_value c) false r else None
  | [] => None
  end.

(** [int(s)] on a string, base 10: surrounding white space, one optional
    sign, digits.  [None] stands for [ValueError]. *)
Definition int_of_str (s : string) : option Z :=
  match strip (list_ascii_of_string s) with
  | "-"%char :: r => option_map Z.opp (unsigned_value r)
  | "+"%char :: r => unsigned_value r
  | l => unsigned_value l
  end.

(* ================================================================== *)
(** ** The libraries the job calls

    pandas and Python functions whose text-level behaviour the repository
    relies on but does not define.  Every property below holds for any
    implementation of them. *)

Inductive number : Type :=
| NumInt (z : Z)
| NumFloat (f : float).

Class Lib : Type := {
  (** [repr(x)] of a finite float, as [str(x)] and [astype(str)] give it *)
  float_repr : float -> string;
  (** [float(s)]; [None] is [ValueError] *)
  float_of_str : string -> option float;
  (** the number [pandas.to_numeric] reads in a string; [None] when it
      reads none *)
  numeric_of_str : string -> option number;
  (** [pandas.to_datetime(column).dt.date] *)
  to_datetime_date : list pyobj -> result (list pyobj);
  (** what the C cast of numpy gives for a finite float outside the
      range of [int64] (the conversion is left to the platform) *)
  int64_of_large_float : float -> Z;
  (** [s.title()] for a text with non-ASCII characters (the case
      mapping of Unicode) *)
  title_text : string -> string
}.

(** [s.title()]. *)
Definition str_title `{Lib} (s : string) : string :=
  if is_ascii s then title_from false s else title_text s.

(* ================================================================== *)
(** ** pandas columns *)

Definition in_int64 (z : Z) : bool :=
  (- 2 ^ 63 <=? z) && (z <? 2 ^ 63).

Definition is_none (v : pyobj) : bool :=
  match v with PNone => true | _ => false end.
Definition is_bool (v : pyobj) : bool :=
  match v with PBool _ => true | _ => false end.
Definition is_int (v : pyobj) : bool :=
  match v with PInt _ => true | _ => false end.
Definition is_float (v : pyobj) : bool :=
  match v with PFloat _ => true | _ => false end.

(** A cell a numeric block can hold: an [int64] or a float. *)
Definition is_number (v : pyobj) : bool :=
  match v with
  | PInt z => in_int64 z
  | PFloat _ => true
  | _ => false
  end.

(** A column of dtype [int64] or [float64]. *)
Definition is_numeric_column (col : list pyobj) : bool := forallb is_number col.

(** An integer of the unsigned 64-bit range. *)
Definition is_uint64 (v : pyobj) : bool :=
  match v with
  | PInt z => (0 <=? z) && (z <? 2 ^ 64)
  | _ => false
  end.

(** A column of dtype [uint64]: integers that are not negative, one of
    them above the range of [int64].  Any column that is neither numeric
    nor this one is held as Python objects. *)
Definition is_uint64_column (col : list pyobj) : bool :=
  forallb is_uint64 col && negb (forallb is_number col).

(** The float a cell becomes in a [float64] column. *)
Definition to_float64 (v : pyobj) : pyobj :=
  match v with
  | PNone => NaN
  | PInt z => PFloat (Float64.of_int z)
  | _ => v
  end.

(** The scan of [maybe_convert_objects] over a list of Python scalars:
    false when the column has to stay a column of objects.  That is the
    case with a string or a boolean, and with an integer met before any
    [None] that is outside the 64-bit ranges or that makes the column mix
    negative integers with integers above the range of [int64].
    [null], [uint] and [sint] record what has been seen so far. *)
Fixpoint numeric_scan (null uint sint : bool) (col : list pyobj) : bool :=
  match col with
  | [] => true
  | PNone :: r => numeric_scan true uint sint r
  | PFloat _ :: r => numeric_scan null uint sint r
  | PInt z :: r =>
      if null then numeric_scan null uint sint r
      else
        let uint' := uint || ((2 ^ 63 <=? z) && (z <? 2 ^ 64)) in
        let sint' := sint || ((- 2 ^ 63 <=? z) && (z <? 0)) in
        if (uint' && sint') || (2 ^ 64 <=? z) || (z <? - 2 ^ 63) then false
        else numeric_scan null uint' sint' r
  | _ => false
  end.

(** Type inference of the [DataFrame] and [Series] constructors on a list
    of Python scalars ([maybe_convert_objects]).  A column made of numbers
    and missing values becomes [float64] as soon as it holds a float or a
    missing value next to a number: [None] becomes [NaN] and integers are
    converted.  A column of integers alone is [int64] or [uint64].  A
    column holding a string, a boolean or only [None] keeps its
    objects.  (An integer of more than 300 digits is outside the model:
    its conversion to a float raises.) *)
Definition infer_column (col : list pyobj) : list pyobj :=
  if numeric_scan false false false col then
    if existsb is_float col || (existsb is_none col && existsb is_int col)
    then map to_float64 col
    else col
  else col.

(** [Series.fillna(value)].  A missing value written into a numeric
    column is [NaN]: filling such a column with [None], [NaN] or
    [pandas.NA] changes nothing.  Any other value, and any value in a
    column of objects, takes the place of the missing cells. *)
Definition fillna (value : pyobj) (col : list pyobj) : list pyobj :=
  if isna value && is_numeric_column col then col
  else map (fun v => if isna v then value else v) col.

(** [Series.replace(old, new)] for a string [old], cell by cell.  (pandas
    may store the result in a float column afterwards; the cast that
    follows gives the same integers for values below [2^53].) *)
Definition replace_str (old : string) (new : pyobj) (col : list pyobj)
  : list pyobj :=
  map (fun v => match v with
                | PStr s => if String.eqb s old then new else v
                | _ => v
                end) col.

(** [Series.replace([inf, -inf], new)], cell by cell.  (With [pandas.NA]
    for [new], a float column in which a cell is replaced becomes a
    column of objects: it holds [PNA] and is no longer numeric.) *)
Definition replace_inf (new : pyobj) (col : list pyobj) : list pyobj :=
  map (fun v => match v with
                | PFloat f => if Float64.is_inf f then new else v
                | _ => v
                end) col.

Definition two_digits (z : Z) : string :=
  String.append (if z <? 10 then "0" else "")
    (DecimalString.NilZero.string_of_int (Z.to_int z)).

(** [str(v)]. *)
Definition py_str `{Lib} (v : pyobj) : string :=
  match v with
  | PNone => "None"
  | PBool true => "True"
  | PBool false => "False"
  | PInt z => DecimalString.NilZero.string_of_int (Z.to_int z)
  | PFloat S754_nan => "nan"
  | PFloat (S754_infinity false) => "inf"
  | PFloat (S754_infinity true) => "-inf"
  | PFloat f => float_repr f
  | PStr s => s
  | PDate y m d =>
      (DecimalString.NilZero.string_of_int (Z.to_int y) ++ "-" ++ two_digits m ++ "-"
       ++ two_digits d)%string
  | PNaT => "NaT"
  | PNA => "<NA>"
  end.

(** [Series.astype(str)]: every cell, missing or not, through [str]. *)
Definition astype_str `{Lib} (col : list pyobj) : list pyobj :=
  map (fun v => PStr (py_str v)) col.

(** [Series.str.replace(',', '.', regex=False)] on a column of strings. *)
Definition str_replace_comma (col : list pyobj) : list pyobj :=
  map (fun v => match v with
                | PStr s => PStr (str_replace_char "," "." s)
                | _ => NaN
                end) col.

(** [Series.str.title()] on a column of strings. *)
Definition str_title_col `{Lib} (col : list pyobj) : list pyobj :=
  map (fun v => match v with
                | PStr s => PStr (str_title s)
                | _ => NaN
                end) col.

Fixpoint map_result {A B} (f : A -> result B) (xs : list A) : result (list B) :=
  match xs with
  | [] => Ok []
  | x :: xs' =>
      match f x with
      | Ok y => match map_result f xs' with
                | Ok ys => Ok (y :: ys)
                | Raise e => Raise e
                end
      | Raise e => Raise e
      end
  end.

(** [float(v)]. *)
Definition py_float `{Lib} (v : pyobj) : result float :=
  match v with
  | PFloat f => Ok f
  | PInt z =>
      let f := Float64.of_int z in
      if Float64.is_inf f then Raise OverflowError else Ok f
  | PBool b => Ok (Float64.of_int (if b then 1 else 0))
  | PStr s => match float_of_str s with
              | Some f => Ok f
              | None => Raise ValueError
              end
  | _ => Raise TypeError
  end.

(** [Series.astype(float)]. *)
Definition astype_float `{Lib} (col : list pyobj) : result (list pyobj) :=
  map_result (fun v => match py_float v with
                       | Ok f => Ok (PFloat f)
                       | Raise e => Raise e
                       end) col.

(** [int(v)]. *)
Definition py_int (v : pyobj) : result Z :=
  match v with
  | PInt z => Ok z
  | PBool b => Ok (if b then 1 else 0)
  | PFloat f => int_of_float f
  | PStr s => match int_of_str s with
              | Some z => Ok z
              | None => Raise ValueError
              end
  | _ => Raise TypeError
  end.

(** One cell of an object column to [int64]: [int(v)], which must fit. *)
Definition int64_of_object (v : pyobj) : result pyobj :=
  match py_int v with
  | Ok z => if in_int64 z then Ok (PInt z) else Raise OverflowError
  | Raise e => Raise e
  end.

(** One cell of a numeric column to [int64]: a float is truncated. *)
Definition int64_of_number `{Lib} (v : pyobj) : pyobj :=
  match v with
  | PFloat f =>
      if in_int64 (Float64.trunc f) then PInt (Float64.trunc f)
      else PInt (int64_of_large_float f)
  | _ => v
  end.

Definition is_non_finite (v : pyobj) : bool :=
  match v with PFloat f => negb (Float64.is_finite f) | _ => false end.

(** One cell of a [uint64] column to [int64]: the same 64 bits. *)
Definition wrap_int64 (v : pyobj) : pyobj :=
  match v with
  | PInt z => PInt (if z <? 2 ^ 63 then z else z - 2 ^ 64)
  | _ => v
  end.

(** [Series.astype(int)].  A numeric column is refused as a whole when it
    holds [NaN] or an infinity ("Cannot convert non-finite values") and is
    cast otherwise; a [uint64] column is reinterpreted; an object column
    is converted cell by cell with [int]. *)
Definition astype_int `{Lib} (col : list pyobj) : result (list pyobj) :=
  if is_numeric_column col then
    if existsb is_non_finite col then Raise ValueError
    else Ok (map int64_of_number col)
  else if is_uint64_column col then Ok (map wrap_int64 col)
  else map_result int64_of_object col.

(** [Series.astype(bool)]. *)
Definition astype_bool (col : list pyobj) : list pyobj :=
  map (fun v => PBool (truthy v)) col.

(** What [pandas.to_numeric(..., errors='coerce')] reads in one cell:
    numbers are kept, strings are read, and what cannot be read becomes
    [NaN]. *)
Definition numeric_cell `{Lib} (v : pyobj) : pyobj :=
  match v with
  | PInt _ | PFloat _ => v
  | PBool b => PInt (if b then 1 else 0)
  | PStr s => match numeric_of_str s with
              | Some (NumInt z) => PInt z
              | Some (NumFloat f) => PFloat f
              | None => NaN
              end
  | _ => NaN
  end.

(** [pandas.to_numeric(column, errors='coerce')]: the readings of the
    cells, in one numeric column.  Integers that all fit [int64], or all
    fit [uint64], stay integers; otherwise, and as soon as one reading is
    a float or [NaN], every reading is converted to a float. *)
Definition to_numeric_coerce `{Lib} (col : list pyobj) : list pyobj :=
  let readings := map numeric_cell col in
  if forallb is_number readings && forallb is_int readings then readings
  else if forallb is_uint64 readings then readings
  else map to_float64 readings.

(** [Series.clip(lo, hi)] on an integer column. *)
Definition clip (lo hi : Z) (col : list pyobj) : list pyobj :=
  map (fun v => match v with
                | PInt z => PInt (Z.max lo (Z.min hi z))
                | _ => v
                end) col.

(* ================================================================== *)
(** ** The frame *)

(** One row object of the JSON array: a Python [dict], keys in insertion
    order. *)
Definition record : Type := list (string * pyobj).

Fixpoint lookup {A} (k : string) (l : list (string * A)) : option A :=
  match l with
  | [] => None
  | (k', v) :: r => if String.eqb k k' then Some v else lookup k r
  end.

(** A [DataFrame] with the default index [0 .. nrows-1]: its columns by
    label, in column order. *)
Record DataFrame : Type := mk_df
  { nrows : nat; columns : list (string * list pyobj) }.

Definition column_names (df : DataFrame) : list string :=
  map fst (columns df).

(** [df[name]]. *)
Definition getitem (df : DataFrame) (name : string) : result (list pyobj) :=
  match lookup name (columns df) with
  | Some col => Ok col
  | None => Raise (KeyError name)
  end.

(** An assigned column is aligned on the index of the frame: labels the
    column lacks are filled with [NaN], labels the frame lacks are
    dropped. *)
Definition align (n : nat) (col : list pyobj) : list pyobj :=
  firstn n col ++ repeat NaN (n - List.length col).

Fixpoint upsert {A} (k : string) (v : A) (l : list (string * A))
  : list (string * A) :=
  match l with
  | [] => [(k, v)]
  | (k', v') :: r =>
      if String.eqb k k' then (k, v) :: r else (k', v') :: upsert k v r
  end.

(** [df[name] = col]: replaces the column in place, or appends it. *)
Definition setitem (df : DataFrame) (name : string) (col : list pyobj)
  : DataFrame :=
  mk_df (nrows df) (upsert name (align (nrows df) col) (columns df)).

(** [df[names]]: the listed columns in the listed order; [KeyError] when
    one is missing. *)
Definition select (df : DataFrame) (names : list string) : result DataFrame :=
  match map_result (fun k => match getitem df k with
                             | Ok col => Ok (k, col)
                             | Raise e => Raise e
                             end) names with
  | Ok cols => Ok (mk_df (nrows df) cols)
  | Raise e => Raise e
  end.

Definition add_key (seen : list string) (k : string) : list string :=
  if existsb (String.eqb k) seen then seen else seen ++ [k].

(** The column labels of [DataFrame(rows)]: the keys of the rows in order
    of first appearance. *)
Definition keys_of (rows : list record) : list string :=
  fold_left (fun seen r => fold_left add_key (map fst r) seen) rows [].

(** A key a row lacks is read as [NaN]. *)
Definition cell (r : record) (k : string) : pyobj :=
  match lookup k r with
  | Some v => v
  | None => NaN
  end.

(** [pd.DataFrame(rows)] for a list of row objects. *)
Definition DataFrame_of_records (rows : list record) : DataFrame :=
  mk_df (List.length rows)
    (map (fun k => (k, infer_column (map (fun r => cell r k) rows)))
       (keys_of rows)).

(** [row[name]] for row [i], as the function given to
    [df.apply(..., axis=1)] reads it. *)
Definition row_get (df : DataFrame) (i : nat) (name : string) : result pyobj :=
  match getitem df name with
  | Ok col => Ok (nth i col NaN)
  | Raise e => Raise e
  end.

(** [df.apply(f, axis=1)]: [f] on every row in index order, the results
    collected in a new [Series]. *)
Definition apply_rows (df : DataFrame) (f : (string -> result pyobj) -> M pyobj)
  : M (list pyobj) :=
  results <- mapM (fun i => f (row_get df i)) (seq 0 (nrows df)) ;;
  ret (infer_column results).

(* ================================================================== *)
(** ** The transformation (lines 99-189) *)

Definition BQ_SCHEMA_COLUMNS : list string :=
  [ "id_viaje";
    "fecha_viaje";
    "hora_salida_programada";
    "hora_llegada_real";
    "origen_ciudad";
    "destino_ciudad";
    "pais_operacion";
    "numero_viajeros";
    "distancia_km";
    "tiempo_viaje_minutos";
    "tarifa_media_por_viajero_eur";
    "marca_autocar";
    "modelo_autocar";
    "matricula_autocar";
    "tipo_servicio";
    "incidencia_averia";
    "descripcion_averia";
    "costo_averia_eur";
    "puntuacion_cliente";
    "combustible_consumido_litros";
    "id_conductor";
    "edad_conductor";
    "retraso_minutos";
    "velocidad_media_kmh" ]%string.

Definition country_mapping : list (string * string) :=
  [ ("España", "España"); ("ESPAÑA", "España"); ("ES", "España");
    ("Portugal", "Portugal"); ("PT", "Portugal");
    ("Marruecos", "Marruecos"); ("MARRUECOS", "Marruecos"); ("MAR", "Marruecos");
    ("Desconocido", "Desconocido") ]%string.

(** [country_mapping.get(x, x)]: only a string can equal a key. *)
Definition country_get (x : pyobj) : pyobj :=
  match x with
  | PStr s => match lookup s country_mapping with
              | Some v => PStr v
              | None => x
              end
  | _ => x
  end.

(** [df[name] = f(df[name])]. *)
Definition update (name : string) (f : list pyobj -> result (list pyobj))
  (df : DataFrame) : M DataFrame :=
  col <- lift (getitem df name) ;;
  col' <- lift (f col) ;;
  ret (setitem df name col').

Definition total (f : list pyobj -> list pyobj) (col : list pyobj)
  : result (list pyobj) := Ok (f col).

(** [x > 0]. *)
Definition gt_zero (x : pyobj) : result bool :=
  match x with
  | PInt z => Ok (0 <? z)
  | PBool b => Ok b
  | PFloat f => Ok (Float64.ltb Float64.zero f)
  | _ => Raise TypeError
  end.

Definition is_zero (x : float) : bool :=
  match x with S754_zero _ => true | _ => false end.

(** [a / b] on Python numbers. *)
Definition truediv (a b : pyobj) : result pyobj :=
  match a, b with
  | PInt x, PInt y =>
      match int_truediv x y with
      | Ok q => Ok (PFloat q)
      | Raise e => Raise e
      end
  | _, _ =>
      match as_float a, as_float b with
      | Ok x, Ok y =>
          if is_zero y then Raise ZeroDivisionError
          else Ok (PFloat (Float64.div x y))
      | Raise e, _ => Raise e
      | _, Raise e => Raise e
      end
  end.

(** Line 175: the function applied to each row for [retraso_minutos]. *)
Definition delay_of_row (row : string -> result pyobj) : M pyobj :=
  scheduled <- lift (row "hora_salida_programada"%string) ;;
  actual <- lift (row "hora_llegada_real"%string) ;;
  travel <- lift (row "tiempo_viaje_minutos"%string) ;;
  calculate_delay scheduled actual travel.

(** Line 182: the function applied to each row for
    [velocidad_media_kmh]. *)
Definition speed_of_row (row : string -> result pyobj) : M pyobj :=
  t <- lift (row "tiempo_viaje_minutos"%string) ;;
  positive <- lift (gt_zero t) ;;
  if positive : bool then
    d <- lift (row "distancia_km"%string) ;;
    t <- lift (row "tiempo_viaje_minutos"%string) ;;
    hours <- lift (truediv t (PInt 60)) ;;
    lift (truediv d hours)
  else ret (PInt 0).

Definition derive (name : string) (f : (string -> result pyobj) -> M pyobj)
  (df : DataFrame) : M DataFrame :=
  col <- apply_rows df f ;;
  ret (setitem df name col).

Definition numero_viajeros_column `{Lib} (col : list pyobj)
  : result (list pyobj) :=
  astype_int (fillna (PInt 0) (replace_str "Cuarenta" (PInt 40) col)).

Definition decimal_column `{Lib} (col : list pyobj) : result (list pyobj) :=
  astype_float (str_replace_comma (astype_str col)).

Definition puntuacion_column `{Lib} (col : list pyobj) : result (list pyobj) :=
  astype_int (fillna (PInt 0) (to_numeric_coerce col)).

Definition pais_column `{Lib} (col : list pyobj) : list pyobj :=
  astype_str (map country_get col).

Definition title_column `{Lib} (col : list pyobj) : list pyobj :=
  str_title_col (astype_str col).

(** The statements of lines 101-187, in program order. *)
Definition stages `{Lib} : list (DataFrame -> M DataFrame) :=
  [ update "pais_operacion" (total (fillna (PStr "Desconocido")));
    update "modelo_autocar" (total (fillna (PStr "N/A")));
    update "descripcion_averia" (total (fillna (PStr "Sin Avería")));
    update "numero_viajeros" numero_viajeros_column;
    update "costo_averia_eur" (total (fillna (PFloat Float64.zero)));
    update "distancia_km" decimal_column;
    update "tarifa_media_por_viajero_eur" decimal_column;
    update "incidencia_averia" (total astype_bool);
    update "puntuacion_cliente" puntuacion_column;
    update "puntuacion_cliente" (total (clip 1 5));
    update "fecha_viaje" to_datetime_date;
    update "tiempo_viaje_minutos" astype_int;
    update "combustible_consumido_litros" astype_float;
    update "edad_conductor" astype_int;
    update "pais_operacion" (total pais_column);
    update "marca_autocar" (total title_column);
    update "modelo_autocar" (total title_column);
    update "origen_ciudad" (total title_column);
    update "destino_ciudad" (total title_column);
    update "tipo_servicio" (total title_column);
    derive "retraso_minutos" delay_of_row;
    derive "velocidad_media_kmh" speed_of_row;
    update "velocidad_media_kmh" (total (replace_inf PNA));
    update "velocidad_media_kmh" (total (fillna PNA)) ]%string.

Fixpoint run (fs : list (DataFrame -> M DataFrame)) (df : DataFrame)
  : M DataFrame :=
  match fs with
  | [] => ret df
  | f :: fs' => df' <- f df ;; run fs' df'
  end.

Definition transform `{Lib} (df : DataFrame) : M DataFrame :=
  print MsgStartTransform ;;;
  df <- run stages df ;;
  print MsgTransformComplete ;;;
  ret df.

(** Lines 193-200: the projection on the schema; a [KeyError] is
    reported and raised again. *)
Definition reorder (df : DataFrame) : M DataFrame :=
  try_except
    (df' <- lift (select df BQ_SCHEMA_COLUMNS) ;;
     print MsgReordered ;;;
     ret df')
    (fun e =>
       match e with
       | KeyError _ =>
           Some (print (MsgColumnMismatch e) ;;;
                 print (MsgActualColumns (column_names df)) ;;;
                 raise e)
       | _ => None
       end).

(* ================================================================== *)
(** ** The trigger ([etl_transportation_data], lines 48-257) *)

(** The decoded body of the request: a JSON object, or any other JSON
    value (which has no [get]). *)
Inductive json_body : Type :=
| JDict (fields : record)
| JOther.

(** The two members of [flask.Request] the function reads. *)
Record Request : Type := mk_request
  { is_json : bool; get_json : result json_body }.

(** The process environment and the two Google Cloud clients.  A call
    returns, or raises the given exception. *)
Record World : Type := mk_world
  { RAW_BUCKET_NAME : option string;
    PROCESSED_BUCKET_NAME : option string;
    BIGQUERY_PROJECT_ID : option string;
    (** [download_as_string] then [json.loads]: the row objects *)
    download_rows : pyobj -> string -> result (list record);
    (** [datetime.now().strftime("%Y%m%d%H%M%S")] *)
    timestamp : string;
    (** [upload_from_string] of the CSV rendering of the frame *)
    upload_from_string : option string -> string -> DataFrame -> result unit;
    (** [bigquery_client.get_table] *)
    get_table : string -> result unit;
    (** [bigquery_client.load_table_from_uri] *)
    load_table_from_uri : string -> string -> result unit;
    (** [load_job.result()] *)
    load_job_result : string -> string -> result unit }.

Definition BIGQUERY_DATASET_ID : string := "grupo_ruiz_dataset".
Definition BIGQUERY_TABLE_ID : string := "viajes_autobuses_limpios".

(** [event_data.get(key)]. *)
Definition dict_get (event_data : json_body) (key : string) : result pyobj :=
  match event_data with
  | JDict fields => match lookup key fields with
                    | Some v => Ok v
                    | None => Ok PNone
                    end
  | JOther => Raise AttributeError
  end.

(** Only a string has [endswith]. *)
Definition str_of_obj (v : pyobj) : result string :=
  match v with
  | PStr s => Ok s
  | _ => Raise AttributeError
  end.

(** [v != os.environ.get(...)], negated. *)
Definition eq_env (v : pyobj) (e : option string) : bool :=
  match v, e with
  | PStr s, Some b => String.eqb s b
  | PNone, None => true
  | _, _ => false
  end.

(** An environment variable in an f-string. *)
Definition env_str (e : option string) : string :=
  match e with Some s => s | None => "None" end.

(** [except Exception as e: print(...); raise]. *)
Definition report_and_raise {A} (msg : exn -> message) (e : exn) : option (M A) :=
  Some (print (msg e) ;;; raise e).

Definition etl_transportation_data `{Lib} (w : World) (request : Request)
  : M (string * Z) :=
  if negb (is_json request) then
    print MsgNotJson ;;;
    ret ("Not JSON"%string, 400)
  else
    event_data <- lift (get_json request) ;;
    file_name <- lift (dict_get event_data "name") ;;
    bucket_name <- lift (dict_get event_data "bucket") ;;
    if negb (truthy file_name) || negb (truthy bucket_name) then
      print (MsgMissingNameOrBucket file_name bucket_name) ;;;
      ret ("Missing file/bucket info"%string, 400)
    else
      name <- lift (str_of_obj file_name) ;;
      if negb (endswith name ".json") then
        print (MsgSkipNotJsonFile name) ;;;
        ret ("Not a JSON file"%string, 200)
      else if negb (eq_env bucket_name (RAW_BUCKET_NAME w)) then
        print (MsgUnexpectedBucket name bucket_name (RAW_BUCKET_NAME w)) ;;;
        ret ("Unexpected bucket"%string, 200)
      else
        print (MsgProcessing name bucket_name) ;;;
        (* E: extract *)
        df <- try_except
                (emit (Download bucket_name name) ;;;
                 data <- lift (download_rows w bucket_name name) ;;
                 print MsgExtractionComplete ;;;
                 ret (DataFrame_of_records data))
                (report_and_raise (MsgExtractionError name)) ;;
        (* T: transform *)
        df <- transform df ;;
        df <- reorder df ;;
        print MsgFrameInfo ;;;
        (* L: load *)
        let output_file_name :=
          ("transportation_data_transformed_" ++ timestamp w ++ ".csv")%string in
        try_except
          (emit (Upload (PROCESSED_BUCKET_NAME w) output_file_name) ;;;
           lift (upload_from_string w (PROCESSED_BUCKET_NAME w) output_file_name df) ;;;
           print (MsgSaved output_file_name))
          (report_and_raise MsgSaveError) ;;;
        let table_id :=
          (env_str (BIGQUERY_PROJECT_ID w) ++ "." ++ BIGQUERY_DATASET_ID ++ "."
           ++ BIGQUERY_TABLE_ID)%string in
        emit (GetTable table_id) ;;;
        lift (get_table w table_id) ;;;
        let uri :=
          ("gs://" ++ env_str (PROCESSED_BUCKET_NAME w) ++ "/" ++ output_file_name)%string in
        try_except
          (emit (LoadTable uri table_id) ;;;
           lift (load_table_from_uri w uri table_id) ;;;
           print MsgLoadStarted ;;;
           lift (load_job_result w uri table_id) ;;;
           print MsgLoadFinished)
          (report_and_raise MsgLoadError) ;;;
        ret ("OK"%string, 200).

(** An action on a storage object or on the analytical table. *)
Definition is_service_call (ev : event) : bool :=
  match ev with
  | Print _ => false
  | _ => true
  end.

(* ================================================================== *)
(** ** A small implementation of the library interface

    Enough of [float], [to_numeric] and [to_datetime] to run the job on
    plain data: decimal literals with at most 15 digits (for which one
    correctly rounded division gives the nearest float), ISO dates, and
    [repr] of integral floats. *)

Fixpoint all_digits (l : list ascii) : bool :=
  match l with
  | [] => true
  | c :: r => is_digit c && all_digits r
  end.

Fixpoint digits_to_Z (acc : Z) (l : list ascii) : Z :=
  match l with
  | [] => acc
  | c :: r => digits_to_Z (10 * acc + digit_value c) r
  end.

Fixpoint split_at_dot (l : list ascii) : list ascii * option (list ascii) :=
  match l with
  | [] => ([], None)
  | c :: r =>
      if Ascii.eqb c "." then ([], Some r)
      else let (a, b) := split_at_dot r in (c :: a, b)
  end.

Definition unsigned_decimal (l : list ascii) : option float :=
  let (ip, fp) := split_at_dot l in
  let fp := match fp with Some f => f | None => [] end in
  if all_digits ip && all_digits fp
     && (1 <=? List.length ip)%nat
     && (List.length ip + List.length fp <=? 15)%nat
  then Some (Float64.div (Float64.of_int (digits_to_Z 0 (ip ++ fp)))
               (Float64.of_int (10 ^ Z.of_nat (List.length fp))))
  else None.

Definition decimal_float (s : string) : option float :=
  match strip (list_ascii_of_string s) with
  | "-"%char :: r => option_map (SFopp) (unsigned_decimal r)
  | "+"%char :: r => unsigned_decimal r
  | l => unsigned_decimal l
  end.

Definition decimal_number (s : string) : option number :=
  match int_of_str s with
  | Some z => Some (NumInt z)
  | None => option_map NumFloat (decimal_float s)
  end.

Definition integral_repr (f : float) : string :=
  String.append (DecimalString.NilZero.string_of_int (Z.to_int (Float64.trunc f))) ".0".

Definition iso_date (v : pyobj) : result pyobj :=
  match v with
  | PStr s =>
      match list_ascii_of_string s with
      | [y1; y2; y3; y4; "-"%char; m1; m2; "-"%char; d1; d2] =>
          if all_digits [y1; y2; y3; y4; m1; m2; d1; d2]
          then Ok (PDate (digits_to_Z 0 [y1; y2; y3; y4])
                     (digits_to_Z 0 [m1; m2]) (digits_to_Z 0 [d1; d2]))
          else Raise ValueError
      | _ => Raise ValueError
      end
  | _ => if isna v then Ok PNaT else Raise TypeError
  end.

Definition plain_lib : Lib :=
  {| float_repr := integral_repr;
     float_of_str := decimal_float;
     numeric_of_str := decimal_number;
     to_datetime_date := map_result iso_date;
     int64_of_large_float := fun _ => - 2 ^ 63;
     title_text := title_from false |}.

(* ================================================================== *)
(** ** The delay, as the specification words it *)

Definition minute_of_day (t : time) : Z := t_hour t * 60 + t_minute t.

(** Whole minutes from the scheduled departure to the actual arrival on
    one reference date, the arrival moved to the following day when its
    time of day is earlier than the departure's. *)
Definition spec_span_minutes (scheduled actual : time) : Z :=
  if minute_of_day actual <? minute_of_day scheduled
  then minute_of_day actual + 1440 - minute_of_day scheduled
  else minute_of_day actual - minute_of_day scheduled.

(** The span minus the stated travel time, never below zero. *)
Definition spec_delay (scheduled actual : time) (travel : Z) : Z :=
  Z.max 0 (spec_span_minutes scheduled actual - travel).

(** Minutes [0 .. 1439] for which dividing the seconds of the span by 60
    does not give the minute count back (there are none). *)
Definition inexact_minutes : list Z :=
  filter (fun k =>
            negb (Float64.eqb
                    (Float64.div (total_seconds (mk_timedelta 0 (60 * k) 0))
                       (Float64.of_int 60))
                    (Float64.of_int k)))
    (map Z.of_nat (seq 0 1440)).

(** A cell [strptime] reads as a time: a string in the format. *)
Definition valid_time (v : pyobj) : bool :=
  match v with
  | PStr s => match strptime_HM s with Ok _ => true | Raise _ => false end
  | _ => false
  end.

(** A cell that holds an infinity. *)
Definition is_inf_cell (v : pyobj) : bool :=
  match v with PFloat f => Float64.is_inf f | _ => false end.

(** Lines 181-187: the three statements that build
    [velocidad_media_kmh]. *)
Definition velocidad_stages : list (DataFrame -> M DataFrame) :=
  [ derive "velocidad_media_kmh" speed_of_row;
    update "velocidad_media_kmh" (total (replace_inf PNA));
    update "velocidad_media_kmh" (total (fillna PNA)) ]%string.

(** Lines 120-121 on the column [puntuacion_cliente]. *)
Definition puntuacion_cliente_column `{Lib} (col : list pyobj)
  : result (list pyobj) :=
  match puntuacion_column col with
  | Ok c => Ok (clip 1 5 c)
  | Raise e => Raise e
  end.

(** The score read in one cell, 0 when none is: what
    [to_numeric(errors='coerce').fillna(0)] holds for the row, up to the
    storage of the column (an integer is stored as the float of the same
    value when the column holds floats). *)
Definition score_reading `{Lib} (v : pyobj) : pyobj :=
  if isna (numeric_cell v) then PInt 0 else numeric_cell v.

(** A reading the integer cast accepts whatever the storage: an integer
    every float column holds exactly, or a finite float. *)
Definition castable (r : pyobj) : bool :=
  match r with
  | PInt z => Z.abs z <? 2 ^ 53
  | PFloat f => Float64.is_finite f
  | _ => false
  end.

(** The integer the cast gives for a reading. *)
Definition score_cast `{Lib} (r : pyobj) : Z :=
  match r with
  | PInt z => z
  | PFloat f => if in_int64 (Float64.trunc f) then Float64.trunc f
                else int64_of_large_float f
  | _ => 0
  end.

(** The country a name or alias stands for, as the specification lists
    them. *)
Definition spec_country (s : string) : string :=
  if (String.eqb s "España" || String.eqb s "ESPAÑA" || String.eqb s "ES")%bool
  then "España"
  else if (String.eqb s "Portugal" || String.eqb s "PT")%bool
  then "Portugal"
  else if (String.eqb s "Marruecos" || String.eqb s "MARRUECOS"
           || String.eqb s "MAR")%bool
  then "Marruecos"
  else s.

(** A computation that calls no service: it only prints. *)
Definition quiet {A} (m : M A) : Prop :=
  Forall (fun ev => is_service_call ev = false) (events m).

(** The calls that write: to the processed bucket or to the table. *)
Definition is_output_call (ev : event) : bool :=
  match ev with
  | Upload _ _ | GetTable _ | LoadTable _ _ => true
  | _ => false
  end.

(** The 22 fields of the schema that come from the source records; the
    last two of the schema are derived. *)
Definition source_fields : list string := firstn 22 BQ_SCHEMA_COLUMNS.

(** Every column has one cell per row. *)
Definition rectangular (df : DataFrame) : Prop :=
  Forall (fun kc => List.length (snd kc) = nrows df) (columns df).

(** Lines 99-200 on the rows of the file: clean, derive, project. *)
Definition transform_and_reorder `{Lib} (rows : list record) : M DataFrame :=
  df <- transform (DataFrame_of_records rows) ;;
  reorder df.

(** [fields.get(key)] on the fields of a JSON object. *)
Definition dict_value (fields : record) (key : string) : pyobj :=
  match lookup key fields with
  | Some v => v
  | None => PNone
  end.

(** A JSON request whose body is the object with the given fields. *)
Definition storage_event (fields : record) : Request :=
  mk_request true (Ok (JDict fields)).

(** What every statement of the transformation keeps when it returns:
    the number of rows, one cell per row in every column, and the absence
    of the column [k]. *)
Definition keeps_shape (k : string) (f : DataFrame -> M DataFrame) : Prop :=
  forall df l df',
    f df = (l, Ok df') ->
    nrows df' = nrows df
    /\ (rectangular df -> rectangular df')
    /\ (lookup k (columns df) = None -> lookup k (columns df') = None).

(** A trip record with every source field, for the examples. *)
Definition trip (salida llegada : string) (minutos : pyobj) : record :=
  [ ("id_viaje", PStr "V001");
    ("fecha_viaje", PStr "2024-01-15");
    ("hora_salida_programada", PStr salida);
    ("hora_llegada_real", PStr llegada);
    ("origen_ciudad", PStr "madrid");
    ("destino_ciudad", PStr "lisboa");
    ("pais_operacion", PStr "ES");
    ("numero_viajeros", PStr "Cuarenta");
    ("distancia_km", PInt 120);
    ("tiempo_viaje_minutos", minutos);
    ("tarifa_media_por_viajero_eur", PStr "12,5");
    ("marca_autocar", PStr "volvo");
    ("modelo_autocar", PNone);
    ("matricula_autocar", PStr "1234ABC");
    ("tipo_servicio", PStr "regular");
    ("incidencia_averia", PBool false);
    ("descripcion_averia", PNone);
    ("costo_averia_eur", PNone);
    ("puntuacion_cliente", PInt 7);
    ("combustible_consumido_litros", PInt 30);
    ("id_conductor", PStr "C01");
    ("edad_conductor", PInt 45) ]%string.

(** Lines 215-257 on their own: the name of the archive file, the upload,
    the look-up of the table and the load job. *)
Definition output_file_name (w : World) : string :=
  ("transportation_data_transformed_" ++ timestamp w ++ ".csv")%string.

Definition table_id (w : World) : string :=
  (env_str (BIGQUERY_PROJECT_ID w) ++ "." ++ BIGQUERY_DATASET_ID ++ "."
   ++ BIGQUERY_TABLE_ID)%string.

Definition uri (w : World) : string :=
  ("gs://" ++ env_str (PROCESSED_BUCKET_NAME w) ++ "/" ++ output_file_name w)%string.

Definition load_phase (w : World) (df : DataFrame) : M (string * Z) :=
  try_except
    (emit (Upload (PROCESSED_BUCKET_NAME w) (output_file_name w)) ;;;
     lift (upload_from_string w (PROCESSED_BUCKET_NAME w) (output_file_name w) df) ;;;
     print (MsgSaved (output_file_name w)))
    (report_and_raise MsgSaveError) ;;;
  emit (GetTable (table_id w)) ;;;
  lift (get_table w (table_id w)) ;;;
  try_except
    (emit (LoadTable (uri w) (table_id w)) ;;;
     lift (load_table_from_uri w (uri w) (table_id w)) ;;;
     print MsgLoadStarted ;;;
     lift (load_job_result w (uri w) (table_id w)) ;;;
     print MsgLoadFinished)
    (report_and_raise MsgLoadError) ;;;
  ret ("OK"%string, 200).

(** The service calls of a complete run, in program order. *)
Definition service_calls (w : World) (bucket : pyobj) (name : string)
  : list event :=
  [ Download bucket name;
    Upload (PROCESSED_BUCKET_NAME w) (output_file_name w);
    GetTable (table_id w);
    LoadTable (uri w) (table_id w) ].

(** The four responses that end a run before it starts processing. *)
Definition rejections : list (string * Z) :=
  [ ("Not JSON", 400); ("Missing file/bucket info", 400);
    ("Not a JSON file", 200); ("Unexpected bucket", 200) ]%string.

(** The event passes the four checks of lines 58-79: the run processes
    the object [n]. *)
Definition accepted (w : World) (fields : record) (n : string) : Prop :=
  dict_value fields "name" = PStr n
  /\ truthy (PStr n) = true
  /\ truthy (dict_value fields "bucket") = true
  /\ endswith n ".json" = true
  /\ eq_env (dict_value fields "bucket") (RAW_BUCKET_NAME w) = true.

(** What a run prints and calls up to the end of the extraction. *)
Definition extraction_log (fields : record) (n : string) : list event :=
  [ Print (MsgProcessing n (dict_value fields "bucket"));
    Download (dict_value fields "bucket") n;
    Print MsgExtractionComplete ].

(** A world for the examples: the buckets "raw" and "processed", and
    services that answer as given. *)
Definition sample_world (download : result (list record))
  (up gt ld res : result unit) : World :=
  mk_world (Some "raw"%string) (Some "processed"%string) (Some "project"%string)
    (fun _ _ => download) "20240101000000"
    (fun _ _ _ => up) (fun _ => gt) (fun _ _ => ld) (fun _ _ => res).

Definition sample_event : record :=
  [("name", PStr "trips.json"); ("bucket", PStr "raw")]%string.

Definition sample_rows : list record :=
  [trip "08:00" "09:10" (PInt 50); trip "23:30" "00:15" (PInt 60)].

(** [time.strftime('%H:%M')] for minute [k] of the day. *)
Definition clock (k : Z) : string :=
  (two_digits (k / 60) ++ ":" ++ two_digits (k mod 60))%string.

(** Minutes [0 .. 1439] whose clock text [strptime] does not read back
    (there are none). *)
Definition unread_clocks : list Z :=
  filter (fun k =>
            negb (match strptime_HM (clock k) with
                  | Ok t => (t_hour t =? k / 60) && (t_minute t =? k mod 60)
                            && (t_second t =? 0) && (t_microsecond t =? 0)
                  | Raise _ => false
                  end))
    (map Z.of_nat (seq 0 1440)).

(* ================================================================== *)
(** ** Vocabulary for the rounding proofs *)

(** Shifting left by [n >= 0] places, on positives. *)
Definition pshl (p : positive) (n : Z) : positive :=
  match n with Zpos k => Pos.iter xO p k | _ => p end.

(** A mantissa with nothing shifted out of it yet. *)
Definition exact_record (m : positive) : shr_record :=
  {| shr_m := Zpos m; shr_r := false; shr_s := false |}.

(* ================================================================== *)
(** * Properties *)

(** ** Facts on binary64 arithmetic *)

Module Float64Facts.
Import Float64.

Ltac zfold :=
  change IntDef.Z.add with Z.add in *;
  change IntDef.Z.sub with Z.sub in *;
  change IntDef.Z.max with Z.max in *;
  change IntDef.Z.min with Z.min in *;
  change IntDef.Z.leb with Z.leb in *;
  change IntDef.Z.opp with Z.opp in *.

(** [digits2_pos] counts binary digits: one more than [Z.log2]. *)
Lemma digits2_log2 (p : positive) :
  Zpos (digits2_pos p) = Z.log2 (Zpos p) + 1.
Proof.
  assert (H : forall q, digits2_pos q = Pos.size q) by (induction q; simpl; congruence).
  destruct p as [p|p|]; simpl; rewrite ?H; lia.
Qed.

Lemma iter_xO_mul (p n : positive) :
  Zpos (Pos.iter xO p n) = Zpos p * 2 ^ Zpos n.
Proof.
  induction n as [|n IH] using Pos.peano_ind.
  - simpl. lia.
  - rewrite Pos.iter_succ, Pos2Z.inj_xO, IH, Pos2Z.inj_succ, Z.pow_succ_r; lia.
Qed.

Lemma pshl_mul p n : 0 <= n -> Zpos (pshl p n) = Zpos p * 2 ^ n.
Proof.
  destruct n; simpl; intros; try lia. apply iter_xO_mul.
Qed.

Lemma digits_pshl p n :
  0 <= n -> Zpos (digits2_pos (pshl p n)) = Zpos (digits2_pos p) + n.
Proof.
  intros Hn. rewrite !digits2_log2, pshl_mul by assumption.
  rewrite Z.log2_mul_pow2; lia.
Qed.

Lemma iter_pos_nat {A} (f : A -> A) (n : positive) (x : A) :
  iter_pos f n x = Nat.iter (Pos.to_nat n) f x.
Proof.
  revert x. induction n as [n IH|n IH|]; intros x; simpl iter_pos.
  - rewrite !IH, Pos2Nat.inj_xI, <- Nat.iter_add, Nat.iter_succ_r.
    f_equal. lia.
  - rewrite !IH, Pos2Nat.inj_xO, <- Nat.iter_add. f_equal. lia.
  - reflexivity.
Qed.

(** Shifting right by the places just shifted in loses nothing. *)
Lemma shr_pshl (m n : positive) :
  iter_pos shr_1 n (exact_record (Pos.iter xO m n)) = exact_record m.
Proof.
  rewrite iter_pos_nat.
  induction n as [|n IH] using Pos.peano_ind.
  - reflexivity.
  - rewrite Pos.iter_succ, Pos2Nat.inj_succ, Nat.iter_succ_r. exact IH.
Qed.

(** A mantissa already in canonical position is not rounded. *)
Lemma round_canonical (s : bool) (m : positive) (e : Z) :
  fexp prec emax (Zpos (digits2_pos m) + e) = e ->
  e <= emax - prec ->
  binary_round_aux prec emax s (Zpos m) e loc_Exact = S754_finite s m e.
Proof.
  intros Hc He. unfold binary_round_aux, shr_fexp. simpl Zdigits2.
  rewrite Hc, Z.sub_diag.
  cbn [shr shr_record_of_loc shr_m loc_of_shr_record round_nearest_even Zdigits2].
  rewrite Hc, Z.sub_diag. cbn [shr shr_record_of_loc shr_m].
  apply Z.leb_le in He. zfold. rewrite He. reflexivity.
Qed.

Lemma fexp_small (d : Z) : 1 <= d -> fexp prec emax d = d - 53.
Proof. intros. unfold fexp, emin, prec, emax. zfold. lia. Qed.

Lemma pshl_add p n m : 0 <= n -> 0 <= m -> pshl (pshl p n) m = pshl p (n + m).
Proof.
  intros. apply Pos2Z.inj. rewrite !pshl_mul, Z.pow_add_r by lia. ring.
Qed.

(** Rounding after a right shift that only drops zeros. *)
Lemma round_aux_shift (s : bool) (m k : positive) (e : Z) :
  fexp prec emax (Zpos (digits2_pos m) + e) = e ->
  e <= emax - prec ->
  binary_round_aux prec emax s (Zpos (Pos.iter xO m k)) (e - Zpos k) loc_Exact
  = S754_finite s m e.
Proof.
  intros Hc He. unfold binary_round_aux, shr_fexp. simpl Zdigits2.
  change (Pos.iter xO m k) with (pshl m (Zpos k)).
  rewrite digits_pshl by lia.
  replace (Zpos (digits2_pos m) + Zpos k + (e - Zpos k))
    with (Zpos (digits2_pos m) + e) by lia.
  rewrite Hc. replace (e - (e - Zpos k)) with (Zpos k) by lia.
  cbn [shr shr_record_of_loc pshl].
  change {| shr_m := Zpos (Pos.iter xO m k); shr_r := false; shr_s := false |}
    with (exact_record (Pos.iter xO m k)).
  rewrite shr_pshl. unfold exact_record.
  cbn [shr_m loc_of_shr_record round_nearest_even Zdigits2 shr_record_of_loc].
  zfold. replace (e - Zpos k + Zpos k) with e by lia.
  rewrite Hc, Z.sub_diag. cbn [shr shr_m].
  apply Z.leb_le in He. rewrite He. reflexivity.
Qed.

(** The float of a mantissa [a] below [2^53], whatever number [n] of zero
    bits it is given with. *)
Lemma round_scaled (s : bool) (a : positive) (n : Z) :
  0 <= n -> Zpos (digits2_pos a) <= 53 ->
  binary_round prec emax s (pshl a n) (- n)
  = S754_finite s (pshl a (53 - Zpos (digits2_pos a))) (Zpos (digits2_pos a) - 53).
Proof.
  intros Hn Hd. set (d := Zpos (digits2_pos a)) in *.
  assert (Hd1 : 1 <= d) by (unfold d; lia).
  assert (Hcan : fexp prec emax (Zpos (digits2_pos (pshl a (53 - d))) + (d - 53)) = d - 53).
  { rewrite digits_pshl by lia. fold d.
    replace (d + (53 - d) + (d - 53)) with d by lia. now apply fexp_small. }
  assert (Hmax : d - 53 <= emax - prec) by (unfold emax, prec; lia).
  unfold binary_round. rewrite digits_pshl by lia. fold d. zfold.
  replace (d + n + - n) with d by lia. rewrite fexp_small by assumption.
  unfold shl_align. zfold.
  destruct (d - 53 - - n) as [|k|k] eqn:Ek.
  - replace n with (53 - d) by lia. replace (- (53 - d)) with (d - 53) by lia.
    now apply round_canonical.
  - replace (- n) with (d - 53 - Zpos k) by lia.
    replace (pshl a n) with (Pos.iter xO (pshl a (53 - d)) k).
    + now apply round_aux_shift.
    + change (Pos.iter xO (pshl a (53 - d)) k) with (pshl (pshl a (53 - d)) (Zpos k)).
      rewrite pshl_add by lia. f_equal. lia.
  - change (Pos.iter xO (pshl a n) k) with (pshl (pshl a n) (Zpos k)).
    rewrite pshl_add by lia. replace (n + Zpos k) with (53 - d) by lia.
    now apply round_canonical.
Qed.

Lemma digits_bound (a : positive) :
  Zpos a < 2 ^ 53 -> Zpos (digits2_pos a) <= 53.
Proof.
  intros H. rewrite digits2_log2.
  apply Z.log2_lt_pow2 in H; lia.
Qed.

Lemma round_int (s : bool) (a : positive) :
  Zpos a < 2 ^ 53 ->
  binary_round prec emax s a 0
  = S754_finite s (pshl a (53 - Zpos (digits2_pos a))) (Zpos (digits2_pos a) - 53).
Proof.
  intros H. apply (round_scaled s a 0); [lia | now apply digits_bound].
Qed.

(** Scaling an integer by a power of two before normalising changes
    nothing: the value is the same. *)
Lemma normalize_scaled (z n : Z) :
  Z.abs z < 2 ^ 53 -> 0 <= n ->
  binary_normalize prec emax (z * 2 ^ n) (- n) false = of_int z.
Proof.
  intros Hz Hn. unfold of_int. destruct z as [|a|a].
  - reflexivity.
  - rewrite <- pshl_mul by assumption. cbn [binary_normalize].
    rewrite round_scaled, round_int; auto using digits_bound.
  - replace (Zneg a * 2 ^ n) with (Zneg (pshl a n))
      by (rewrite <- !Pos2Z.opp_pos, pshl_mul by assumption; ring).
    cbn [binary_normalize].
    rewrite round_scaled, round_int; auto using digits_bound.
Qed.

(** The shape of [float(z)] for a non-zero integer below [2^53]. *)
Lemma of_int_finite (z : Z) :
  z <> 0 -> Z.abs z < 2 ^ 53 ->
  exists (m : positive) (e : Z),
    of_int z = S754_finite (z <? 0) m e
    /\ - 52 <= e <= 0 /\ Zpos m = Z.abs z * 2 ^ (- e).
Proof.
  intros Hz Hb.
  destruct z as [|a|a]; [congruence| |];
    (exists (pshl a (53 - Zpos (digits2_pos a))), (Zpos (digits2_pos a) - 53);
     assert (Zpos (digits2_pos a) <= 53) by (apply digits_bound; exact Hb);
     split; [apply round_int; exact Hb|];
     split; [lia|]; rewrite pshl_mul by lia; simpl Z.abs; f_equal; f_equal; lia).
Qed.

Lemma trunc_of_int (z : Z) : Z.abs z < 2 ^ 53 -> trunc (of_int z) = z.
Proof.
  intros Hb. destruct (Z.eq_dec z 0) as [->|Hz]; [reflexivity|].
  destruct (of_int_finite z Hz Hb) as (m & e & -> & He & Hm).
  unfold trunc. rewrite Z.shiftl_div_pow2, Hm, Z.div_mul by lia.
  unfold cond_Zopp. destruct (z <? 0) eqn:E; lia.
Qed.

Lemma ltb_zero_of_int (z : Z) :
  Z.abs z < 2 ^ 53 -> ltb zero (of_int z) = (0 <? z).
Proof.
  intros Hb. destruct (Z.eq_dec z 0) as [->|Hz]; [reflexivity|].
  destruct (of_int_finite z Hz Hb) as (m & e & -> & _).
  unfold ltb, SFltb, zero. simpl.
  destruct (z <? 0) eqn:E; destruct (0 <? z) eqn:F; try reflexivity; lia.
Qed.

Lemma shl_align_mul (m : positive) (e e' : Z) :
  e' <= e -> Zpos (fst (shl_align m e e')) = Zpos m * 2 ^ (e - e').
Proof.
  intros H. unfold shl_align. zfold.
  destruct (e' - e) as [|k|k] eqn:Ek; cbn [fst]; try lia.
  - replace (e - e') with 0 by lia. lia.
  - rewrite iter_xO_mul. f_equal. f_equal. lia.
Qed.

(** Subtraction of two integers is exact as long as operands and result
    stay below [2^53]. *)
Lemma sub_of_int (k t : Z) :
  Z.abs k < 2 ^ 53 -> Z.abs t < 2 ^ 53 -> Z.abs (k - t) < 2 ^ 53 ->
  sub (of_int k) (of_int t) = of_int (k - t).
Proof.
  intros Hk Ht Hkt.
  destruct (Z.eq_dec k 0) as [->|Hk0]; destruct (Z.eq_dec t 0) as [->|Ht0].
  - reflexivity.
  - destruct t as [|a|a]; [congruence| |]; unfold of_int; simpl Z.sub;
      cbn [binary_normalize]; rewrite !round_int by exact Ht; reflexivity.
  - rewrite Z.sub_0_r.
    destruct (of_int_finite k Hk0 Hk) as (m & e & -> & _). reflexivity.
  - destruct (of_int_finite k Hk0 Hk) as (mk & ek & -> & Hek & Hmk).
    destruct (of_int_finite t Ht0 Ht) as (mt & et & -> & Het & Hmt).
    unfold sub, SFsub. cbv zeta. zfold.
    set (ez := Z.min ek et).
    rewrite <- (normalize_scaled (k - t) (- ez)) by lia.
    rewrite Z.opp_involutive. f_equal.
    rewrite !shl_align_mul by lia. rewrite Hmk, Hmt.
    rewrite <- !Z.mul_assoc, <- !Z.pow_add_r by lia.
    replace (- ek + (ek - ez)) with (- ez) by lia.
    replace (- et + (et - ez)) with (- ez) by lia.
    unfold cond_Zopp. destruct (k <? 0) eqn:E1; destruct (t <? 0) eqn:E2; lia.
Qed.

(** *** Rounding in general *)

Lemma Zdigits2_log2 (m : Z) : 0 < m -> Zdigits2 m = Z.log2 m + 1.
Proof. destruct m; try lia. intros _. apply digits2_log2. Qed.

Lemma shr_1_half (r : shr_record) :
  0 <= shr_m r -> shr_m (shr_1 r) = shr_m r / 2.
Proof.
  destruct r as [m rr ss]. cbn [shr_m]. intros Hm.
  destruct m as [|[p|p|]|p]; cbn [shr_1 shr_m]; try lia.
  - reflexivity.
  - apply Z.div_unique with 1; lia.
  - apply Z.div_unique with 0; lia.
  - reflexivity.
Qed.

Lemma shr_nat_iter_div (k : nat) (r : shr_record) :
  0 <= shr_m r -> shr_m (Nat.iter k shr_1 r) = shr_m r / 2 ^ Z.of_nat k.
Proof.
  intros Hr. induction k as [|k IH].
  - cbn [Nat.iter Z.of_nat]. change (2 ^ 0) with 1. now rewrite Z.div_1_r.
  - rewrite Nat.iter_succ, shr_1_half, IH.
    + rewrite Z.div_div, Nat2Z.inj_succ, Z.pow_succ_r by lia.
      f_equal. lia.
    + rewrite IH. apply Z.div_pos; lia.
Qed.

Lemma shr_iter_div (n : positive) (r : shr_record) :
  0 <= shr_m r -> shr_m (iter_pos shr_1 n r) = shr_m r / 2 ^ Zpos n.
Proof.
  intros Hr. rewrite iter_pos_nat, shr_nat_iter_div, positive_nat_Z by assumption.
  reflexivity.
Qed.

Lemma loc_of_record_of_loc m l :
  loc_of_shr_record (shr_record_of_loc m l) = l.
Proof. destruct l as [|[ | | ]]; reflexivity. Qed.

Lemma shr_m_record_of_loc m l : shr_m (shr_record_of_loc m l) = m.
Proof. destruct l as [|[ | | ]]; reflexivity. Qed.

Lemma round_nearest_even_bounds m l :
  m <= round_nearest_even m l <= m + 1.
Proof.
  unfold round_nearest_even. zfold.
  destruct l as [|[ | | ]]; try lia. destruct (Z.even m); lia.
Qed.

Lemma log2_div_pow2 (m n : Z) :
  0 < m -> 0 <= n <= Z.log2 m ->
  0 < m / 2 ^ n /\ Z.log2 (m / 2 ^ n) = Z.log2 m - n.
Proof.
  intros Hm Hn. rewrite <- Z.shiftr_div_pow2 by lia.
  assert (H : Z.log2 (Z.shiftr m n) = Z.log2 m - n)
    by (rewrite Z.log2_shiftr by lia; lia).
  split; [|exact H].
  destruct (Z.le_gt_cases (Z.shiftr m n) 0) as [Hle|]; [|assumption].
  assert (Hs : 0 <= Z.shiftr m n) by (apply Z.shiftr_nonneg; lia).
  assert (Hz : Z.shiftr m n = 0) by lia.
  apply Z.shiftr_eq_0_iff in Hz. destruct Hz as [Hz|[_ Hz]]; lia.
Qed.

(** Rounding a positive mantissa neither underflows to zero nor
    overflows when its magnitude is well inside the binary64 range.  The
    result keeps the sign, and its magnitude in digits stays put or grows
    by one. *)
Lemma round_aux_finite (s : bool) (m e : Z) (l : location) :
  0 < m -> e <= 971 ->
  - 1021 <= Z.log2 m + 1 + e <= 1023 ->
  exists (m' : positive) (e' : Z),
    binary_round_aux prec emax s m e l = S754_finite s m' e'
    /\ e <= e'
    /\ Z.log2 m + 1 + e <= Z.log2 (Zpos m') + 1 + e' <= Z.log2 m + 1 + e + 1.
Proof.
  intros Hm He HD. set (D := Z.log2 m + 1) in *.
  assert (HD1 : 1 <= D) by (pose proof (Z.log2_nonneg m); lia).
  unfold binary_round_aux, shr_fexp. rewrite (Zdigits2_log2 m Hm). fold D. zfold.
  assert (Hf : forall x, - 1021 <= x -> fexp prec emax x = x - 53)
    by (intros; unfold fexp, emin, prec, emax; zfold; lia).
  rewrite Hf by lia.
  (* first shift *)
  assert (exists r1 e1,
     shr (shr_record_of_loc m l) e (D + e - 53 - e) = (r1, e1)
     /\ 0 < shr_m r1 /\ e <= e1 /\ e1 <= 971
     /\ Z.log2 (shr_m r1) + 1 + e1 = D + e
     /\ Z.log2 (shr_m r1) + 1 <= Z.max D 53 /\ (D <= 53 -> Z.log2 (shr_m r1) + 1 = D)
     /\ (53 <= D -> Z.log2 (shr_m r1) + 1 = 53)) as (r1 & e1 & -> & Hr1 & Hee1 & He1 & Hv1 & Hd1 & Hd1' & Hd1'').
  { unfold shr. destruct (D + e - 53 - e) as [|n|n] eqn:En.
    - eexists _, _. split; [reflexivity|]. rewrite shr_m_record_of_loc. fold D. lia.
    - eexists _, _. split; [reflexivity|].
      rewrite shr_iter_div by (rewrite shr_m_record_of_loc; lia).
      rewrite shr_m_record_of_loc.
      destruct (log2_div_pow2 m (Zpos n) Hm) as [Hp Hl]; [unfold D in *; lia|].
      rewrite Hl. fold D. zfold. lia.
    - eexists _, _. split; [reflexivity|]. rewrite shr_m_record_of_loc. fold D. lia. }
  set (m2 := round_nearest_even (shr_m r1) (loc_of_shr_record r1)).
  pose proof (round_nearest_even_bounds (shr_m r1) (loc_of_shr_record r1)) as Hm2.
  fold m2 in Hm2.
  assert (Hm2pos : 0 < m2) by lia.
  assert (HD2 : Z.log2 (shr_m r1) <= Z.log2 m2 <= Z.log2 (shr_m r1) + 1).
  { split; [apply Z.log2_le_mono; lia|].
    etransitivity; [apply Z.log2_le_mono; apply (proj2 Hm2)|].
    apply (Z.log2_succ_le (shr_m r1)). }
  rewrite (Zdigits2_log2 m2 Hm2pos). rewrite Hf by lia.
  unfold shr.
  destruct (Z.log2 m2 + 1 + e1 - 53 - e1) as [|n|n] eqn:En.
  - cbn [shr_m shr_record_of_loc]. destruct m2 as [|p|p] eqn:Ep; try lia.
    exists p, e1. replace (e1 <=? emax - prec) with true
      by (symmetry; apply Z.leb_le; unfold emax, prec; lia).
    repeat split; lia.
  - assert (Hn : Zpos n = 1) by lia. injection Hn as ->.
    cbn [iter_pos]. rewrite shr_1_half by (cbn [shr_m shr_record_of_loc]; lia).
    cbn [shr_m shr_record_of_loc]. change (Z.pos 2) with 2.
    destruct (log2_div_pow2 m2 1 Hm2pos) as [Hp Hl]; [lia|].
    change (2 ^ 1) with 2 in Hp, Hl.
    destruct (m2 / 2) as [|p|p] eqn:Ep; try lia.
    exists p, (e1 + 1). zfold.
    replace (e1 + 1 <=? emax - prec) with true
      by (symmetry; apply Z.leb_le; unfold emax, prec; lia).
    repeat split; lia.
  - cbn [shr_m shr_record_of_loc]. destruct m2 as [|p|p] eqn:Ep; try lia.
    exists p, e1. replace (e1 <=? emax - prec) with true
      by (symmetry; apply Z.leb_le; unfold emax, prec; lia).
    repeat split; lia.
Qed.


(** [binary_round] first shifts the mantissa left into position, which
    keeps its magnitude, then rounds. *)
Lemma round_finite (s : bool) (a : positive) (e : Z) :
  e <= 971 -> - 1021 <= Z.log2 (Zpos a) + 1 + e <= 1023 ->
  exists (m' : positive) (e' : Z),
    binary_round prec emax s a e = S754_finite s m' e'
    /\ Z.min e (Z.log2 (Zpos a) + 1 + e - 53) <= e'
    /\ Z.log2 (Zpos a) + 1 + e <= Z.log2 (Zpos m') + 1 + e'
       <= Z.log2 (Zpos a) + 1 + e + 1.
Proof.
  intros He HD. unfold binary_round. rewrite digits2_log2.
  assert (Hf : fexp prec emax (Z.log2 (Zpos a) + 1 + e) = Z.log2 (Zpos a) + 1 + e - 53)
    by (unfold fexp, emin, prec, emax; zfold; lia).
  zfold. rewrite Hf. unfold shl_align. zfold.
  destruct (Z.log2 (Zpos a) + 1 + e - 53 - e) as [|k|k] eqn:Ek.
  - destruct (round_aux_finite s (Zpos a) e loc_Exact) as (m' & e' & E & H1 & H2);
      try lia.
    exists m', e'. rewrite E. repeat split; lia.
  - destruct (round_aux_finite s (Zpos a) e loc_Exact) as (m' & e' & E & H1 & H2);
      try lia.
    exists m', e'. rewrite E. repeat split; lia.
  - pose proof (digits_pshl a (Zpos k) ltac:(lia)) as Hd.
    rewrite !digits2_log2 in Hd. cbn [pshl] in Hd.
    destruct (round_aux_finite s (Zpos (Pos.iter xO a k))
                (Z.log2 (Zpos a) + 1 + e - 53) loc_Exact)
      as (m' & e' & E & H1 & H2); try lia.
    exists m', e'. rewrite E. repeat split; lia.
Qed.

(** [float(z)] is finite for every integer of moderate size. *)
Lemma of_int_any (z : Z) :
  z <> 0 -> Z.abs z < 2 ^ 1000 ->
  exists (m : positive) (e : Z),
    of_int z = S754_finite (z <? 0) m e
    /\ - 52 <= e
    /\ Z.log2 (Z.abs z) + 1 <= Z.log2 (Zpos m) + 1 + e <= Z.log2 (Z.abs z) + 2.
Proof.
  intros Hz Hb.
  assert (HL : 0 <= Z.log2 (Z.abs z) < 1000).
  { split; [apply Z.log2_nonneg|]. apply Z.log2_lt_pow2; lia. }
  unfold of_int. destruct z as [|a|a]; [congruence| |]; cbn [binary_normalize Z.abs] in *.
  - destruct (round_finite false a 0) as (m & e & E & H1 & H2); [lia|lia|].
    exists m, e. split; [exact E|]. lia.
  - destruct (round_finite true a 0) as (m & e & E & H1 & H2); [lia|lia|].
    exists m, e. split; [exact E|]. lia.
Qed.

(** Normalising a non-zero integer mantissa of moderate size gives a
    finite float of the same sign. *)
Lemma normalize_finite (M e : Z) :
  M <> 0 -> - 200 <= e <= 200 -> Z.abs M < 2 ^ 500 ->
  exists (m' : positive) (e' : Z),
    binary_normalize prec emax M e false = S754_finite (M <? 0) m' e'.
Proof.
  intros HM He Hb.
  assert (HL : 0 <= Z.log2 (Z.abs M) < 500).
  { split; [apply Z.log2_nonneg|]. apply Z.log2_lt_pow2; lia. }
  destruct M as [|a|a]; [congruence| |]; cbn [binary_normalize Z.abs] in *.
  - destruct (round_finite false a e) as (m & e' & E & _); try lia. eauto.
  - destruct (round_finite true a e) as (m & e' & E & _); try lia. eauto.
Qed.


Lemma ltb_zero_finite (s : bool) (m : positive) (e : Z) :
  ltb zero (S754_finite s m e) = negb s.
Proof. destruct s; reflexivity. Qed.

(** The difference of two integers below [2^64] converted to float is finite,
    and it is not positive when the second is positive and longer than
    the first by two binary digits. *)
Lemma sub_of_int_any (k t : Z) :
  Z.abs k < 2 ^ 64 -> Z.abs t < 2 ^ 64 ->
  is_finite (sub (of_int k) (of_int t)) = true
  /\ (0 <= k -> 0 < t -> Z.log2 k + 2 < Z.log2 t + 1 ->
      ltb zero (sub (of_int k) (of_int t)) = false).
Proof.
  intros Hk Ht.
  destruct (Z.eq_dec t 0) as [->|Ht0].
  - destruct (Z.eq_dec k 0) as [->|Hk0]; [split; [reflexivity|lia]|].
    destruct (of_int_any k Hk0) as (m & e & -> & _); [lia|].
    split; [reflexivity|lia].
  - destruct (of_int_any t Ht0) as (mt & et & Et & Het & Hdt); [lia|].
    destruct (Z.eq_dec k 0) as [->|Hk0].
    + rewrite Et. cbn. split; [reflexivity|]. intros _ Hpos _.
      destruct (t <? 0) eqn:E; [lia|reflexivity].
    + destruct (of_int_any k Hk0) as (mk & ek & Ek & Hek & Hdk); [lia|].
      assert (HLk : 0 <= Z.log2 (Z.abs k) < 64)
        by (split; [apply Z.log2_nonneg|apply Z.log2_lt_pow2; lia]).
      assert (HLt : 0 <= Z.log2 (Z.abs t) < 64)
        by (split; [apply Z.log2_nonneg|apply Z.log2_lt_pow2; lia]).
      pose proof (Z.log2_nonneg (Zpos mk)) as Hmk0.
      pose proof (Z.log2_nonneg (Zpos mt)) as Hmt0.
      rewrite Ek, Et. unfold sub, SFsub. cbv zeta. zfold.
      set (ez := Z.min ek et).
      rewrite !shl_align_mul by lia.
      set (ak := Zpos mk * 2 ^ (ek - ez)). set (at_ := Zpos mt * 2 ^ (et - ez)).
      assert (Hak : 0 < ak /\ Z.log2 ak = Z.log2 (Zpos mk) + (ek - ez)).
      { unfold ak. rewrite Z.log2_mul_pow2 by lia. split; [|lia].
        apply Z.mul_pos_pos; [lia|]. apply Z.pow_pos_nonneg; lia. }
      assert (Hat : 0 < at_ /\ Z.log2 at_ = Z.log2 (Zpos mt) + (et - ez)).
      { unfold at_. rewrite Z.log2_mul_pow2 by lia. split; [|lia].
        apply Z.mul_pos_pos; [lia|]. apply Z.pow_pos_nonneg; lia. }
      set (M := cond_Zopp (k <? 0) ak - cond_Zopp (t <? 0) at_).
      assert (HM : Z.abs M < 2 ^ 500).
      { assert (ak < 2 ^ 250) by (apply Z.log2_lt_pow2; lia).
        assert (at_ < 2 ^ 250) by (apply Z.log2_lt_pow2; lia).
        assert (2 ^ 250 + 2 ^ 250 < 2 ^ 500) by reflexivity.
        unfold M, cond_Zopp. destruct (k <? 0), (t <? 0); lia. }
      destruct (Z.eq_dec M 0) as [HM0|HM0].
      * rewrite HM0. cbn. split; [reflexivity|]. reflexivity.
      * destruct (normalize_finite M ez HM0) as (m' & e' & ->); [lia|exact HM|].
        split; [reflexivity|]. intros Hk1 Ht1 Hlog.
        rewrite ltb_zero_finite.
        assert (ak < at_).
        { apply Z.log2_lt_cancel. rewrite Z.abs_eq in * by lia. lia. }
        unfold M. destruct (k <? 0) eqn:E1; destruct (t <? 0) eqn:E2; try lia.
        unfold cond_Zopp. destruct (ak - at_ <? 0) eqn:E3; [reflexivity|lia].
Qed.


End Float64Facts.
Import Float64 Float64Facts.

(** [t / 60] is a positive float for every positive 64-bit [t]: it is
    never zero, so dividing by it is safe. *)
Lemma quotient_60_finite (t : Z) :
  0 < t < 2 ^ 63 ->
  exists (m : positive) (e : Z), int_quotient t 60 = S754_finite false m e.
Proof.
  intros Ht.
  assert (HL : 0 <= Z.log2 t < 63)
    by (split; [apply Z.log2_nonneg|apply Z.log2_lt_pow2; lia]).
  unfold int_quotient, SFdiv_core_binary.
  rewrite (Z.abs_eq t) by lia. change (Z.abs 60) with 60.
  rewrite (Zdigits2_log2 t) by lia. change (Zdigits2 60) with 6.
  replace (t <? 0) with false by (symmetry; apply Z.ltb_ge; lia).
  change (xorb false (60 <? 0)) with false. zfold.
  replace (fexp prec emax (Z.log2 t + 1 + 0 - (6 + 0))) with (Z.log2 t - 58)
    by (unfold fexp, emin, prec, emax; zfold; lia).
  change (IntDef.Z.shiftl) with Z.shiftl. change (IntDef.Z.div_eucl) with Z.div_eucl.
  set (e' := Z.min (Z.log2 t - 58) (0 - 0)).
  set (m' := match 0 - 0 - e' with
             | 0 => t | Zpos _ => Z.shiftl t (0 - 0 - e') | Zneg _ => 0 end).
  assert (Hm' : m' = t * 2 ^ (- e') /\ 0 <= - e').
  { unfold m'. destruct (0 - 0 - e') as [|p|p] eqn:E; try lia.
    - replace (- e') with 0 by lia. split; lia.
    - rewrite Z.shiftl_mul_pow2 by lia. replace (- e') with (Zpos p) by lia. split; lia. }
  destruct Hm' as [Hm' He'].
  assert (Hlog : Z.log2 m' = Z.log2 t - e') by (rewrite Hm', Z.log2_mul_pow2; lia).
  assert (Hbig : 2 ^ 58 <= m').
  { apply Z.log2_le_pow2; [rewrite Hm'; apply Z.mul_pos_pos; [lia|apply Z.pow_pos_nonneg; lia]|].
    unfold e' in *. lia. }
  pose proof (Z.div_eucl_eq m' 60 ltac:(lia)) as Hdiv.
  pose proof (Z.mod_pos_bound m' 60 ltac:(lia)) as Hmod.
  unfold Z.modulo in Hmod.
  destruct (Z.div_eucl m' 60) as [q r]. 
  assert (Hq : 2 ^ 52 <= q <= m').
  { change (2 ^ 58) with (64 * 2 ^ 52) in Hbig. lia. }
  assert (HLq : 52 <= Z.log2 q <= Z.log2 m').
  { split; [apply Z.log2_le_pow2; lia|apply Z.log2_le_mono; lia]. }
  destruct (round_aux_finite false q e' (new_location 60 r)) as (m & e & E & _);
    [lia|unfold e'; lia|unfold e' in *; lia|].
  eauto.
Qed.



Example delay_midnight :
  calculate_delay (PStr "23:30") (PStr "00:15") (PInt 45) = ([], Ok (PInt 0)).
Proof. vm_compute. reflexivity. Qed.

Example delay_morning :
  calculate_delay (PStr "08:00") (PStr "09:10") (PInt 50) = ([], Ok (PInt 20)).
Proof. vm_compute. reflexivity. Qed.

(* ================================================================== *)
(** ** [strptime] *)

Lemma digit_in_value (lo hi c : ascii) :
  digit_in lo hi c = true ->
  Z.of_N (N_of_ascii lo) - 48 <= digit_value c <= Z.of_N (N_of_ascii hi) - 48.
Proof.
  unfold digit_in, digit_value. rewrite andb_true_iff, !N.leb_le. lia.
Qed.

Lemma digit_0_1 (c : ascii) : digit_in "0" "1" c = true -> 0 <= digit_value c <= 1.
Proof. exact (digit_in_value "0" "1" c). Qed.

Lemma digit_0_3 (c : ascii) : digit_in "0" "3" c = true -> 0 <= digit_value c <= 3.
Proof. exact (digit_in_value "0" "3" c). Qed.

Lemma digit_0_5 (c : ascii) : digit_in "0" "5" c = true -> 0 <= digit_value c <= 5.
Proof. exact (digit_in_value "0" "5" c). Qed.

Lemma digit_0_9 (c : ascii) : is_digit c = true -> 0 <= digit_value c <= 9.
Proof. exact (digit_in_value "0" "9" c). Qed.

Lemma group_H_twenties (s : string) (h : Z) (r : string) :
  In (h, r)
    (match s with
     | String "2" (String d r) =>
         if digit_in "0" "3" d then [(20 + digit_value d, r)] else []
     | _ => []
     end) ->
  0 <= h < 24.
Proof.
  destruct s as [|c [|d r']].
  - intros [].
  - destruct c as [[] [] [] [] [] [] [] []]; intros [].
  - destruct c as [[] [] [] [] [] [] [] []];
      try (intros H; exact (False_ind _ H)).
    cbv beta iota.
    destruct (digit_in "0" "3" d) eqn:E; [|intros []].
    cbn [In]. intros [H|[]].
    assert (Hh : h = 20 + digit_value d) by congruence.
    apply digit_0_3 in E. lia.
Qed.

Lemma group_H_range (s : string) (h : Z) (r : string) :
  In (h, r) (group_H s) -> 0 <= h < 24 /\ s <> EmptyString.
Proof.
  unfold group_H. rewrite !in_app_iff. intros [H|[H|H]].
  - split; [eapply group_H_twenties; eassumption|].
    intros ->. destruct H.
  - destruct s as [|c [|d r']]; try destruct H.
    destruct (digit_in "0" "1" c) eqn:E1; cbn [andb] in H; [|destruct H].
    destruct (is_digit d) eqn:E2; [|destruct H].
    destruct H as [H|[]].
    assert (Hh : h = 10 * digit_value c + digit_value d) by congruence.
    apply digit_0_1 in E1. apply digit_0_9 in E2. split; [lia|discriminate].
  - destruct s as [|c r']; [destruct H|].
    destruct (is_digit c) eqn:E; [|destruct H].
    destruct H as [H|[]].
    assert (Hh : h = digit_value c) by congruence.
    apply digit_0_9 in E. split; [lia|discriminate].
Qed.

Lemma group_M_range (s : string) (m : Z) (r : string) :
  In (m, r) (group_M s) -> 0 <= m < 60.
Proof.
  unfold group_M. rewrite in_app_iff. intros [H|H].
  - destruct s as [|c [|d r']]; try destruct H.
    destruct (digit_in "0" "5" c) eqn:E1; cbn [andb] in H; [|destruct H].
    destruct (is_digit d) eqn:E2; [|destruct H].
    destruct H as [H|[]].
    assert (Hh : m = 10 * digit_value c + digit_value d) by congruence.
    apply digit_0_5 in E1. apply digit_0_9 in E2. lia.
  - destruct s as [|c r']; [destruct H|].
    destruct (is_digit c) eqn:E; [|destruct H].
    destruct H as [H|[]].
    assert (Hh : m = digit_value c) by congruence.
    apply digit_0_9 in E. lia.
Qed.

Lemma first_match_range (hs : list (Z * string)) (h m : Z) (tail : string) :
  first_match hs = Some (h, m, tail) ->
  (exists r, In (h, r) hs) /\ 0 <= m < 60.
Proof.
  induction hs as [|[h0 rest] hs IH]; cbn [first_match]; [discriminate|].
  intros H.
  assert (Hrec : first_match hs = Some (h, m, tail) ->
                 (exists r, In (h, r) ((h0, rest) :: hs)) /\ 0 <= m < 60).
  { intros H'. destruct (IH H') as [[r Hr] Hm]. split; [exists r; now right|exact Hm]. }
  destruct rest as [|c rest']; [auto|].
  destruct (Ascii.eqb_spec c ":") as [->|Hc].
  - destruct (group_M rest') as [|[m0 t0] ms] eqn:EM; [auto|].
    injection H as <- <- <-. split; [exists (String ":" rest'); now left|].
    apply (group_M_range rest' m0 t0). rewrite EM. now left.
  - destruct c as [[] [] [] [] [] [] [] []]; auto; congruence.
Qed.

(** A string [strptime] accepts is not empty and denotes an hour below
    24 and a minute below 60, with no seconds. *)
Lemma strptime_HM_range (s : string) (t : time) :
  strptime_HM s = Ok t ->
  s <> EmptyString
  /\ 0 <= t_hour t < 24 /\ 0 <= t_minute t < 60
  /\ t_second t = 0 /\ t_microsecond t = 0.
Proof.
  unfold strptime_HM.
  destruct (first_match (group_H s)) as [[[h m] tail]|] eqn:E; [|discriminate].
  destruct tail; [|discriminate]. intros H. injection H as <-.
  destruct (first_match_range _ _ _ _ E) as [[r Hr] Hm].
  destruct (group_H_range _ _ _ Hr) as [Hh Hs]. cbn. auto.
Qed.

(* ================================================================== *)
(** ** The arithmetic of [calculate_delay] *)

Lemma float_eqb_eq (x y : float) : Float64.eqb x y = true -> x = y.
Proof.
  destruct x as [a|a| |a m e], y as [b|b| |b n f]; cbn; try discriminate;
    try reflexivity.
  - intros H. apply Bool.eqb_prop in H. congruence.
  - intros H. apply Bool.eqb_prop in H. congruence.
  - rewrite !andb_true_iff. intros [[H1 H2] H3].
    apply Bool.eqb_prop in H1. apply Pos.eqb_eq in H2. apply Z.eqb_eq in H3.
    congruence.
Qed.

Lemma no_inexact_minutes : inexact_minutes = [].
Proof. vm_compute. reflexivity. Qed.

(** Dividing the seconds of a span of [k] whole minutes below one day by
    60 gives exactly the float [k]. *)
Lemma minutes_exact (k : Z) :
  0 <= k < 1440 ->
  Float64.div (total_seconds (mk_timedelta 0 (60 * k) 0)) (Float64.of_int 60)
  = Float64.of_int k.
Proof.
  intros Hk. apply float_eqb_eq.
  destruct (Float64.eqb _ _) eqn:E; [reflexivity|exfalso].
  assert (H : In k inexact_minutes).
  { unfold inexact_minutes.
    refine (proj2 (filter_In _ k (map Z.of_nat (seq 0 1440))) (conj _ _)).
    - replace k with (Z.of_nat (Z.to_nat k)) by lia.
      apply in_map. refine (proj2 (in_seq _ _ _) _).
      assert (Hn : (Z.to_nat k < Z.to_nat 1440)%nat) by (apply Z2Nat.inj_lt; lia).
      change (Z.to_nat 1440) with 1440%nat in Hn.
      split; [apply Nat.le_0_l|exact Hn].
    - rewrite E. reflexivity. }
  rewrite no_inexact_minutes in H. destruct H.
Qed.

Lemma dummy_date_ordinal : datetime_ymd 2000 1 1 = mk_datetime 730120 midnight.
Proof. reflexivity. Qed.

Lemma time_ltb_minutes (a b : time) :
  t_second a = 0 -> t_microsecond a = 0 ->
  t_second b = 0 -> t_microsecond b = 0 ->
  0 <= t_minute a < 60 -> 0 <= t_minute b < 60 ->
  time_ltb a b = (minute_of_day a <? minute_of_day b).
Proof.
  intros Sa Ua Sb Ub Ma Mb. unfold time_ltb, minute_of_day.
  rewrite Sa, Ua, Sb, Ub.
  destruct (Z.ltb_spec (t_hour a) (t_hour b)); cbn [orb];
    [symmetry; apply Z.ltb_lt; lia|].
  destruct (Z.eqb_spec (t_hour a) (t_hour b)); cbn [andb];
    [|symmetry; apply Z.ltb_ge; lia].
  destruct (Z.ltb_spec (t_minute a) (t_minute b)); cbn [orb];
    [symmetry; apply Z.ltb_lt; lia|].
  destruct (Z.eqb_spec (t_minute a) (t_minute b)); cbn;
    symmetry; apply Z.ltb_ge; lia.
Qed.

(** The span [actual_dt - scheduled_dt] after the overnight adjustment:
    no days, [60 * spec_span_minutes] seconds. *)
Lemma elapsed_span (ts ta : time) :
  0 <= t_hour ts < 24 -> 0 <= t_minute ts < 60 ->
  t_second ts = 0 -> t_microsecond ts = 0 ->
  0 <= t_hour ta < 24 -> 0 <= t_minute ta < 60 ->
  t_second ta = 0 -> t_microsecond ta = 0 ->
  let scheduled_dt := combine (datetime_ymd 2000 1 1) ts in
  let actual_dt := combine (datetime_ymd 2000 1 1) ta in
  exists actual_dt',
    (if datetime_ltb actual_dt scheduled_dt
     then datetime_add actual_dt (timedelta_new 1 0 0)
     else Ok actual_dt) = Ok actual_dt'
    /\ datetime_sub actual_dt' scheduled_dt
       = mk_timedelta 0 (60 * spec_span_minutes ts ta) 0
    /\ 0 <= spec_span_minutes ts ta < 1440.
Proof.
  intros Hs Ms Ss Us Ha Ma Sa Ua. cbv zeta.
  rewrite dummy_date_ordinal. unfold combine, datetime_ltb.
  cbn [dt_ordinal dt_time]. rewrite Z.ltb_irrefl, Z.eqb_refl. cbn [orb andb].
  rewrite time_ltb_minutes by assumption.
  unfold spec_span_minutes.
  destruct ts as [hs ms ss us], ta as [ha ma sa ua].
  cbn [t_hour t_minute t_second t_microsecond] in *. subst.
  unfold minute_of_day; cbn [t_hour t_minute].
  destruct (Z.ltb_spec (ha * 60 + ma) (hs * 60 + ms)) as [Hlt|Hge].
  - unfold datetime_add, timedelta_new, seconds_of_day.
    cbn [dt_ordinal dt_time t_hour t_minute t_second t_microsecond
         td_days td_seconds td_microseconds].
    change (0 / 1000000) with 0. change (0 mod 1000000) with 0.
    change (0 + 0) with 0. change (0 / 86400) with 0. change (0 mod 86400) with 0.
    rewrite !Z.add_0_r, !Z.add_0_l.
    assert (Hsec : 0 <= ma * 60 + ha * 3600 < 86400) by lia.
    rewrite (Z.div_small _ 86400), (Z.mod_small _ 86400) by lia.
    rewrite Z.add_0_r. change (730120 + 1) with 730121.
    change ((0 <? 730121) && (730121 <=? MAXORDINAL)) with true. cbv iota.
    eexists. split; [reflexivity|]. split; [|lia].
    unfold datetime_sub, timedelta_new, seconds_of_day.
    cbn [dt_ordinal dt_time t_hour t_minute t_second t_microsecond].
    change (0 - 0) with 0. change (0 / 1000000) with 0.
    change (0 mod 1000000) with 0. rewrite !Z.add_0_r, !Z.add_0_l.
    change (730121 - 730120) with 1.
    assert (E1 : (ma * 60 + ha * 3600) mod 3600 mod 60 = 0)
      by (Z.div_mod_to_equations; lia).
    assert (E2 : (ma * 60 + ha * 3600) mod 3600 / 60 = ma)
      by (Z.div_mod_to_equations; lia).
    assert (E3 : (ma * 60 + ha * 3600) / 3600 = ha)
      by (Z.div_mod_to_equations; lia).
    rewrite E1, E2, E3, Z.add_0_l.
    change ((0 - 0) mod 1000000) with 0.
    f_equal; Z.div_mod_to_equations; lia.
  - eexists. split; [reflexivity|]. split; [|lia].
    unfold datetime_sub, timedelta_new, seconds_of_day.
    cbn [dt_ordinal dt_time t_hour t_minute t_second t_microsecond].
    change (0 - 0) with 0. change (0 / 1000000) with 0.
    change (0 mod 1000000) with 0. rewrite !Z.add_0_r, !Z.add_0_l.
    change (730120 - 730120) with 0.
    change ((0 - 0) mod 1000000) with 0.
    f_equal; Z.div_mod_to_equations; lia.
Qed.

(* ================================================================== *)
(** ** The monad *)

Lemma bind_ret {A B} (a : A) (k : A -> M B) : bind (ret a) k = k a.
Proof. unfold bind, ret. destruct (k a). reflexivity. Qed.

Lemma bind_lift_ok {A B} (a : A) (k : A -> M B) : bind (lift (Ok a)) k = k a.
Proof. exact (bind_ret a k). Qed.

Lemma bind_lift_raise {A B} (e : exn) (k : A -> M B) :
  bind (lift (Raise e)) k = ([], Raise e).
Proof. reflexivity. Qed.

(* ================================================================== *)
(** ** [calculate_delay] on well-formed times *)

Lemma of_int_not_inf (z : Z) :
  Z.abs z < 2 ^ 1000 -> Float64.is_inf (Float64.of_int z) = false.
Proof.
  intros Hz. destruct (Z.eq_dec z 0) as [->|Hz0]; [reflexivity|].
  destruct (of_int_any z Hz0 Hz) as (m & e & -> & _). reflexivity.
Qed.

Lemma int_of_float_of_int (z : Z) :
  Z.abs z < 2 ^ 53 -> int_of_float (Float64.of_int z) = Ok z.
Proof.
  intros Hz. pose proof (trunc_of_int z Hz) as Ht.
  destruct (Z.eq_dec z 0) as [->|Hz0]; [reflexivity|].
  destruct (of_int_finite z Hz0 Hz) as (m & e & E & _).
  rewrite E in *. cbn [int_of_float]. now rewrite Ht.
Qed.

(** What [calculate_delay] computes from two parsed times and an integer
    travel time: the clamped difference, in binary64. *)
Lemma calculate_delay_parsed (s a : string) (ts ta : time) (t : Z) :
  strptime_HM s = Ok ts -> strptime_HM a = Ok ta ->
  Z.abs t < 2 ^ 64 ->
  let delay := Float64.sub (Float64.of_int (spec_span_minutes ts ta))
                 (Float64.of_int t) in
  calculate_delay_try (PStr s) (PStr a) (PInt t)
  = if Float64.ltb Float64.zero delay
    then (z <- lift (int_of_float delay) ;; ret (PInt z))
    else ret (PInt 0).
Proof.
  intros Hs Ha Ht. cbv zeta.
  destruct (strptime_HM_range s ts Hs) as (Hs0 & Hhs & Hms & Hss & Hus).
  destruct (strptime_HM_range a ta Ha) as (Ha0 & Hha & Hma & Hsa & Hua).
  destruct (elapsed_span ts ta Hhs Hms Hss Hus Hha Hma Hsa Hua)
    as (ad' & Hadd & Hsub & Hspan).
  unfold calculate_delay_try.
  cbn [isinstance_str truthy negb orb strptime_obj].
  assert (Es : (s =? "")%string = false) by (apply String.eqb_neq; exact Hs0).
  assert (Ea : (a =? "")%string = false) by (apply String.eqb_neq; exact Ha0).
  rewrite Es, Ea. cbn [negb orb].
  rewrite Hs, Ha, !bind_lift_ok.
  replace (if datetime_ltb (combine (datetime_ymd 2000 1 1) ta)
                (combine (datetime_ymd 2000 1 1) ts)
           then lift (datetime_add (combine (datetime_ymd 2000 1 1) ta)
                        (timedelta_new 1 0 0))
           else ret (combine (datetime_ymd 2000 1 1) ta))
    with (lift (Ok ad')).
  2:{ rewrite <- Hadd. destruct (datetime_ltb _ _); reflexivity. }
  rewrite bind_lift_ok, Hsub, minutes_exact by exact Hspan.
  cbn [as_float]. rewrite of_int_not_inf, bind_lift_ok.
  - reflexivity.
  - assert (2 ^ 64 < 2 ^ 1000) by (apply Z.pow_lt_mono_r; lia). lia.
Qed.

(** C1 (as amended).  For two strings [strptime] accepts and an integer
    travel time [t] in the 64-bit range with [t >= -(2^53 - 1440)],
    [calculate_delay] prints nothing and returns the span in whole
    minutes from the scheduled departure to the actual arrival (the
    arrival taken on the following day when its time of day is earlier)
    minus [t], or 0 when that difference is negative. *)
Theorem calculate_delay_spec (s a : string) (ts ta : time) (t : Z) :
  strptime_HM s = Ok ts -> strptime_HM a = Ok ta ->
  - (2 ^ 53 - 1440) <= t < 2 ^ 63 ->
  calculate_delay (PStr s) (PStr a) (PInt t)
  = ([], Ok (PInt (spec_delay ts ta t))).
Proof.
  intros Hs Ha Ht.
  destruct (strptime_HM_range s ts Hs) as (_ & Hhs & Hms & Hss & Hus).
  destruct (strptime_HM_range a ta Ha) as (_ & Hha & Hma & Hsa & Hua).
  destruct (elapsed_span ts ta Hhs Hms Hss Hus Hha Hma Hsa Hua)
    as (_ & _ & _ & Hspan).
  unfold calculate_delay.
  rewrite (calculate_delay_parsed s a ts ta t Hs Ha) by lia.
  unfold spec_delay. set (k := spec_span_minutes ts ta) in *.
  destruct (Z.lt_ge_cases t (2 ^ 53)) as [Hsmall|Hbig].
  - rewrite sub_of_int, ltb_zero_of_int, int_of_float_of_int by lia.
    destruct (Z.ltb_spec 0 (k - t)).
    + rewrite bind_lift_ok. cbn. do 3 f_equal. lia.
    + cbn. do 3 f_equal. lia.
  - destruct (sub_of_int_any k t) as [_ Hneg]; try lia.
    rewrite Hneg; try lia.
    + cbn. do 3 f_equal. lia.
    + assert (Z.log2 k < 11).
      { destruct (Z.eq_dec k 0) as [->|]; [cbn; lia|].
        apply Z.log2_lt_pow2; lia. }
      assert (53 <= Z.log2 t) by (apply Z.log2_le_pow2; lia).
      lia.
Qed.

(** The two worked cases of C1, through the theorem. *)
Lemma calculate_delay_spec_witness :
  calculate_delay (PStr "23:30") (PStr "00:15") (PInt 45) = ([], Ok (PInt 0))
  /\ calculate_delay (PStr "08:00") (PStr "09:10") (PInt 50) = ([], Ok (PInt 20)).
Proof.
  split.
  - apply (calculate_delay_spec "23:30" "00:15" (mk_time 23 30 0 0)
             (mk_time 0 15 0 0) 45); [reflexivity|reflexivity|lia].
  - apply (calculate_delay_spec "08:00" "09:10" (mk_time 8 0 0 0)
             (mk_time 9 10 0 0) 50); [reflexivity|reflexivity|lia].
Defined.

(** C1 as stated fails: with a travel time of [-2^53] minutes the float
    subtraction rounds, and the result is one minute short. *)
Lemma calculate_delay_rounds :
  ~ (forall (s a : string) (ts ta : time) (t : Z),
        strptime_HM s = Ok ts -> strptime_HM a = Ok ta ->
        calculate_delay (PStr s) (PStr a) (PInt t)
        = ([], Ok (PInt (spec_delay ts ta t)))).
Proof.
  intros H.
  specialize (H "00:00"%string "00:01"%string (mk_time 0 0 0 0)
                (mk_time 0 1 0 0) (- 2 ^ 53) eq_refl eq_refl).
  vm_compute in H. discriminate H.
Qed.

(* ================================================================== *)
(** ** [calculate_delay] on missing or malformed times *)

Lemma strptime_HM_raises (s : string) (e : exn) :
  strptime_HM s = Raise e -> e = ValueError.
Proof.
  unfold strptime_HM.
  destruct (first_match (group_H s)) as [[[h m] [|c r]]|]; congruence.
Qed.

Lemma valid_time_spec (v : pyobj) :
  valid_time v = true <-> exists s t, v = PStr s /\ strptime_HM s = Ok t.
Proof.
  split.
  - destruct v as [| | | |s| | |]; cbn; try discriminate.
    destruct (strptime_HM s) as [t|e] eqn:E; [eauto|discriminate].
  - intros (s & t & -> & E). cbn. now rewrite E.
Qed.

(** With a time the format rejects or that is no string at all, the
    result is [None]: silently through the guard, or after the warning
    when [strptime] raises. *)
Lemma calculate_delay_invalid (scheduled actual travel : pyobj) :
  valid_time scheduled && valid_time actual = false ->
  calculate_delay scheduled actual travel = ([], Ok PNone)
  \/ calculate_delay scheduled actual travel
     = ([Print (MsgDelayWarning scheduled actual travel ValueError)], Ok PNone).
Proof.
  intros Hv. unfold calculate_delay, calculate_delay_try.
  destruct (negb (isinstance_str scheduled) || negb (truthy scheduled)
            || negb (isinstance_str actual) || negb (truthy actual)) eqn:G;
    [left; reflexivity|].
  rewrite !orb_false_iff, !negb_false_iff in G.
  destruct G as [[[G1 _] G2] _].
  destruct scheduled as [| | | |s| | |]; try discriminate G1.
  destruct actual as [| | | |a| | |]; try discriminate G2.
  cbn [strptime_obj valid_time] in *.
  destruct (strptime_HM s) as [ts|e] eqn:Es.
  - destruct (strptime_HM a) as [ta|e] eqn:Ea; [discriminate Hv|].
    apply strptime_HM_raises in Ea. subst e. right. reflexivity.
  - apply strptime_HM_raises in Es. subst e. right. reflexivity.
Qed.

Lemma int_of_float_finite (x : float) :
  Float64.is_finite x = true -> int_of_float x = Ok (Float64.trunc x).
Proof. destruct x; cbn; congruence. Qed.

(** With an integer travel time below [2^64] in magnitude, no exception
    leaves [calculate_delay], whatever the two time cells hold. *)
Lemma calculate_delay_returns (scheduled actual : pyobj) (t : Z) :
  Z.abs t < 2 ^ 64 ->
  exists (log : list event) (v : pyobj),
    calculate_delay scheduled actual (PInt t) = (log, Ok v)
    /\ (valid_time scheduled && valid_time actual = false -> v = PNone)
    /\ Forall (fun ev => is_service_call ev = false) log.
Proof.
  intros Ht.
  destruct (valid_time scheduled && valid_time actual) eqn:Hv.
  - apply andb_true_iff in Hv. destruct Hv as [Hs Ha].
    apply valid_time_spec in Hs, Ha.
    destruct Hs as (s & ts & -> & Hs), Ha as (a & ta & -> & Ha).
    destruct (strptime_HM_range s ts Hs) as (_ & Hhs & Hms & Hss & Hus).
    destruct (strptime_HM_range a ta Ha) as (_ & Hha & Hma & Hsa & Hua).
    destruct (elapsed_span ts ta Hhs Hms Hss Hus Hha Hma Hsa Hua)
      as (_ & _ & _ & Hspan).
    unfold calculate_delay.
    rewrite (calculate_delay_parsed s a ts ta t Hs Ha Ht).
    destruct (sub_of_int_any (spec_span_minutes ts ta) t) as [Hfin _]; try lia.
    destruct (Float64.ltb _ _).
    + rewrite (int_of_float_finite _ Hfin), bind_lift_ok.
      eexists [], _. repeat split; [discriminate|constructor].
    + eexists [], _. repeat split; [discriminate|constructor].
  - destruct (calculate_delay_invalid scheduled actual (PInt t) Hv) as [E|E];
      rewrite E; eexists _, _; repeat split; auto; repeat constructor.
Qed.

(* ================================================================== *)
(** ** Row-wise application *)

Lemma mapM_seq_ok {B} (f : nat -> M B) (P : nat -> B -> Prop) (d : B)
  (n start : nat) :
  (forall i, (start <= i < start + n)%nat ->
             exists l v, f i = (l, Ok v) /\ P i v
                         /\ Forall (fun ev => is_service_call ev = false) l) ->
  exists l vs,
    mapM f (seq start n) = (l, Ok vs)
    /\ List.length vs = n
    /\ (forall j, (j < n)%nat -> P (start + j)%nat (nth j vs d))
    /\ Forall (fun ev => is_service_call ev = false) l.
Proof.
  revert start. induction n as [|n IH]; intros start H.
  - exists [], []. cbn. repeat split; [lia|constructor].
  - destruct (H start ltac:(lia)) as (l0 & v0 & E0 & P0 & F0).
    destruct (IH (S start)) as (l1 & vs & E1 & L1 & P1 & F1).
    { intros i Hi. apply H. lia. }
    exists (l0 ++ l1), (v0 :: vs).
    cbn [seq mapM]. rewrite E0. unfold bind at 1. rewrite E1.
    cbn. rewrite app_nil_r. repeat split.
    + now rewrite L1.
    + intros [|j] Hj.
      * now rewrite Nat.add_0_r.
      * replace (start + S j)%nat with (S start + j)%nat by lia.
        apply P1. lia.
    + apply Forall_app. split; assumption.
Qed.

Lemma infer_column_length (col : list pyobj) :
  List.length (infer_column col) = List.length col.
Proof.
  unfold infer_column.
  destruct (numeric_scan _ _ _ col); [|reflexivity].
  destruct (_ || _); [apply length_map|reflexivity].
Qed.

Lemma infer_column_nth (col : list pyobj) (i : nat) :
  nth i (infer_column col) NaN = nth i col NaN
  \/ nth i (infer_column col) NaN = to_float64 (nth i col NaN).
Proof.
  unfold infer_column.
  destruct (numeric_scan _ _ _ col); [|now left].
  destruct (_ || _); [|now left].
  right. change NaN with (to_float64 NaN) at 1. apply map_nth.
Qed.

Lemma infer_column_none (col : list pyobj) (i : nat) :
  nth i col NaN = PNone -> isna (nth i (infer_column col) NaN) = true.
Proof.
  intros H. destruct (infer_column_nth col i) as [E|E]; rewrite E, H; reflexivity.
Qed.

(** The rows are processed to the end: each row with a missing or
    malformed time gets a null delay and the other rows are computed. *)
Lemma apply_delay_continues (df : DataFrame) (cs ca ct : list pyobj) :
  getitem df "hora_salida_programada" = Ok cs ->
  getitem df "hora_llegada_real" = Ok ca ->
  getitem df "tiempo_viaje_minutos" = Ok ct ->
  (forall i, (i < nrows df)%nat ->
             exists t, nth i ct NaN = PInt t /\ in_int64 t = true) ->
  exists (log : list event) (col : list pyobj),
    apply_rows df delay_of_row = (log, Ok col)
    /\ List.length col = nrows df
    /\ (forall i, (i < nrows df)%nat ->
          valid_time (nth i cs NaN) && valid_time (nth i ca NaN) = false ->
          isna (nth i col NaN) = true)
    /\ Forall (fun ev => is_service_call ev = false) log.
Proof.
  intros Hcs Hca Hct Hint. unfold apply_rows.
  destruct (mapM_seq_ok (fun i => delay_of_row (row_get df i))
              (fun i v => valid_time (nth i cs NaN) && valid_time (nth i ca NaN) = false
                          -> v = PNone)
              NaN (nrows df) 0)
    as (log & vs & E & L & P & F).
  { intros i Hi. destruct (Hint i ltac:(lia)) as (t & Et & Ht).
    unfold delay_of_row, row_get. rewrite Hcs, Hca, Hct, !bind_lift_ok, Et.
    destruct (calculate_delay_returns (nth i cs NaN) (nth i ca NaN) t)
      as (l & v & Ev & Pv & Fv).
    - unfold in_int64 in Ht. apply andb_true_iff in Ht.
      rewrite Z.leb_le, Z.ltb_lt in Ht.
      assert (2 ^ 63 < 2 ^ 64) by reflexivity. lia.
    - eauto. }
  exists log, (infer_column vs). rewrite E. unfold bind. cbn.
  rewrite app_nil_r. repeat split.
  - now rewrite infer_column_length.
  - intros i Hi Hv. apply infer_column_none. apply (P i Hi Hv).
  - exact F.
Qed.

(** C5.  When either time cell is absent, empty, not a string or not in
    the HH:MM format, [calculate_delay] returns [None] (not 0) and raises
    nothing: it prints nothing (guard) or the one warning ([strptime]
    raised).  More generally a [ValueError] or [TypeError] raised inside
    the computation is printed and turned into [None]; with the integer
    travel times of the frame no other exception occurs, and the row-wise
    application goes on to the last row, calling no service. *)
Theorem delay_absent_not_raised :
  (forall scheduled actual travel : pyobj,
      valid_time scheduled && valid_time actual = false ->
      outcome (calculate_delay scheduled actual travel) = Ok PNone
      /\ (events (calculate_delay scheduled actual travel) = []
          \/ events (calculate_delay scheduled actual travel)
             = [Print (MsgDelayWarning scheduled actual travel ValueError)]))
  /\ (forall (scheduled actual travel : pyobj) (l : list event) (e : exn),
         calculate_delay_try scheduled actual travel = (l, Raise e) ->
         e = ValueError \/ e = TypeError ->
         calculate_delay scheduled actual travel
         = (l ++ [Print (MsgDelayWarning scheduled actual travel e)], Ok PNone))
  /\ (forall (df : DataFrame) (cs ca ct : list pyobj),
         getitem df "hora_salida_programada" = Ok cs ->
         getitem df "hora_llegada_real" = Ok ca ->
         getitem df "tiempo_viaje_minutos" = Ok ct ->
         (forall i, (i < nrows df)%nat ->
                    exists t, nth i ct NaN = PInt t /\ in_int64 t = true) ->
         exists (log : list event) (col : list pyobj),
           apply_rows df delay_of_row = (log, Ok col)
           /\ List.length col = nrows df
           /\ (forall i, (i < nrows df)%nat ->
                 valid_time (nth i cs NaN) && valid_time (nth i ca NaN) = false ->
                 isna (nth i col NaN) = true)
           /\ Forall (fun ev => is_service_call ev = false) log).
Proof.
  split; [|split].
  - intros scheduled actual travel Hv.
    destruct (calculate_delay_invalid scheduled actual travel Hv) as [E|E];
      rewrite E; cbn; auto.
  - intros scheduled actual travel l e E He. unfold calculate_delay.
    rewrite E. unfold try_except. destruct He as [-> | ->]; reflexivity.
  - exact apply_delay_continues.
Qed.

(** C5 on a frame of two rows: the second row has a malformed arrival
    time, its delay is null and the first row is still computed. *)
Lemma delay_absent_not_raised_witness :
  let df := mk_df 2 [("hora_salida_programada"%string, [PStr "23:30"; PStr "08:00"]);
                     ("hora_llegada_real"%string, [PStr "00:15"; PStr "late"]);
                     ("tiempo_viaje_minutos"%string, [PInt 45; PInt 50])] in
  outcome (calculate_delay (PStr "08:00") (PStr "late") (PInt 50)) = Ok PNone
  /\ exists log col,
       apply_rows df delay_of_row = (log, Ok col)
       /\ isna (nth 1 col NaN) = true.
Proof.
  cbv zeta. split.
  - apply (proj1 delay_absent_not_raised). reflexivity.
  - destruct (proj2 (proj2 delay_absent_not_raised)
                (mk_df 2 [("hora_salida_programada"%string, [PStr "23:30"; PStr "08:00"]);
                          ("hora_llegada_real"%string, [PStr "00:15"; PStr "late"]);
                          ("tiempo_viaje_minutos"%string, [PInt 45; PInt 50])])
                _ _ _ eq_refl eq_refl eq_refl)
      as (log & col & E & _ & H & _).
    + intros [|[|i]] Hi; cbn in Hi; try lia; eexists; split; reflexivity.
    + exists log, col. split; [exact E|]. apply H; [cbn; lia|reflexivity].
Defined.

(* ================================================================== *)
(** ** Frames: reading back what was assigned *)

Lemma lookup_upsert_same {A} (k : string) (v : A) (l : list (string * A)) :
  lookup k (upsert k v l) = Some v.
Proof.
  induction l as [|[k' v'] l IH]; cbn.
  - now rewrite String.eqb_refl.
  - destruct (String.eqb k k') eqn:E; cbn; rewrite ?String.eqb_refl, ?E; auto.
Qed.

Lemma lookup_upsert_other {A} (k k' : string) (v : A) (l : list (string * A)) :
  k' <> k -> lookup k' (upsert k v l) = lookup k' l.
Proof.
  intros Hk. apply String.eqb_neq in Hk.
  induction l as [|[k0 v0] l IH]; cbn.
  - now rewrite Hk.
  - destruct (String.eqb k k0) eqn:E; cbn.
    + apply String.eqb_eq in E. subst k0. now rewrite Hk.
    + destruct (String.eqb k' k0); auto.
Qed.

Lemma align_same (n : nat) (col : list pyobj) :
  List.length col = n -> align n col = col.
Proof.
  intros <-. unfold align. rewrite firstn_all, Nat.sub_diag. apply app_nil_r.
Qed.

Lemma align_length (n : nat) (col : list pyobj) : List.length (align n col) = n.
Proof.
  unfold align. rewrite length_app, length_firstn, repeat_length. lia.
Qed.

Lemma getitem_setitem_same (df : DataFrame) (name : string) (col : list pyobj) :
  getitem (setitem df name col) name = Ok (align (nrows df) col).
Proof. unfold getitem, setitem. cbn. now rewrite lookup_upsert_same. Qed.

Lemma getitem_setitem_other (df : DataFrame) (name name' : string) (col : list pyobj) :
  name' <> name -> getitem (setitem df name col) name' = getitem df name'.
Proof.
  intros H. unfold getitem, setitem. cbn. now rewrite lookup_upsert_other.
Qed.

Lemma upsert_twice {A} (k : string) (v w : A) (l : list (string * A)) :
  upsert k w (upsert k v l) = upsert k w l.
Proof.
  induction l as [|[k' v'] l IH]; cbn.
  - now rewrite String.eqb_refl.
  - destruct (String.eqb k k') eqn:E; cbn; rewrite ?String.eqb_refl, ?E; congruence.
Qed.

(** An update of a column just assigned: the column is transformed in
    place. *)
Lemma update_after_setitem (df : DataFrame) (name : string)
  (col : list pyobj) (f : list pyobj -> list pyobj) :
  List.length col = nrows df ->
  update name (total f) (setitem df name col) = ret (setitem df name (f col)).
Proof.
  intros Hl. unfold update. rewrite getitem_setitem_same, bind_lift_ok.
  unfold total. rewrite bind_lift_ok. unfold setitem, ret. cbn [nrows columns].
  rewrite upsert_twice. rewrite (align_same _ col Hl).
  reflexivity.
Qed.

(* ================================================================== *)
(** ** The average speed *)

Lemma speed_of_row_value (row : string -> result pyobj) (d : float) (t : Z) :
  row "tiempo_viaje_minutos"%string = Ok (PInt t) ->
  row "distancia_km"%string = Ok (PFloat d) ->
  in_int64 t = true ->
  speed_of_row row
  = ([], Ok (if 0 <? t
             then PFloat (Float64.div d (int_quotient t 60))
             else PInt 0)).
Proof.
  intros Ht Hd Hi. unfold speed_of_row.
  rewrite Ht, bind_lift_ok. cbn [gt_zero]. rewrite bind_lift_ok.
  destruct (Z.ltb_spec 0 t) as [Hpos|Hneg]; [|reflexivity].
  rewrite Hd, !bind_lift_ok.
  unfold in_int64 in Hi. apply andb_true_iff in Hi.
  rewrite Z.leb_le, Z.ltb_lt in Hi.
  destruct (quotient_60_finite t ltac:(lia)) as (m & e & E).
  assert (Hh : truediv (PInt t) (PInt 60) = Ok (PFloat (int_quotient t 60))).
  { unfold truediv, int_truediv. change (60 =? 0) with false. cbv iota.
    now rewrite E. }
  rewrite Hh, bind_lift_ok, E. reflexivity.
Qed.

Lemma nth_map_in {A B} (g : A -> B) (l : list A) (i : nat) (da : A) (db : B) :
  (i < List.length l)%nat -> nth i (map g l) db = g (nth i l da).
Proof.
  intros H. rewrite (nth_indep _ db (g da)) by (now rewrite length_map).
  apply map_nth.
Qed.

Lemma forallb_nth {A} (p : A -> bool) (l : list A) (i : nat) (d : A) :
  forallb p l = true -> (i < List.length l)%nat -> p (nth i l d) = true.
Proof.
  intros H Hi. rewrite forallb_forall in H. apply H. now apply nth_In.
Qed.

Lemma forallb_of_nth {A} (p : A -> bool) (l : list A) (d : A) :
  (forall i, (i < List.length l)%nat -> p (nth i l d) = true) ->
  forallb p l = true.
Proof.
  intros H. apply forallb_forall. intros x Hx.
  destruct (In_nth l x d Hx) as (i & Hi & <-). now apply H.
Qed.

Lemma fillna_length v col : List.length (fillna v col) = List.length col.
Proof. unfold fillna. destruct (_ && _); [reflexivity|apply length_map]. Qed.

(** Filling with a value that is not a missing one: every missing cell
    takes it, in any column. *)
Lemma fillna_fill (value : pyobj) (col : list pyobj) :
  isna value = false ->
  fillna value col = map (fun v => if isna v then value else v) col.
Proof. intros H. unfold fillna. now rewrite H. Qed.

Lemma replace_inf_length v col : List.length (replace_inf v col) = List.length col.
Proof. apply length_map. Qed.

Lemma replace_inf_none (new : pyobj) (col : list pyobj) :
  existsb is_inf_cell col = false -> replace_inf new col = col.
Proof.
  intros H. unfold replace_inf. rewrite <- (map_id col) at 2.
  apply map_ext_in. intros x Hx. destruct x as [| | |f| | | |]; try reflexivity.
  destruct (Float64.is_inf f) eqn:E; [|reflexivity].
  assert (Hex : existsb is_inf_cell col = true)
    by (apply existsb_exists; exists (PFloat f); now split).
  congruence.
Qed.

(** The two clean-up statements (lines 186-187) on a numeric column.  An
    infinity becomes [pandas.NA], and the column a column of objects;
    [fillna] then replaces [NaN] as well.  Without an infinity the column
    stays a float column, in which [fillna(pd.NA)] leaves [NaN]. *)
Lemma speed_column_clean (col : list pyobj) (i : nat) :
  is_numeric_column col = true -> (i < List.length col)%nat ->
  nth i (fillna PNA (replace_inf PNA col)) NaN
  = match nth i col NaN with
    | PFloat f => if Float64.is_inf f then PNA
                  else if Float64.is_nan f && existsb is_inf_cell col then PNA
                  else PFloat f
    | x => x
    end.
Proof.
  intros Hnum Hi.
  assert (Hcell := forallb_nth _ _ i NaN Hnum Hi).
  destruct (existsb is_inf_cell col) eqn:E.
  - assert (Hobj : is_numeric_column (replace_inf PNA col) = false).
    { apply not_true_is_false. intros Hn.
      apply existsb_exists in E. destruct E as (x & Hx & Hinf).
      unfold is_numeric_column in Hn. rewrite forallb_forall in Hn.
      specialize (Hn (PNA) ltac:(unfold replace_inf; apply in_map_iff; exists x;
                                 split; [|exact Hx];
                                 destruct x; try discriminate;
                                 cbn in Hinf; now rewrite Hinf)).
      discriminate. }
    unfold fillna. rewrite Hobj, andb_false_r. unfold replace_inf.
    rewrite map_map, (nth_map_in _ col i NaN NaN Hi).
    destruct (nth i col NaN) as [| |z|f| | | |]; try discriminate; [reflexivity|].
    destruct f as [s|s| |s m e]; reflexivity.
  - rewrite (replace_inf_none PNA col E). unfold fillna. rewrite Hnum.
    cbn [isna andb].
    destruct (nth i col NaN) as [| |z|f| | | |] eqn:Ec; try reflexivity.
    destruct (Float64.is_inf f) eqn:Ef; [|now rewrite andb_false_r].
    assert (Hex : existsb is_inf_cell col = true).
    { apply existsb_exists. exists (PFloat f). split; [|exact Ef].
      rewrite <- Ec. now apply nth_In. }
    congruence.
Qed.

(** C2 (as the code has it).  On a frame whose distances are floats and
    whose travel times are 64-bit integers (what lines 113 and 127 leave),
    lines 181-187 raise nothing and give every row
    [distancia_km / (tiempo_viaje_minutos / 60)] when the travel time is
    positive and the quotient finite, and 0 when the travel time is not
    positive.  No cell is an infinity: an infinite quotient becomes
    [pandas.NA].  A quotient that is [NaN] becomes [pandas.NA] only when
    some quotient of the frame is infinite; otherwise it stays [NaN] in
    the float column. *)
Theorem velocidad_media_kmh_spec (df : DataFrame) (cd ct : list pyobj) :
  getitem df "distancia_km" = Ok cd ->
  getitem df "tiempo_viaje_minutos" = Ok ct ->
  (forall i, (i < nrows df)%nat ->
             exists d t, nth i cd NaN = PFloat d /\ nth i ct NaN = PInt t
                         /\ in_int64 t = true) ->
  exists (log : list event) (out : list pyobj),
    run velocidad_stages df
    = (log, Ok (setitem df "velocidad_media_kmh" out))
    /\ Forall (fun ev => is_service_call ev = false) log
    /\ List.length out = nrows df
    /\ forall (i : nat) (d : float) (t : Z),
         (i < nrows df)%nat ->
         nth i cd NaN = PFloat d -> nth i ct NaN = PInt t ->
         (0 < t ->
          Float64.is_finite (Float64.div d (int_quotient t 60)) = true ->
          nth i out NaN = PFloat (Float64.div d (int_quotient t 60)))
         /\ (0 < t ->
             Float64.is_inf (Float64.div d (int_quotient t 60)) = true ->
             nth i out NaN = PNA)
         /\ (0 < t ->
             Float64.is_nan (Float64.div d (int_quotient t 60)) = true ->
             (nth i out NaN = NaN \/ nth i out NaN = PNA)
             /\ ((forall j d' t',
                     (j < nrows df)%nat ->
                     nth j cd NaN = PFloat d' -> nth j ct NaN = PInt t' ->
                     0 < t' ->
                     Float64.is_inf (Float64.div d' (int_quotient t' 60)) = false) ->
                 nth i out NaN = NaN)
             /\ (forall j d' t',
                    (j < nrows df)%nat ->
                    nth j cd NaN = PFloat d' -> nth j ct NaN = PInt t' ->
                    0 < t' ->
                    Float64.is_inf (Float64.div d' (int_quotient t' 60)) = true ->
                    nth i out NaN = PNA))
         /\ (t <= 0 ->
             nth i out NaN = PInt 0 \/ nth i out NaN = PFloat Float64.zero)
         /\ (forall f, nth i out NaN = PFloat f -> Float64.is_inf f = false).
Proof.
  intros Hcd Hct Hrows.
  destruct (mapM_seq_ok (fun i => speed_of_row (row_get df i))
              (fun i v => forall d t, nth i cd NaN = PFloat d ->
                                      nth i ct NaN = PInt t ->
                                      v = if 0 <? t
                                          then PFloat (Float64.div d (int_quotient t 60))
                                          else PInt 0)
              NaN (nrows df) 0)
    as (log & vs & E & L & P & F).
  { intros i Hi. destruct (Hrows i ltac:(lia)) as (d & t & Ed & Et & Hi64).
    eexists [], _. split; [|split; [|constructor]].
    - apply (speed_of_row_value (row_get df i) d t); unfold row_get;
        rewrite ?Hcd, ?Hct, ?Ed, ?Et; auto.
    - intros d' t' Ed' Et'. rewrite Ed in Ed'. rewrite Et in Et'.
      injection Ed' as <-. injection Et' as <-. reflexivity. }
  set (col := infer_column vs).
  set (out := fillna PNA (replace_inf PNA col)).
  assert (Lcol : List.length col = nrows df)
    by (unfold col; now rewrite infer_column_length).
  (* the cell of row [j] before the clean-up *)
  assert (Hcol : forall j d' t',
             (j < nrows df)%nat ->
             nth j cd NaN = PFloat d' -> nth j ct NaN = PInt t' ->
             (0 < t' -> nth j col NaN
                        = PFloat (Float64.div d' (int_quotient t' 60)))
             /\ (t' <= 0 -> nth j col NaN = PInt 0
                            \/ nth j col NaN = PFloat Float64.zero)).
  { intros j d' t' Hj Ed Et. specialize (P j Hj d' t' Ed Et). cbn [Nat.add] in P.
    destruct (Z.ltb_spec 0 t') as [Hpos|Hneg]; (split; [|intros; try lia]);
      try (intros; lia);
      destruct (infer_column_nth vs j) as [E'|E']; fold col in E';
      rewrite E', P; auto. }
  assert (Hnum : is_numeric_column col = true).
  { apply (forallb_of_nth _ _ NaN). intros j Hj.
    destruct (Hrows j ltac:(lia)) as (d' & t' & Ed & Et & _).
    destruct (Hcol j d' t' ltac:(lia) Ed Et) as [Hp Hn].
    destruct (Z.ltb_spec 0 t') as [Hpos|Hneg].
    - now rewrite (Hp Hpos).
    - destruct (Hn Hneg) as [-> | ->]; reflexivity. }
  (* the column holds an infinity exactly when a quotient is one *)
  assert (Hinf : existsb is_inf_cell col = true <->
                 exists j d' t',
                   (j < nrows df)%nat
                   /\ nth j cd NaN = PFloat d' /\ nth j ct NaN = PInt t'
                   /\ 0 < t'
                   /\ Float64.is_inf (Float64.div d' (int_quotient t' 60)) = true).
  { split.
    - intros Hex. apply existsb_exists in Hex. destruct Hex as (x & Hx & Hxi).
      destruct (In_nth col x NaN Hx) as (j & Hj & <-).
      destruct (Hrows j ltac:(lia)) as (d' & t' & Ed & Et & _).
      destruct (Hcol j d' t' ltac:(lia) Ed Et) as [Hp Hn].
      exists j, d', t'. split; [lia|]. split; [exact Ed|]. split; [exact Et|].
      destruct (Z.ltb_spec 0 t') as [Hpos|Hneg].
      + split; [exact Hpos|]. now rewrite (Hp Hpos) in Hxi.
      + destruct (Hn Hneg) as [E0|E0]; rewrite E0 in Hxi; discriminate.
    - intros (j & d' & t' & Hj & Ed & Et & Hpos & Hi).
      apply existsb_exists. exists (nth j col NaN).
      split; [apply nth_In; lia|].
      destruct (Hcol j d' t' Hj Ed Et) as [Hp _]. now rewrite (Hp Hpos). }
  exists log, out. split; [|split; [exact F|split]].
  - assert (Hderive : derive "velocidad_media_kmh" speed_of_row df
                      = (log, Ok (setitem df "velocidad_media_kmh" col))).
    { unfold derive, apply_rows. rewrite E. unfold bind, ret. cbn.
      now rewrite !app_nil_r. }
    assert (Hrest : forall df1,
               df1 = setitem df "velocidad_media_kmh" col ->
               (df2 <- update "velocidad_media_kmh" (total (replace_inf PNA)) df1 ;;
                df3 <- update "velocidad_media_kmh" (total (fillna PNA)) df2 ;;
                ret df3)
               = ret (setitem df "velocidad_media_kmh" out)).
    { intros df1 ->. rewrite update_after_setitem, bind_ret by exact Lcol.
      rewrite update_after_setitem, bind_ret by (now rewrite replace_inf_length).
      reflexivity. }
    unfold velocidad_stages. cbn [run]. rewrite Hderive.
    unfold bind at 1. rewrite (Hrest _ eq_refl). unfold ret.
    now rewrite app_nil_r.
  - unfold out. now rewrite fillna_length, replace_inf_length.
  - intros i d t Hi Ed Et.
    assert (Hout := speed_column_clean col i Hnum ltac:(lia)). fold out in Hout.
    destruct (Hcol i d t Hi Ed Et) as [Hp Hn].
    set (v := Float64.div d (int_quotient t 60)) in *.
    split; [|split; [|split; [|split]]].
    + intros Hpos Hfin. rewrite Hout, (Hp Hpos).
      destruct v; try discriminate; reflexivity.
    + intros Hpos Hi'. rewrite Hout, (Hp Hpos). now rewrite Hi'.
    + intros Hpos Hnan. rewrite Hout, (Hp Hpos).
      assert (Hv : v = S754_nan) by (destruct v; try discriminate; reflexivity).
      rewrite Hv. cbn [Float64.is_inf Float64.is_nan andb].
      split; [|split].
      * destruct (existsb is_inf_cell col); [now right|now left].
      * intros Hno. destruct (existsb is_inf_cell col) eqn:Ex; [|reflexivity].
        destruct (proj1 Hinf eq_refl) as (j & d' & t' & Hj & Ed' & Et' & Hpos' & Hi').
        rewrite (Hno j d' t' Hj Ed' Et' Hpos') in Hi'. discriminate.
      * intros j d' t' Hj Ed' Et' Hpos' Hi'.
        assert (Ex : existsb is_inf_cell col = true)
          by (apply Hinf; exists j, d', t'; auto).
        now rewrite Ex.
    + intros Hneg. rewrite Hout.
      destruct (Hn Hneg) as [E0|E0]; rewrite E0; [now left|now right].
    + intros f. rewrite Hout.
      assert (Hcell := forallb_nth _ _ i NaN Hnum ltac:(lia)).
      destruct (nth i col NaN) as [| |z|f0| | | |]; try discriminate.
      destruct (Float64.is_inf f0) eqn:Ef; [discriminate|].
      destruct (_ && _); [discriminate|]. intros H. now injection H as <-.
Qed.

(** C2 on two rows: distance 120 in 60 minutes gives 120.0, distance 100
    in 0 minutes gives 0. *)
Lemma velocidad_media_kmh_spec_witness :
  let df := mk_df 2 [("distancia_km"%string,
                      [PFloat (Float64.of_int 120); PFloat (Float64.of_int 100)]);
                     ("tiempo_viaje_minutos"%string, [PInt 60; PInt 0])] in
  exists log out,
    run velocidad_stages df = (log, Ok (setitem df "velocidad_media_kmh" out))
    /\ nth 0 out NaN = PFloat (Float64.of_int 120)
    /\ (nth 1 out NaN = PInt 0 \/ nth 1 out NaN = PFloat Float64.zero).
Proof.
  cbv zeta.
  destruct (velocidad_media_kmh_spec
              (mk_df 2 [("distancia_km"%string,
                         [PFloat (Float64.of_int 120); PFloat (Float64.of_int 100)]);
                        ("tiempo_viaje_minutos"%string, [PInt 60; PInt 0])])
              _ _ eq_refl eq_refl)
    as (log & out & E & _ & _ & H).
  - intros [|[|i]] Hi; cbn in Hi; try lia; eexists _, _;
      (split; [reflexivity|split; reflexivity]).
  - exists log, out. split; [exact E|]. split.
    + destruct (H 0%nat (Float64.of_int 120) 60 ltac:(cbn; lia) eq_refl eq_refl)
        as (H0 & _).
      rewrite H0; [vm_compute; reflexivity|lia|vm_compute; reflexivity].
    + destruct (H 1%nat (Float64.of_int 100) 0 ltac:(cbn; lia) eq_refl eq_refl)
        as (_ & _ & _ & H1 & _). apply H1. lia.
Defined.

(** C2, the counterexample: a distance that is [NaN] (the text "nan" is
    read as one) with a travel time of 30 minutes, beside a trip of 120 km
    in 50 minutes.  The first speed is [NaN] after line 187, not a null
    marker: [fillna(pd.NA)] leaves the float column as it is. *)
Lemma velocidad_nan_stays :
  run velocidad_stages
    (mk_df 2 [("distancia_km"%string, [NaN; PFloat (Float64.of_int 120)]);
              ("tiempo_viaje_minutos"%string, [PInt 30; PInt 50])])
  = ([], Ok (mk_df 2 [("distancia_km"%string, [NaN; PFloat (Float64.of_int 120)]);
                      ("tiempo_viaje_minutos"%string, [PInt 30; PInt 50]);
                      ("velocidad_media_kmh"%string,
                       [NaN; PFloat (Float64.of_int 144)])])).
Proof. vm_compute. reflexivity. Qed.

Example velocidad_two_rows :
  run velocidad_stages
    (mk_df 2 [("distancia_km"%string,
               [PFloat (Float64.of_int 120); PFloat (Float64.of_int 100)]);
              ("tiempo_viaje_minutos"%string, [PInt 60; PInt 0])])
  = ([], Ok (mk_df 2 [("distancia_km"%string,
                       [PFloat (Float64.of_int 120); PFloat (Float64.of_int 100)]);
                      ("tiempo_viaje_minutos"%string, [PInt 60; PInt 0]);
                      ("velocidad_media_kmh"%string,
                       [PFloat (Float64.of_int 120); PFloat Float64.zero])])).
Proof. vm_compute. reflexivity. Qed.

(** A distance so large that the quotient overflows: the cell is null,
    and so is the [NaN] of the other row, the column being one of objects
    by then. *)
Example velocidad_overflow :
  run velocidad_stages
    (mk_df 2 [("distancia_km"%string,
               [PFloat (S754_finite false 9007199254740991 971); NaN]);
              ("tiempo_viaje_minutos"%string, [PInt 1; PInt 30])])
  = ([], Ok (mk_df 2 [("distancia_km"%string,
                       [PFloat (S754_finite false 9007199254740991 971); NaN]);
                      ("tiempo_viaje_minutos"%string, [PInt 1; PInt 30]);
                      ("velocidad_media_kmh"%string, [PNA; PNA])])).
Proof. vm_compute. reflexivity. Qed.

(** [velocidad_stages] are the last three statements of the
    transformation. *)
Lemma stages_end `{Lib} : stages = firstn 21 stages ++ velocidad_stages.
Proof. reflexivity. Qed.

(* ================================================================== *)
(** ** Column conversions *)

Lemma map_result_nth {A B} (f : A -> result B) (l : list A) (out : list B)
  (da : A) (db : B) :
  map_result f l = Ok out ->
  List.length out = List.length l
  /\ forall i, (i < List.length l)%nat -> f (nth i l da) = Ok (nth i out db).
Proof.
  revert out. induction l as [|x l IH]; intros out; cbn [map_result].
  - intros H. injection H as <-. split; [reflexivity|cbn; lia].
  - destruct (f x) as [y|e] eqn:Ex; [|discriminate].
    destruct (map_result f l) as [ys|e]; [|discriminate].
    intros H. injection H as <-. destruct (IH ys eq_refl) as [L N].
    split; [cbn; now rewrite L|].
    intros [|i] Hi; [exact Ex|]. apply N. cbn in Hi. lia.
Qed.

Lemma map_result_raise {A B} (f : A -> result B) (l : list A) (x : A) (e : exn) :
  In x l -> f x = Raise e -> exists e', map_result f l = Raise e'.
Proof.
  induction l as [|y l IH]; [intros []|].
  intros [->|Hin] Hx; cbn [map_result].
  - rewrite Hx. eauto.
  - destruct (f y); [|eauto].
    destruct (IH Hin Hx) as [e' ->]. eauto.
Qed.

Lemma map_result_ok {A B} (f : A -> result B) (g : A -> B) (l : list A) :
  (forall x, In x l -> f x = Ok (g x)) -> map_result f l = Ok (map g l).
Proof.
  induction l as [|y l IH]; intros H; cbn [map_result map]; [reflexivity|].
  rewrite (H y) by now left. rewrite IH; [reflexivity|].
  intros x Hx. apply H. now right.
Qed.

Lemma in_int64_small (z : Z) : Z.abs z < 2 ^ 53 -> in_int64 z = true.
Proof.
  intros Hb. unfold in_int64. apply andb_true_intro.
  split; [apply Z.leb_le|apply Z.ltb_lt]; lia.
Qed.

Lemma wrap_int64_small (z : Z) :
  in_int64 z = true -> wrap_int64 (PInt z) = PInt z.
Proof.
  unfold in_int64, wrap_int64. intros Hz. apply andb_prop in Hz.
  destruct Hz as [_ Hz]. now rewrite Hz.
Qed.

(** A column in which a cell is not an integer is not a [uint64]
    column. *)
Lemma not_uint64_column (col : list pyobj) (v : pyobj) :
  In v col -> is_int v = false -> is_uint64_column col = false.
Proof.
  intros Hin Hv. unfold is_uint64_column.
  assert (E : forallb is_uint64 col = false).
  { apply not_true_is_false. intros E. rewrite forallb_forall in E.
    specialize (E v Hin). destruct v; discriminate. }
  now rewrite E.
Qed.

(** [astype(int)], cell by cell: where the conversion succeeds, an
    integer cell of the 64-bit range is kept and a finite float in that
    range is truncated, whichever way the column is stored. *)
Lemma astype_int_nth `{Lib} (col out : list pyobj) (i : nat) :
  astype_int col = Ok out -> (i < List.length col)%nat ->
  List.length out = List.length col
  /\ (forall z, nth i col NaN = PInt z -> in_int64 z = true ->
                nth i out NaN = PInt z)
  /\ (forall f, nth i col NaN = PFloat f ->
                Float64.is_finite f = true ->
                in_int64 (Float64.trunc f) = true ->
                nth i out NaN = PInt (Float64.trunc f))
  /\ (forall s, nth i col NaN = PStr s ->
                exists z, int_of_str s = Some z /\ nth i out NaN = PInt z).
Proof.
  unfold astype_int. intros Hout Hi.
  destruct (is_numeric_column col) eqn:Hnum.
  - destruct (existsb is_non_finite col); [discriminate|].
    injection Hout as <-. rewrite length_map. split; [reflexivity|].
    assert (Hn : nth i (map int64_of_number col) NaN
                 = int64_of_number (nth i col NaN))
      by (apply nth_map_in; exact Hi).
    rewrite Hn. repeat split.
    + intros z -> _. reflexivity.
    + intros f -> _ Hr. cbn. now rewrite Hr.
    + intros s Hs. apply (forallb_nth _ _ i NaN) in Hnum; [|exact Hi].
      rewrite Hs in Hnum. discriminate.
  - destruct (is_uint64_column col) eqn:Hu.
    { injection Hout as <-. rewrite length_map. split; [reflexivity|].
      rewrite (nth_map_in wrap_int64 col i NaN NaN Hi).
      assert (Hnot : forall v, nth i col NaN = v -> is_int v = false -> False).
      { intros v Hv Hint.
        rewrite (not_uint64_column col v) in Hu; [discriminate| |exact Hint].
        rewrite <- Hv. now apply nth_In. }
      repeat split.
      - intros z -> Hz. now apply wrap_int64_small.
      - intros f Hf. exfalso. now apply (Hnot _ Hf).
      - intros s Hs. exfalso. now apply (Hnot _ Hs). }
    destruct (map_result_nth _ _ _ NaN NaN Hout) as [L N].
    split; [exact L|]. specialize (N i Hi). unfold int64_of_object in N.
    repeat split.
    + intros z Hz _. rewrite Hz in N. cbn in N.
      destruct (in_int64 z); congruence.
    + intros f Hf Hfin Hr. rewrite Hf in N. cbn [py_int] in N.
      rewrite (int_of_float_finite f Hfin), Hr in N. congruence.
    + intros s Hs. rewrite Hs in N. cbn [py_int] in N.
      destruct (int_of_str s) as [z|]; [|discriminate].
      exists z. split; [reflexivity|].
      destruct (in_int64 z); congruence.
Qed.

(** One cell that [int] rejects makes [astype(int)] fail as a whole. *)
Lemma astype_int_text_fatal `{Lib} (col : list pyobj) (s : string) :
  In (PStr s) col -> int_of_str s = None ->
  exists e, astype_int col = Raise e.
Proof.
  intros Hin Hs. unfold astype_int.
  destruct (is_numeric_column col) eqn:Hnum.
  - unfold is_numeric_column in Hnum. rewrite forallb_forall in Hnum.
    specialize (Hnum _ Hin). discriminate.
  - rewrite (not_uint64_column col (PStr s) Hin eq_refl).
    apply (map_result_raise _ _ (PStr s) ValueError Hin).
    unfold int64_of_object. cbn. now rewrite Hs.
Qed.

Lemma fillna_nth (value : pyobj) (col : list pyobj) (i : nat) :
  isna value = false -> (i < List.length col)%nat ->
  nth i (fillna value col) NaN
  = if isna (nth i col NaN) then value else nth i col NaN.
Proof.
  intros Hv Hi. rewrite (fillna_fill value col Hv).
  now rewrite (nth_map_in _ _ i NaN NaN).
Qed.

Lemma replace_str_nth (old : string) (new : pyobj) (col : list pyobj) (i : nat) :
  (i < List.length col)%nat ->
  nth i (replace_str old new col) NaN
  = match nth i col NaN with
    | PStr s => if String.eqb s old then new else nth i col NaN
    | v => v
    end.
Proof.
  intros Hi. unfold replace_str. rewrite (nth_map_in _ _ i NaN NaN) by exact Hi.
  destruct (nth i col NaN); reflexivity.
Qed.

Lemma replace_str_length (old : string) (new : pyobj) (col : list pyobj) :
  List.length (replace_str old new col) = List.length col.
Proof. apply length_map. Qed.

(** The passenger count of one row after lines 105-106, before the cast. *)
Lemma numero_viajeros_cell (col : list pyobj) (i : nat) :
  (i < List.length col)%nat ->
  nth i (fillna (PInt 0) (replace_str "Cuarenta" (PInt 40) col)) NaN
  = match nth i col NaN with
    | PStr s => if String.eqb s "Cuarenta" then PInt 40 else PStr s
    | v => if isna v then PInt 0 else v
    end.
Proof.
  intros Hi. rewrite fillna_nth; [|reflexivity|now rewrite replace_str_length].
  rewrite replace_str_nth by exact Hi.
  destruct (nth i col NaN) as [| | | |s| | |]; try reflexivity.
  destruct (String.eqb s "Cuarenta"); reflexivity.
Qed.

(** C4 (as the code has it).  Where the normalisation of
    [numero_viajeros] returns a column, it has one cell per row and: the
    word "Cuarenta" gives 40, a missing value gives 0, an integer below
    [2^53] in magnitude is kept, a finite float whose integer part is in
    the 64-bit range is truncated toward zero, and any other text is the
    integer [int] reads in it.  Text in which [int] reads no integer
    (such as "abc" or "12.7") does not give 0: it makes the conversion
    raise, for the whole column.  (Nothing is said of larger numbers:
    beside a float or a null an integer is rounded to a float first, and
    integers of the unsigned 64-bit range wrap around.) *)
Theorem numero_viajeros_spec `{Lib} (col : list pyobj) :
  (forall out i,
      numero_viajeros_column col = Ok out -> (i < List.length col)%nat ->
      List.length out = List.length col
      /\ (nth i col NaN = PStr "Cuarenta" -> nth i out NaN = PInt 40)
      /\ (isna (nth i col NaN) = true -> nth i out NaN = PInt 0)
      /\ (forall z, nth i col NaN = PInt z -> Z.abs z < 2 ^ 53 ->
                    nth i out NaN = PInt z)
      /\ (forall f, nth i col NaN = PFloat f ->
                    Float64.is_finite f = true ->
                    in_int64 (Float64.trunc f) = true ->
                    nth i out NaN = PInt (Float64.trunc f))
      /\ (forall s, nth i col NaN = PStr s -> s <> "Cuarenta"%string ->
                    exists z, int_of_str s = Some z /\ nth i out NaN = PInt z))
  /\ (forall s, In (PStr s) col -> s <> "Cuarenta"%string ->
                int_of_str s = None ->
                exists e, numero_viajeros_column col = Raise e).
Proof.
  split.
  - intros out i Hout Hi. unfold numero_viajeros_column in Hout.
    set (c := fillna (PInt 0) (replace_str "Cuarenta" (PInt 40) col)) in *.
    assert (Lc : List.length c = List.length col)
      by (unfold c; now rewrite fillna_length, replace_str_length).
    assert (Hc := numero_viajeros_cell col i Hi). fold c in Hc.
    destruct (astype_int_nth c out i Hout) as (L & HI & HF & HS);
      [lia|].
    split; [lia|]. repeat split.
    + intros Hv. rewrite Hv in Hc. cbn in Hc. now apply HI.
    + intros Hna. apply HI; [|reflexivity]. rewrite Hc.
      destruct (nth i col NaN); try discriminate; try reflexivity.
      cbn in Hna |- *. now rewrite Hna.
    + intros z Hv Hb. rewrite Hv in Hc.
      apply HI; [exact Hc|now apply in_int64_small].
    + intros f Hv Hfin Hr. apply HF; [|exact Hfin|exact Hr].
      rewrite Hc, Hv. cbn [isna].
      destruct f; try discriminate; reflexivity.
    + intros s Hv Hs. apply HS. rewrite Hc, Hv.
      destruct (String.eqb_spec s "Cuarenta"); [contradiction|reflexivity].
  - intros s Hin Hs Hnone. unfold numero_viajeros_column.
    apply (astype_int_text_fatal _ s); [|exact Hnone].
    rewrite fillna_fill by reflexivity. unfold replace_str.
    rewrite map_map. apply in_map_iff.
    exists (PStr s). split; [|exact Hin].
    destruct (String.eqb_spec s "Cuarenta"); [contradiction|reflexivity].
Qed.

Lemma numero_viajeros_spec_witness :
  let col := [PStr "Cuarenta"; PNone; PInt 12; PStr " 7 "; NaN] in
  @numero_viajeros_column plain_lib col
  = Ok [PInt 40; PInt 0; PInt 12; PInt 7; PInt 0]
  /\ (nth 0 col NaN = PStr "Cuarenta" ->
      nth 0 [PInt 40; PInt 0; PInt 12; PInt 7; PInt 0] NaN = PInt 40)
  /\ (exists e, @numero_viajeros_column plain_lib [PInt 3; PStr "abc"] = Raise e).
Proof.
  intros col. split; [reflexivity|]. split.
  - exact (proj1 (proj2 (proj1 (@numero_viajeros_spec plain_lib col) _ 0%nat
                           eq_refl ltac:(cbn; lia)))).
  - apply (proj2 (@numero_viajeros_spec plain_lib [PInt 3; PStr "abc"]) "abc"%string).
    + cbn. right. left. reflexivity.
    + discriminate.
    + reflexivity.
Defined.

(** C4, the counterexample: a passenger count given as text that is not
    an integer literal does not become 0; the conversion raises
    [ValueError]. *)
Lemma numero_viajeros_text_raises :
  @numero_viajeros_column plain_lib [PStr "abc"] = Raise ValueError
  /\ @numero_viajeros_column plain_lib [PInt 3; PStr "12.7"] = Raise ValueError.
Proof. split; reflexivity. Qed.

(* ================================================================== *)
(** ** The customer score (lines 120-121) *)

Lemma of_int_small (z : Z) :
  Z.abs z < 2 ^ 53 ->
  Float64.is_finite (Float64.of_int z) = true
  /\ Float64.is_nan (Float64.of_int z) = false.
Proof.
  intros Hb. destruct (Z.eq_dec z 0) as [->|Hz]; [split; reflexivity|].
  destruct (of_int_finite z Hz Hb) as (m & e & -> & _). split; reflexivity.
Qed.

Lemma numeric_cell_shape `{Lib} (v : pyobj) :
  (exists z, numeric_cell v = PInt z) \/ (exists f, numeric_cell v = PFloat f).
Proof.
  destruct v as [|b|z|f|s|y m d| |]; cbn; unfold NaN; eauto.
  destruct (numeric_of_str s) as [[z|f]|]; eauto.
Qed.

Lemma to_numeric_length `{Lib} (col : list pyobj) :
  List.length (to_numeric_coerce col) = List.length col.
Proof.
  unfold to_numeric_coerce.
  destruct (_ && _); [apply length_map|].
  destruct (forallb is_uint64 _); now rewrite ?length_map.
Qed.

Lemma to_numeric_nth `{Lib} (col : list pyobj) (i : nat) :
  (i < List.length col)%nat ->
  nth i (to_numeric_coerce col) NaN = numeric_cell (nth i col NaN)
  \/ nth i (to_numeric_coerce col) NaN = to_float64 (numeric_cell (nth i col NaN)).
Proof.
  intros Hi. unfold to_numeric_coerce.
  destruct (_ && _); [left; now apply nth_map_in|].
  destruct (forallb is_uint64 _); [left; now apply nth_map_in|].
  right. rewrite map_map.
  exact (nth_map_in (fun x => to_float64 (numeric_cell x)) col i NaN NaN Hi).
Qed.

(** The cell the column holds for row [i] after
    [to_numeric(errors='coerce').fillna(0)]: the reading of the row, an
    integer reading being stored as a float when the column is one. *)
Lemma score_stored `{Lib} (col : list pyobj) (i : nat) :
  (i < List.length col)%nat ->
  let s := nth i (fillna (PInt 0) (to_numeric_coerce col)) NaN in
  s = score_reading (nth i col NaN)
  \/ (exists z, numeric_cell (nth i col NaN) = PInt z
                /\ s = if Float64.is_nan (Float64.of_int z) then PInt 0
                       else PFloat (Float64.of_int z)).
Proof.
  intros Hi s. unfold s.
  rewrite fillna_nth; [|reflexivity|now rewrite to_numeric_length].
  destruct (to_numeric_nth col i Hi) as [E|E]; rewrite E; [now left|].
  destruct (numeric_cell_shape (nth i col NaN)) as [[z Hz]|[f Hf]].
  - right. exists z. split; [exact Hz|]. rewrite Hz. reflexivity.
  - left. unfold score_reading. rewrite Hf. reflexivity.
Qed.

Lemma score_stored_length `{Lib} (col : list pyobj) :
  List.length (fillna (PInt 0) (to_numeric_coerce col)) = List.length col.
Proof.
  now rewrite fillna_length, to_numeric_length.
Qed.

(** A castable reading is stored as a number the cast accepts, and the
    cast gives [score_cast] of the reading. *)
Lemma score_stored_castable `{Lib} (col : list pyobj) (i : nat) :
  (i < List.length col)%nat ->
  castable (score_reading (nth i col NaN)) = true ->
  let s := nth i (fillna (PInt 0) (to_numeric_coerce col)) NaN in
  is_number s = true /\ is_non_finite s = false
  /\ int64_of_number s = PInt (score_cast (score_reading (nth i col NaN))).
Proof.
  intros Hi Hc s. destruct (score_stored col i Hi) as [E|(z & Hz & E)];
    fold s in E; rewrite E; clear E.
  - destruct (score_reading (nth i col NaN)) as [| |z|f| | | |];
      try discriminate; cbn in Hc |- *.
    + apply Z.leb_le in Hc || apply Z.ltb_lt in Hc.
      rewrite in_int64_small by exact Hc. auto.
    + rewrite Hc. repeat split. destruct (in_int64 _); reflexivity.
  - assert (Hr : score_reading (nth i col NaN) = PInt z)
      by (unfold score_reading; now rewrite Hz).
    rewrite Hr in Hc |- *. cbn in Hc. apply Z.ltb_lt in Hc.
    destruct (of_int_small z Hc) as [Hfin Hnan]. rewrite Hnan.
    cbn. rewrite Hfin, (trunc_of_int z Hc), (in_int64_small z Hc). auto.
Qed.

Lemma clip_nth (lo hi : Z) (col : list pyobj) (i : nat) (z : Z) :
  (i < List.length col)%nat -> nth i col NaN = PInt z ->
  nth i (clip lo hi col) NaN = PInt (Z.max lo (Z.min hi z)).
Proof.
  intros Hi Hz. unfold clip. rewrite (nth_map_in _ _ i NaN NaN) by exact Hi.
  now rewrite Hz.
Qed.

Lemma astype_int_cells `{Lib} (col out : list pyobj) (i : nat) :
  astype_int col = Ok out -> (i < List.length col)%nat ->
  exists z, nth i out NaN = PInt z.
Proof.
  unfold astype_int. intros Hout Hi.
  destruct (is_numeric_column col) eqn:Hnum.
  - destruct (existsb is_non_finite col); [discriminate|].
    injection Hout as <-. rewrite (nth_map_in _ _ i NaN NaN) by exact Hi.
    apply (forallb_nth _ _ i NaN) in Hnum; [|exact Hi].
    destruct (nth i col NaN); try discriminate; cbn.
    + eexists; reflexivity.
    + destruct (in_int64 _); eexists; reflexivity.
  - destruct (is_uint64_column col) eqn:Hu.
    { injection Hout as <-. rewrite (nth_map_in _ _ i NaN NaN) by exact Hi.
      unfold is_uint64_column in Hu. apply andb_prop in Hu. destruct Hu as [Hu _].
      apply (forallb_nth _ _ i NaN) in Hu; [|exact Hi].
      destruct (nth i col NaN); try discriminate. eexists; reflexivity. }
    destruct (map_result_nth _ _ _ NaN NaN Hout) as [L N].
    specialize (N i Hi). unfold int64_of_object in N.
    destruct (py_int _) as [z|]; [|discriminate].
    destruct (in_int64 z); [|discriminate]. exists z. congruence.
Qed.

Lemma astype_int_inf_fatal `{Lib} (col : list pyobj) (f : float) :
  In (PFloat f) col -> Float64.is_finite f = false ->
  exists e, astype_int col = Raise e.
Proof.
  intros Hin Hf. unfold astype_int.
  destruct (is_numeric_column col).
  - assert (E : existsb is_non_finite col = true).
    { apply existsb_exists. exists (PFloat f). split; [exact Hin|].
      cbn. now rewrite Hf. }
    rewrite E. eauto.
  - rewrite (not_uint64_column col (PFloat f) Hin eq_refl).
    apply (map_result_raise _ _ (PFloat f)
             (match f with S754_nan => ValueError | _ => OverflowError end) Hin).
    unfold int64_of_object. destruct f; try discriminate; reflexivity.
Qed.

(** C7 (as the code has it).  The score of a row is read as a number,
    0 when it is missing or unreadable, cast to an integer and clamped.
    Whenever the two statements return a column, every cell is an integer
    between 1 and 5: a reading that is an integer [z] (below [2^53] in
    magnitude) gives [max 1 (min 5 z)], a finite float in the 64-bit
    range gives the clamp of its truncation, so a missing or unreadable
    score gives 1.  They do return one whenever every reading is such an
    integer or a finite float.  A score that reads as an infinity is not
    clamped: the cast raises. *)
Theorem puntuacion_cliente_spec `{Lib} (col : list pyobj) :
  (forall out i,
      puntuacion_cliente_column col = Ok out -> (i < List.length col)%nat ->
      List.length out = List.length col
      /\ (exists r, nth i out NaN = PInt r /\ 1 <= r <= 5)
      /\ (forall z, score_reading (nth i col NaN) = PInt z ->
                    Z.abs z < 2 ^ 53 ->
                    nth i out NaN = PInt (Z.max 1 (Z.min 5 z)))
      /\ (forall f, score_reading (nth i col NaN) = PFloat f ->
                    Float64.is_finite f = true ->
                    in_int64 (Float64.trunc f) = true ->
                    nth i out NaN
                    = PInt (Z.max 1 (Z.min 5 (Float64.trunc f))))
      /\ (isna (numeric_cell (nth i col NaN)) = true ->
          nth i out NaN = PInt 1))
  /\ (forallb castable (map score_reading col) = true ->
      puntuacion_cliente_column col
      = Ok (map (fun v => PInt (Z.max 1 (Z.min 5 (score_cast (score_reading v)))))
              col))
  /\ (forall f, In (PFloat f) (map score_reading col) ->
                Float64.is_finite f = false ->
                exists e, puntuacion_cliente_column col = Raise e).
Proof.
  split; [|split].
  - intros out i Hout Hi.
    unfold puntuacion_cliente_column, puntuacion_column in Hout.
    set (c := fillna (PInt 0) (to_numeric_coerce col)) in *.
    destruct (astype_int c) as [ints|] eqn:Hints; [|discriminate].
    injection Hout as <-.
    assert (Lc : List.length c = List.length col) by apply score_stored_length.
    destruct (astype_int_nth c ints i Hints) as (L & HI & HF & _); [lia|].
    destruct (astype_int_cells c ints i Hints) as [z0 Hz0]; [lia|].
    assert (Li : (i < List.length ints)%nat) by lia.
    assert (Hint : forall z, score_reading (nth i col NaN) = PInt z ->
                             Z.abs z < 2 ^ 53 -> nth i ints NaN = PInt z).
    { intros z Hr Hb.
      destruct (score_stored_castable col i Hi) as (_ & _ & Hcast).
      { rewrite Hr. cbn. now apply Z.ltb_lt. }
      fold c in Hcast. rewrite Hr in Hcast. cbn [score_cast] in Hcast.
      destruct (score_stored col i Hi) as [E|(z' & Hz' & E)]; fold c in E.
      - apply HI; [now rewrite E|now apply in_int64_small].
      - assert (z' = z) as ->.
        { unfold score_reading in Hr. rewrite Hz' in Hr. cbn in Hr. congruence. }
        destruct (of_int_small z Hb) as [Hfin Hnan]. rewrite Hnan in E.
        replace (PInt z) with (PInt (Float64.trunc (Float64.of_int z)))
          by (now rewrite (trunc_of_int z Hb)).
        apply HF; [exact E|exact Hfin|].
        rewrite (trunc_of_int z Hb). now apply in_int64_small. }
    split; [unfold clip; rewrite length_map; lia|]. repeat split.
    + exists (Z.max 1 (Z.min 5 z0)). split; [now apply clip_nth|lia].
    + intros z Hr Hb. apply clip_nth; [exact Li|]. now apply Hint.
    + intros f Hr Hfin Hrange. apply clip_nth; [exact Li|].
      apply HF; [|exact Hfin|exact Hrange].
      destruct (score_stored col i Hi) as [E|(z' & Hz' & E)]; fold c in E.
      * now rewrite E.
      * unfold score_reading in Hr. rewrite Hz' in Hr. discriminate.
    + intros Hna. rewrite (clip_nth 1 5 ints i 0 Li); [reflexivity|].
      apply Hint; [|reflexivity]. unfold score_reading. now rewrite Hna.
  - intros Hc. unfold puntuacion_cliente_column, puntuacion_column.
    set (c := fillna (PInt 0) (to_numeric_coerce col)).
    assert (Lc : List.length c = List.length col) by apply score_stored_length.
    assert (Hall : forall i, (i < List.length col)%nat ->
                             castable (score_reading (nth i col NaN)) = true).
    { intros i Hi. rewrite <- (nth_map_in score_reading col i NaN NaN Hi).
      apply forallb_nth; [exact Hc|now rewrite length_map]. }
    assert (Hints : astype_int c
                    = Ok (map (fun v => PInt (score_cast (score_reading v))) col)).
    { unfold astype_int.
      assert (Hnum : is_numeric_column c = true).
      { apply (forallb_of_nth _ _ NaN). intros i Hi.
        apply (score_stored_castable col i); [lia|apply Hall; lia]. }
      assert (Hfin : existsb is_non_finite c = false).
      { apply not_true_is_false. intros E. apply existsb_exists in E.
        destruct E as (x & Hx & Hnf).
        destruct (In_nth c x NaN Hx) as (i & Hi & <-).
        destruct (score_stored_castable col i) as (_ & Hnf' & _);
          [lia|apply Hall; lia|]. fold c in Hnf'. congruence. }
      rewrite Hnum, Hfin. f_equal.
      apply (nth_ext _ _ NaN NaN); [now rewrite !length_map|].
      intros i Hi. rewrite length_map in Hi.
      rewrite (nth_map_in _ c i NaN NaN) by lia.
      rewrite (nth_map_in _ col i NaN NaN) by lia.
      apply (score_stored_castable col i); [lia|apply Hall; lia]. }
    rewrite Hints. unfold clip. now rewrite map_map.
  - intros f Hin Hf. unfold puntuacion_cliente_column, puntuacion_column.
    set (c := fillna (PInt 0) (to_numeric_coerce col)).
    assert (Hin' : In (PFloat f) c).
    { apply in_map_iff in Hin. destruct Hin as (v & Hv & Hin).
      destruct (In_nth col v NaN Hin) as (i & Hi & <-).
      destruct (score_stored col i Hi) as [E|(z' & Hz' & E)]; fold c in E.
      - rewrite <- Hv, <- E. apply nth_In.
        unfold c. now rewrite score_stored_length.
      - unfold score_reading in Hv. rewrite Hz' in Hv. discriminate. }
    destruct (astype_int_inf_fatal c f Hin' Hf) as [e ->]. eauto.
Qed.

Lemma puntuacion_cliente_spec_witness :
  let col := [PInt 7; PInt (-3); PNone; PStr "4"; PStr "n/a"; PInt 3] in
  @puntuacion_cliente_column plain_lib col
  = Ok [PInt 5; PInt 1; PInt 1; PInt 4; PInt 1; PInt 3].
Proof.
  intros col.
  exact (proj1 (proj2 (@puntuacion_cliente_spec plain_lib col)) eq_refl).
Defined.

(** C7, the counterexample: a score that is an infinity (the JSON number
    [1e400] is read as one) is not clamped to 5; the cast to integer
    raises. *)
Lemma puntuacion_infinite_raises :
  @puntuacion_cliente_column plain_lib [PInt 4; PFloat Float64.inf]
  = Raise ValueError.
Proof. reflexivity. Qed.

(* ================================================================== *)
(** ** Text columns (lines 132-144) *)

(** The alias table is the one the specification lists. *)
Lemma country_get_spec (s : string) :
  country_get (PStr s) = PStr (spec_country s).
Proof.
  unfold country_get, spec_country, country_mapping. cbn [lookup].
  repeat (match goal with
          | |- context [String.eqb s ?k] =>
              destruct (String.eqb_spec s k) as [->|?]; cbn; try reflexivity
          end).
Qed.

(** C8.  [pais_operacion], row by row: a string is replaced by the
    country the alias table gives for it, and is kept when the table has
    no such key; a value of any other type is kept and written as text.
    The result is always text.  So "ES" becomes "España" and "pt" stays
    "pt". *)
Theorem pais_operacion_spec `{Lib} (col : list pyobj) (i : nat) :
  (i < List.length col)%nat ->
  List.length (pais_column col) = List.length col
  /\ nth i (pais_column col) NaN = PStr (py_str (country_get (nth i col NaN)))
  /\ (forall s, nth i col NaN = PStr s ->
                nth i (pais_column col) NaN = PStr (spec_country s)
                /\ (lookup s country_mapping = None -> spec_country s = s))
  /\ (forall v, nth i col NaN = v -> isinstance_str v = false ->
                nth i (pais_column col) NaN = PStr (py_str v)).
Proof.
  intros Hi. unfold pais_column, astype_str.
  assert (E : nth i (map (fun v => PStr (py_str v)) (map country_get col)) NaN
              = PStr (py_str (country_get (nth i col NaN)))).
  { rewrite map_map. now rewrite (nth_map_in _ col i NaN NaN). }
  split; [now rewrite !length_map|]. split; [exact E|]. split.
  - intros s Hs. rewrite E, Hs, country_get_spec. split; [reflexivity|].
    intros Hnone. assert (G := country_get_spec s).
    unfold country_get in G. rewrite Hnone in G. congruence.
  - intros v Hv Hstr. rewrite E, Hv.
    destruct v; try discriminate; reflexivity.
Qed.

Lemma pais_operacion_spec_witness :
  let col := [PStr "ES"; PStr "pt"; PStr "MAR"; PStr "PT"; PStr "Desconocido"] in
  nth 0 (@pais_column plain_lib col) NaN = PStr "España"
  /\ nth 1 (@pais_column plain_lib col) NaN = PStr "pt"
  /\ @pais_column plain_lib col
     = [PStr "España"; PStr "pt"; PStr "Marruecos"; PStr "Portugal";
        PStr "Desconocido"].
Proof.
  intros col.
  assert (H0 : (0 < List.length col)%nat) by (cbn; lia).
  assert (H1 : (1 < List.length col)%nat) by (cbn; lia).
  split; [|split].
  - exact (proj1 (proj1 (proj2 (proj2 (@pais_operacion_spec plain_lib col 0 H0)))
                    "ES"%string eq_refl)).
  - exact (proj1 (proj1 (proj2 (proj2 (@pais_operacion_spec plain_lib col 1 H1)))
                    "pt"%string eq_refl)).
  - reflexivity.
Defined.

Lemma str_title_col_nth `{Lib} (col : list pyobj) (i : nat) (s : string) :
  (i < List.length col)%nat -> nth i col NaN = PStr s ->
  nth i (str_title_col col) NaN = PStr (str_title s).
Proof.
  intros Hi Hs. unfold str_title_col.
  rewrite (nth_map_in _ col i NaN NaN) by exact Hi. now rewrite Hs.
Qed.

Lemma title_column_nth `{Lib} (col : list pyobj) (i : nat) :
  (i < List.length col)%nat ->
  nth i (title_column col) NaN = PStr (str_title (py_str (nth i col NaN))).
Proof.
  intros Hi. unfold title_column, astype_str, str_title_col.
  rewrite map_map. now rewrite (nth_map_in _ col i NaN NaN).
Qed.

Lemma lookup_map_keys {A} (f : string -> A) (k : string) (keys : list string) :
  In k keys -> lookup k (map (fun k => (k, f k)) keys) = Some (f k).
Proof.
  induction keys as [|k' keys IH]; [intros []|].
  intros Hin. cbn [map lookup].
  destruct (String.eqb_spec k k') as [->|Hne]; [reflexivity|].
  destruct Hin as [->|Hin]; [contradiction|]. now apply IH.
Qed.

(** [df[k]] on the frame built from the rows. *)
Lemma getitem_of_records (rows : list record) (k : string) :
  In k (keys_of rows) ->
  getitem (DataFrame_of_records rows) k
  = Ok (infer_column (map (fun r => cell r k) rows)).
Proof.
  intros Hin. unfold getitem, DataFrame_of_records. cbn [columns].
  now rewrite (lookup_map_keys (fun k => infer_column (map (fun r => cell r k) rows))).
Qed.

(** A column that holds a string keeps its objects. *)
Lemma infer_column_text (col : list pyobj) (s : string) :
  In (PStr s) col -> infer_column col = col.
Proof.
  intros Hin. unfold infer_column.
  assert (E : forall null uint sint, numeric_scan null uint sint col = false).
  { induction col as [|v col IH]; [destruct Hin|]. intros null uint sint.
    destruct Hin as [->|Hin]; [reflexivity|].
    destruct v as [| |z| | | | |]; cbn [numeric_scan]; auto.
    destruct null; [auto|]. cbv zeta. destruct (_ || _ || _); auto. }
  now rewrite E.
Qed.

(** C9 (as the code has it).  A title-cased text field is never null and
    never empty where the source value is missing, but what it holds
    depends on how the value is missing.  A row that lacks the key is
    read as [NaN] and gives the text "Nan".  A row whose value is JSON
    [null], in a column where another row has a string, keeps [None] and
    gives the text "None". *)
Theorem title_missing_spec `{Lib} (rows : list record) (k : string) (i : nat) :
  In k (keys_of rows) -> (i < List.length rows)%nat ->
  exists col,
    getitem (DataFrame_of_records rows) k = Ok col
    /\ List.length (title_column col) = List.length rows
    /\ (exists s, nth i (title_column col) NaN = PStr s
                  /\ (isna (nth i col NaN) = true -> s <> ""%string))
    /\ (lookup k (nth i rows []) = None ->
        nth i (title_column col) NaN = PStr "Nan")
    /\ (lookup k (nth i rows []) = Some PNone ->
        (exists j s, lookup k (nth j rows []) = Some (PStr s)
                     /\ (j < List.length rows)%nat) ->
        nth i (title_column col) NaN = PStr "None").
Proof.
  intros Hk Hi. eexists. split; [now apply getitem_of_records|].
  set (raw := map (fun r => cell r k) rows).
  assert (Lr : List.length raw = List.length rows) by apply length_map.
  assert (Lc : List.length (infer_column raw) = List.length rows)
    by now rewrite infer_column_length.
  assert (Hraw : forall j, (j < List.length rows)%nat ->
                           nth j raw NaN = cell (nth j rows []) k).
  { intros j Hj. unfold raw.
    now rewrite (nth_map_in (fun r => cell r k) rows j [] NaN). }
  split.
  { unfold title_column, astype_str, str_title_col. now rewrite !length_map. }
  rewrite title_column_nth by lia. split; [|split].
  - eexists. split; [reflexivity|]. intros Hna.
    destruct (nth i (infer_column raw) NaN) as [|b|z|f|s|y m d| |];
      try discriminate; try (cbn; discriminate).
    destruct f; discriminate.
  - intros Hnone.
    assert (E : nth i raw NaN = NaN)
      by (rewrite Hraw by exact Hi; unfold cell; now rewrite Hnone).
    destruct (infer_column_nth raw i) as [E'|E']; rewrite E', E; reflexivity.
  - intros Hnull (j & s & Hs & Hj).
    assert (Hin : In (PStr s) raw).
    { assert (E : nth j raw NaN = PStr s)
        by (rewrite Hraw by exact Hj; unfold cell; now rewrite Hs).
      rewrite <- E. apply nth_In. lia. }
    rewrite (infer_column_text raw s Hin), Hraw by exact Hi.
    unfold cell. rewrite Hnull. reflexivity.
Qed.

Lemma title_missing_spec_witness :
  let rows := [ [("marca_autocar", PStr "volvo"); ("origen_ciudad", PStr "madrid")];
                [("marca_autocar", PNone)] ]%string in
  In "origen_ciudad"%string (keys_of rows) /\ (1 < List.length rows)%nat
  /\ exists col,
       getitem (DataFrame_of_records rows) "origen_ciudad" = Ok col
       /\ nth 1 (@title_column plain_lib col) NaN = PStr "Nan".
Proof.
  intros rows.
  assert (Hk : In "origen_ciudad"%string (keys_of rows))
    by (cbn; right; left; reflexivity).
  assert (Hi : (1 < List.length rows)%nat) by (cbn; lia).
  split; [exact Hk|]. split; [exact Hi|].
  destruct (@title_missing_spec plain_lib rows "origen_ciudad" 1 Hk Hi)
    as (col & Hcol & _ & _ & Hnan & _).
  exists col. split; [exact Hcol|]. apply Hnan. reflexivity.
Defined.

(** C9, the counterexample: with the rows [{"marca_autocar": "volvo"}]
    and [{"marca_autocar": null}], the second row gets "None", not
    "Nan". *)
Lemma title_null_is_None :
  let rows := [ [("marca_autocar", PStr "volvo")];
                [("marca_autocar", PNone)] ]%string in
  match getitem (DataFrame_of_records rows) "marca_autocar" with
  | Ok col => @title_column plain_lib col = [PStr "Volvo"; PStr "None"]
  | Raise _ => False
  end.
Proof. reflexivity. Qed.

(* ================================================================== *)
(** ** The trigger (lines 58-79 and the run as a whole) *)

Lemma bind_ok {A B} (l : list event) (a : A) (k : A -> M B) :
  bind (l, Ok a) k = (l ++ fst (k a), snd (k a)).
Proof. unfold bind. destruct (k a). reflexivity. Qed.

Lemma bind_raise {A B} (l : list event) (e : exn) (k : A -> M B) :
  bind (l, Raise e) k = (l, Raise e).
Proof. reflexivity. Qed.

Lemma try_except_ok {A} (l : list event) (a : A) (h : exn -> option (M A)) :
  try_except (l, Ok a) h = (l, Ok a).
Proof. reflexivity. Qed.

Ltac trigger_guards Hn Hb Htn Htb :=
  unfold etl_transportation_data, storage_event;
  cbn [is_json get_json negb];
  rewrite bind_lift_ok, Hn, bind_lift_ok, Hb, bind_lift_ok, Htn, Htb;
  cbn [negb orb str_of_obj]; rewrite bind_lift_ok.

Lemma dict_get_value (fields : record) (key : string) :
  dict_get (JDict fields) key = Ok (dict_value fields key).
Proof. unfold dict_get, dict_value. destruct (lookup key fields); reflexivity. Qed.

(** The reject of lines 68-70: a name or a bucket that is not truthy. *)
Lemma reject_missing `{Lib} (w : World) (fields : record) (name bucket : pyobj) :
  dict_get (JDict fields) "name" = Ok name ->
  dict_get (JDict fields) "bucket" = Ok bucket ->
  truthy name = false \/ truthy bucket = false ->
  etl_transportation_data w (storage_event fields)
  = ([Print (MsgMissingNameOrBucket name bucket)],
     Ok ("Missing file/bucket info"%string, 400)).
Proof.
  intros Hn Hb Hf. unfold etl_transportation_data, storage_event.
  cbn [is_json get_json negb]. rewrite bind_lift_ok, Hn, bind_lift_ok, Hb, bind_lift_ok.
  assert (G : negb (truthy name) || negb (truthy bucket) = true)
    by (destruct Hf as [-> | ->]; cbn; auto using orb_true_r).
  rewrite G. reflexivity.
Qed.

(** C6.  The responses of the trigger, in the order of the checks: a
    request that is not JSON; a JSON object whose name or bucket is
    missing (or not truthy); a name that does not end in ".json"; a bucket
    other than the configured one; and, when every step of the run
    succeeds, "OK".  On the four reject and skip paths the only event is
    one [print]: nothing is downloaded, written or loaded. *)
Theorem trigger_responses `{Lib} (w : World) :
  (forall request, is_json request = false ->
     etl_transportation_data w request
     = ([Print MsgNotJson], Ok ("Not JSON"%string, 400))
     /\ quiet (etl_transportation_data w request))
  /\ (forall fields name bucket,
        dict_get (JDict fields) "name" = Ok name ->
        dict_get (JDict fields) "bucket" = Ok bucket ->
        let run := etl_transportation_data w (storage_event fields) in
        (truthy name = false \/ truthy bucket = false ->
         run = ([Print (MsgMissingNameOrBucket name bucket)],
                Ok ("Missing file/bucket info"%string, 400))
         /\ quiet run)
        /\ (forall n, name = PStr n -> truthy name = true ->
                      truthy bucket = true ->
              (endswith n ".json" = false ->
               run = ([Print (MsgSkipNotJsonFile n)],
                      Ok ("Not a JSON file"%string, 200))
               /\ quiet run)
              /\ (endswith n ".json" = true ->
                  eq_env bucket (RAW_BUCKET_NAME w) = false ->
                  run = ([Print (MsgUnexpectedBucket n bucket (RAW_BUCKET_NAME w))],
                         Ok ("Unexpected bucket"%string, 200))
                  /\ quiet run)
              /\ (endswith n ".json" = true ->
                  eq_env bucket (RAW_BUCKET_NAME w) = true ->
                  forall rows l df,
                    let file :=
                      ("transportation_data_transformed_" ++ timestamp w
                       ++ ".csv")%string in
                    let table :=
                      (env_str (BIGQUERY_PROJECT_ID w) ++ "."
                       ++ BIGQUERY_DATASET_ID ++ "." ++ BIGQUERY_TABLE_ID)%string in
                    let uri :=
                      ("gs://" ++ env_str (PROCESSED_BUCKET_NAME w) ++ "/"
                       ++ file)%string in
                    download_rows w bucket n = Ok rows ->
                    transform_and_reorder rows = (l, Ok df) ->
                    upload_from_string w (PROCESSED_BUCKET_NAME w) file df = Ok tt ->
                    get_table w table = Ok tt ->
                    load_table_from_uri w uri table = Ok tt ->
                    load_job_result w uri table = Ok tt ->
                    run = ([Print (MsgProcessing n bucket); Download bucket n;
                            Print MsgExtractionComplete]
                           ++ l
                           ++ [Print MsgFrameInfo;
                               Upload (PROCESSED_BUCKET_NAME w) file;
                               Print (MsgSaved file);
                               GetTable table;
                               LoadTable uri table;
                               Print MsgLoadStarted;
                               Print MsgLoadFinished],
                           Ok ("OK"%string, 200))))).
Proof.
  split.
  - intros request Hj.
    assert (E : etl_transportation_data w request
                = ([Print MsgNotJson], Ok ("Not JSON"%string, 400))).
    { unfold etl_transportation_data. rewrite Hj. reflexivity. }
    split; [exact E|]. unfold quiet. rewrite E. repeat constructor.
  - intros fields name bucket Hn Hb run. split.
    + intros Hf. assert (E := reject_missing w fields name bucket Hn Hb Hf).
      fold run in E. split; [exact E|]. unfold quiet. rewrite E.
      repeat constructor.
    + intros n -> Htn Htb. split; [|split].
      * intros He.
        assert (E : run = ([Print (MsgSkipNotJsonFile n)],
                           Ok ("Not a JSON file"%string, 200))).
        { unfold run. trigger_guards Hn Hb Htn Htb. rewrite He. reflexivity. }
        split; [exact E|]. unfold quiet. rewrite E. repeat constructor.
      * intros He Hq.
        assert (E : run
                    = ([Print (MsgUnexpectedBucket n bucket (RAW_BUCKET_NAME w))],
                       Ok ("Unexpected bucket"%string, 200))).
        { unfold run. trigger_guards Hn Hb Htn Htb. rewrite He, Hq. reflexivity. }
        split; [exact E|]. unfold quiet. rewrite E. repeat constructor.
      * intros He Hq rows l df file table uri Hdl Htr Hup Hgt Hld Hres.
        unfold run. trigger_guards Hn Hb Htn Htb. rewrite He, Hq. cbn [negb].
        rewrite Hdl.
        unfold transform_and_reorder in Htr.
        destruct (transform (DataFrame_of_records rows)) as [l1 [d1|e1]] eqn:Ht;
          [|discriminate].
        rewrite bind_ok in Htr.
        destruct (reorder d1) as [l2 [d2|e2]] eqn:Hr; [|discriminate].
        cbn [fst snd] in Htr. injection Htr as <- ->.
        subst file table uri.
        cbn [bind try_except emit print lift ret report_and_raise].
        rewrite Ht. cbn [bind try_except emit print lift ret report_and_raise].
        rewrite Hr. cbn [bind try_except emit print lift ret report_and_raise].
        rewrite Hup. cbn [bind try_except emit print lift ret report_and_raise].
        rewrite Hgt. cbn [bind try_except emit print lift ret report_and_raise].
        rewrite Hld. cbn [bind try_except emit print lift ret report_and_raise].
        rewrite Hres. cbn [bind try_except emit print lift ret report_and_raise].
        f_equal. cbn [app]. rewrite <- app_assoc. reflexivity.
Qed.

Lemma trigger_responses_witness :
  let w := mk_world (Some "raw"%string) (Some "processed"%string)
             (Some "project"%string)
             (fun _ _ => Raise (ServiceError "unreachable"))
             "20240101000000"
             (fun _ _ _ => Ok tt) (fun _ => Ok tt)
             (fun _ _ => Ok tt) (fun _ _ => Ok tt) in
  outcome (@etl_transportation_data plain_lib w
             (storage_event [("name", PStr "trips.json")]%string))
  = Ok ("Missing file/bucket info"%string, 400)
  /\ outcome (@etl_transportation_data plain_lib w
                (storage_event [("name", PStr "trips.csv");
                                ("bucket", PStr "raw")]%string))
     = Ok ("Not a JSON file"%string, 200)
  /\ outcome (@etl_transportation_data plain_lib w
                (storage_event [("name", PStr "trips.json");
                                ("bucket", PStr "other")]%string))
     = Ok ("Unexpected bucket"%string, 200).
Proof.
  intros w. split; [|split].
  - refine (f_equal snd
              (proj1 (proj1 (proj2 (@trigger_responses plain_lib w)
                                   [("name", PStr "trips.json")]%string
                                   (PStr "trips.json") PNone eq_refl eq_refl)
                        (or_intror eq_refl)))).
  - refine (f_equal snd
              (proj1 (proj1 (proj2 (proj2 (@trigger_responses plain_lib w)
                                       [("name", PStr "trips.csv");
                                        ("bucket", PStr "raw")]%string
                                       (PStr "trips.csv") (PStr "raw")
                                       eq_refl eq_refl)
                               "trips.csv"%string eq_refl eq_refl eq_refl)
                        eq_refl))).
  - refine (f_equal snd
              (proj1 (proj1 (proj2 (proj2 (proj2 (@trigger_responses plain_lib w)
                                       [("name", PStr "trips.json");
                                        ("bucket", PStr "other")]%string
                                       (PStr "trips.json") (PStr "other")
                                       eq_refl eq_refl)
                               "trips.json"%string eq_refl eq_refl eq_refl))
                        eq_refl eq_refl))).
Defined.

(** C10.  A name or a bucket that is present but empty is rejected with
    the response of a missing key, and nothing else happens: the run is
    one [print].  The check is on the truth value, so the same holds for
    any value Python takes for false. *)
Theorem empty_name_or_bucket_rejected `{Lib} (w : World) (fields : record) :
  lookup "name"%string fields = Some (PStr "")
  \/ lookup "bucket"%string fields = Some (PStr "") ->
  exists name bucket,
    etl_transportation_data w (storage_event fields)
    = ([Print (MsgMissingNameOrBucket name bucket)],
       Ok ("Missing file/bucket info"%string, 400))
    /\ (forall fields',
          lookup "name"%string fields' = None
          \/ lookup "bucket"%string fields' = None ->
          outcome (etl_transportation_data w (storage_event fields'))
          = outcome (etl_transportation_data w (storage_event fields)))
    /\ quiet (etl_transportation_data w (storage_event fields)).
Proof.
  intros Hempty.
  assert (Hf : truthy (dict_value fields "name") = false
               \/ truthy (dict_value fields "bucket") = false).
  { unfold dict_value. destruct Hempty as [E|E]; rewrite E; auto. }
  assert (E := reject_missing w fields _ _ (dict_get_value fields "name")
                 (dict_get_value fields "bucket") Hf).
  eexists _, _. split; [exact E|]. split.
  - intros fields' Hmiss. rewrite E.
    rewrite (reject_missing w fields' _ _ (dict_get_value fields' "name")
               (dict_get_value fields' "bucket")); [reflexivity|].
    unfold dict_value. destruct Hmiss as [M|M]; rewrite M; auto.
  - unfold quiet. rewrite E. repeat constructor.
Qed.

Lemma empty_name_or_bucket_rejected_witness :
  let w := mk_world (Some "raw"%string) (Some "processed"%string)
             (Some "project"%string)
             (fun _ _ => Ok []) "20240101000000"
             (fun _ _ _ => Ok tt) (fun _ => Ok tt)
             (fun _ _ => Ok tt) (fun _ _ => Ok tt) in
  exists name bucket,
    @etl_transportation_data plain_lib w
      (storage_event [("name", PStr "trips.json"); ("bucket", PStr "")]%string)
    = ([Print (MsgMissingNameOrBucket name bucket)],
       Ok ("Missing file/bucket info"%string, 400)).
Proof.
  intros w.
  destruct (@empty_name_or_bucket_rejected plain_lib w
              [("name", PStr "trips.json"); ("bucket", PStr "")]%string
              (or_intror eq_refl)) as (name & bucket & E & _).
  exists name, bucket. exact E.
Defined.

(* ================================================================== *)
(** ** The shape of the output (lines 99-200) *)

Lemma quiet_ret {A} (a : A) : quiet (ret a).
Proof. constructor. Qed.

Lemma quiet_lift {A} (r : result A) : quiet (lift r).
Proof. constructor. Qed.

Lemma quiet_raise {A} (e : exn) : quiet (@raise A e).
Proof. constructor. Qed.

Lemma quiet_print (m : message) : quiet (print m).
Proof. repeat constructor. Qed.

Lemma quiet_bind {A B} (m : M A) (k : A -> M B) :
  quiet m -> (forall a, quiet (k a)) -> quiet (bind m k).
Proof.
  unfold quiet, events. destruct m as [l [a|e]]; cbn; intros Hm Hk; [|exact Hm].
  specialize (Hk a). destruct (k a) as [l' r]. cbn in *.
  apply Forall_app. now split.
Qed.

Lemma quiet_try_except {A} (m : M A) (h : exn -> option (M A)) :
  quiet m -> (forall e k, h e = Some k -> quiet k) -> quiet (try_except m h).
Proof.
  unfold quiet, events. destruct m as [l [a|e]]; cbn; intros Hm Hh; [exact Hm|].
  destruct (h e) as [k|] eqn:E; [|exact Hm].
  specialize (Hh e k E). destruct k as [l' r]. cbn in *.
  apply Forall_app. now split.
Qed.

Lemma quiet_mapM {A B} (f : A -> M B) (xs : list A) :
  (forall x, quiet (f x)) -> quiet (mapM f xs).
Proof.
  intros Hf. induction xs as [|x xs IH]; cbn [mapM]; [apply quiet_ret|].
  apply quiet_bind; [apply Hf|]. intros y.
  apply quiet_bind; [exact IH|]. intros ys. apply quiet_ret.
Qed.

Ltac quiet_steps :=
  repeat first
    [ apply quiet_ret | apply quiet_lift | apply quiet_print | apply quiet_raise
    | apply quiet_bind; [|intros ?]
    | match goal with
      | |- quiet (if ?b then _ else _) => destruct b
      end ].

(** [calculate_delay] prints at most; it calls no service. *)
Lemma quiet_calculate_delay (scheduled actual travel : pyobj) :
  quiet (calculate_delay scheduled actual travel).
Proof.
  unfold calculate_delay. apply quiet_try_except.
  - unfold calculate_delay_try. quiet_steps.
  - intros e k Hk. destruct e; try discriminate;
      injection Hk as <-; quiet_steps.
Qed.

Lemma quiet_apply_rows (df : DataFrame) (f : (string -> result pyobj) -> M pyobj) :
  (forall row, quiet (f row)) -> quiet (apply_rows df f).
Proof.
  intros Hf. unfold apply_rows. apply quiet_bind.
  - apply quiet_mapM. intros i. apply Hf.
  - intros. apply quiet_ret.
Qed.

Lemma quiet_update (name : string) (f : list pyobj -> result (list pyobj))
  (df : DataFrame) : quiet (update name f df).
Proof. unfold update. quiet_steps. Qed.

Lemma quiet_derive (name : string) (f : (string -> result pyobj) -> M pyobj)
  (df : DataFrame) :
  (forall row, quiet (f row)) -> quiet (derive name f df).
Proof.
  intros Hf. unfold derive. apply quiet_bind; [now apply quiet_apply_rows|].
  intros. apply quiet_ret.
Qed.

Lemma quiet_run (fs : list (DataFrame -> M DataFrame)) (df : DataFrame) :
  Forall (fun f => forall df, quiet (f df)) fs -> quiet (run fs df).
Proof.
  intros Hfs. revert df. induction Hfs as [|f fs Hf _ IH]; intros df; cbn [run].
  - apply quiet_ret.
  - apply quiet_bind; [apply Hf|exact IH].
Qed.

Lemma quiet_stages `{Lib} : Forall (fun f => forall df, quiet (f df)) stages.
Proof.
  unfold stages.
  repeat (constructor;
          [intros df;
           first [ apply quiet_update
                 | apply quiet_derive; intros row;
                   unfold delay_of_row, speed_of_row; quiet_steps;
                   apply quiet_calculate_delay ]|]).
  constructor.
Qed.

(** The transformation and the projection only print. *)
Lemma quiet_transform `{Lib} (df : DataFrame) : quiet (transform df).
Proof.
  unfold transform. apply quiet_bind; [apply quiet_print|]. intros _.
  apply quiet_bind; [apply quiet_run, quiet_stages|]. intros d. quiet_steps.
Qed.

Lemma quiet_reorder (df : DataFrame) : quiet (reorder df).
Proof.
  unfold reorder. apply quiet_try_except; [quiet_steps|].
  intros e k Hk. destruct e; try discriminate. injection Hk as <-.
  repeat constructor.
Qed.

Lemma quiet_transform_and_reorder `{Lib} (rows : list record) :
  quiet (transform_and_reorder rows).
Proof.
  unfold transform_and_reorder. apply quiet_bind; [apply quiet_transform|].
  intros d. apply quiet_reorder.
Qed.

Lemma Forall_upsert {A} (P : string * A -> Prop) (k : string) (v : A)
  (l : list (string * A)) :
  P (k, v) -> Forall P l -> Forall P (upsert k v l).
Proof.
  intros Hv Hl. induction Hl as [|[k' v'] l Hx Hl IH]; cbn.
  - repeat constructor. exact Hv.
  - destruct (String.eqb k k'); constructor; auto.
Qed.

Lemma update_keeps_shape (k name : string)
  (f : list pyobj -> result (list pyobj)) : keeps_shape k (update name f).
Proof.
  intros df l df'. unfold update, getitem.
  destruct (lookup name (columns df)) as [col|] eqn:G; [|discriminate].
  rewrite bind_lift_ok. destruct (f col) as [col'|e]; [|discriminate].
  rewrite bind_lift_ok. intros E. injection E as <- <-.
  split; [reflexivity|]. split.
  - intros Hr. apply Forall_upsert; [apply align_length|exact Hr].
  - intros Hk. cbn [setitem columns]. rewrite lookup_upsert_other; [exact Hk|].
    intros ->. congruence.
Qed.

Lemma derive_keeps_shape (k name : string)
  (f : (string -> result pyobj) -> M pyobj) :
  k <> name -> keeps_shape k (derive name f).
Proof.
  intros Hne df l df'. unfold derive.
  destruct (apply_rows df f) as [l0 [col|e]]; [|discriminate].
  rewrite bind_ok. cbn [ret fst snd]. intros E. injection E as _ <-.
  split; [reflexivity|]. split.
  - intros Hr. apply Forall_upsert; [apply align_length|exact Hr].
  - intros Hk. cbn [setitem columns]. now rewrite lookup_upsert_other.
Qed.

Lemma run_keeps_shape (k : string) (fs : list (DataFrame -> M DataFrame)) :
  Forall (keeps_shape k) fs -> keeps_shape k (run fs).
Proof.
  intros Hfs. induction Hfs as [|f fs Hf _ IH]; intros df l df'; cbn [run].
  - intros E. injection E as _ <-. auto.
  - destruct (f df) as [l1 [d1|e]] eqn:F; [|discriminate].
    rewrite bind_ok. destruct (run fs d1) as [l2 [d2|e]] eqn:R; [|discriminate].
    cbn. intros E. injection E as _ <-.
    destruct (Hf _ _ _ F) as (N1 & R1 & A1).
    destruct (IH _ _ _ R) as (N2 & R2 & A2).
    split; [congruence|]. split; auto.
Qed.

Lemma source_field_not_derived (k : string) :
  In k source_fields ->
  k <> "retraso_minutos"%string /\ k <> "velocidad_media_kmh"%string.
Proof.
  intros Hk. cbn in Hk.
  repeat (destruct Hk as [<-|Hk]; [split; discriminate|]). destruct Hk.
Qed.

Lemma stages_keep_shape `{Lib} (k : string) :
  In k source_fields -> Forall (keeps_shape k) stages.
Proof.
  intros Hk. destruct (source_field_not_derived k Hk) as [H1 H2].
  unfold stages.
  repeat (constructor;
          [first [ apply update_keeps_shape
                 | apply derive_keeps_shape; assumption ]|]).
  constructor.
Qed.

(** The statements of the transformation keep the rows: none is dropped
    or added, whatever the columns hold. *)
Lemma transform_keeps_shape `{Lib} (df : DataFrame) (l : list event)
  (df' : DataFrame) :
  transform df = (l, Ok df') ->
  nrows df' = nrows df
  /\ (rectangular df -> rectangular df')
  /\ (forall k, In k source_fields -> lookup k (columns df) = None ->
                lookup k (columns df') = None).
Proof.
  unfold transform. intros E.
  destruct (run stages df) as [l1 [d1|e]] eqn:R; cbn in E; [|discriminate].
  injection E as _ <-.
  assert (Hany : Forall (keeps_shape "") stages).
  { unfold stages.
    repeat (constructor;
            [first [ apply update_keeps_shape
                   | apply derive_keeps_shape; discriminate ]|]).
    constructor. }
  destruct (run_keeps_shape _ _ Hany _ _ _ R) as (N & Rc & _).
  split; [exact N|]. split; [exact Rc|].
  intros k Hk. now apply (run_keeps_shape k stages (stages_keep_shape k Hk) _ _ _ R).
Qed.

Lemma lookup_In {A} (k : string) (v : A) (l : list (string * A)) :
  lookup k l = Some v -> In (k, v) l.
Proof.
  induction l as [|[k' v'] l IH]; cbn; [discriminate|].
  destruct (String.eqb_spec k k') as [->|_].
  - intros E. injection E as ->. now left.
  - intros E. right. now apply IH.
Qed.

Lemma select_cols (df : DataFrame) (names : list string)
  (cols : list (string * list pyobj)) :
  map_result (fun k => match getitem df k with
                       | Ok col => Ok (k, col)
                       | Raise e => Raise e
                       end) names = Ok cols ->
  map fst cols = names /\ Forall (fun kc => In kc (columns df)) cols.
Proof.
  revert cols. induction names as [|k names IH]; intros cols; cbn [map_result].
  - intros E. injection E as <-. split; [reflexivity|constructor].
  - unfold getitem at 1. destruct (lookup k (columns df)) as [col|] eqn:G;
      [|discriminate].
    destruct (map_result _ names) as [cs|e]; [|discriminate].
    intros E. injection E as <-. destruct (IH cs eq_refl) as [Hn Hc].
    split; [cbn; now rewrite Hn|]. constructor; [|exact Hc].
    now apply lookup_In.
Qed.

(** [df[names]]: the rows of [df], the columns [names] in that order. *)
Lemma select_shape (df df' : DataFrame) (names : list string) :
  select df names = Ok df' ->
  nrows df' = nrows df /\ column_names df' = names
  /\ (rectangular df -> rectangular df').
Proof.
  unfold select. destruct (map_result _ names) as [cols|e] eqn:E; [|discriminate].
  intros S. injection S as <-. destruct (select_cols _ _ _ E) as [Hn Hc].
  split; [reflexivity|]. split; [exact Hn|].
  intros Hr. unfold rectangular in *. cbn [columns nrows].
  rewrite Forall_forall in *. intros kc Hkc. apply Hr, Hc, Hkc.
Qed.

Lemma select_missing (df : DataFrame) (names : list string) (k : string) :
  In k names -> lookup k (columns df) = None ->
  exists e, select df names = Raise e.
Proof.
  intros Hin Hk. unfold select.
  destruct (map_result_raise
              (fun k => match getitem df k with
                        | Ok col => Ok (k, col)
                        | Raise e => Raise e
                        end) names k (KeyError k) Hin) as [e ->]; [|eauto].
  unfold getitem. now rewrite Hk.
Qed.

Lemma reorder_shape (df df' : DataFrame) (l : list event) :
  reorder df = (l, Ok df') ->
  nrows df' = nrows df /\ column_names df' = BQ_SCHEMA_COLUMNS
  /\ (rectangular df -> rectangular df').
Proof.
  unfold reorder. destruct (select df BQ_SCHEMA_COLUMNS) as [d|e] eqn:S.
  - cbn. intros E. injection E as _ <-. now apply select_shape.
  - destruct e; cbn; discriminate.
Qed.

Lemma reorder_missing (df : DataFrame) (k : string) :
  In k BQ_SCHEMA_COLUMNS -> lookup k (columns df) = None ->
  exists l e, reorder df = (l, Raise e).
Proof.
  intros Hin Hk. destruct (select_missing df _ k Hin Hk) as [e S].
  unfold reorder. rewrite S. destruct e; cbn; eauto.
Qed.

Lemma lookup_map_keys_none {A} (f : string -> A) (k : string) (keys : list string) :
  ~ In k keys -> lookup k (map (fun k => (k, f k)) keys) = None.
Proof.
  induction keys as [|k' keys IH]; [reflexivity|].
  intros Hin. cbn [map lookup].
  destruct (String.eqb_spec k k') as [->|Hne]; [exfalso; apply Hin; now left|].
  apply IH. intros Hk. apply Hin. now right.
Qed.

(** The frame built from [n] row objects has [n] rows, one cell per row
    in every column, and one column per key. *)
Lemma DataFrame_of_records_shape (rows : list record) :
  nrows (DataFrame_of_records rows) = List.length rows
  /\ column_names (DataFrame_of_records rows) = keys_of rows
  /\ rectangular (DataFrame_of_records rows)
  /\ (forall k, ~ In k (keys_of rows) ->
                lookup k (columns (DataFrame_of_records rows)) = None).
Proof.
  unfold DataFrame_of_records, column_names, rectangular. cbn [nrows columns].
  split; [reflexivity|]. split; [|split].
  - rewrite map_map. cbn. apply map_id.
  - apply Forall_forall. intros kc Hkc. apply in_map_iff in Hkc.
    destruct Hkc as (k & <- & _). cbn.
    now rewrite infer_column_length, length_map.
  - intros k Hk.
    now apply (lookup_map_keys_none
                 (fun k => infer_column (map (fun r => cell r k) rows))).
Qed.

(** A run that fails in the transformation or in the projection stops
    there: what was printed so far, and the exception. *)
Lemma run_fails `{Lib} (w : World) (fields : record) (n : string)
  (rows : list record) (l : list event) (e : exn) :
  dict_value fields "name" = PStr n ->
  truthy (PStr n) = true ->
  truthy (dict_value fields "bucket") = true ->
  endswith n ".json" = true ->
  eq_env (dict_value fields "bucket") (RAW_BUCKET_NAME w) = true ->
  download_rows w (dict_value fields "bucket") n = Ok rows ->
  transform_and_reorder rows = (l, Raise e) ->
  etl_transportation_data w (storage_event fields)
  = ([Print (MsgProcessing n (dict_value fields "bucket"));
      Download (dict_value fields "bucket") n;
      Print MsgExtractionComplete] ++ l, Raise e).
Proof.
  intros Hname Htn Htb He Hq Hdl Htr.
  assert (Hn := dict_get_value fields "name"). rewrite Hname in Hn.
  assert (Hb := dict_get_value fields "bucket").
  trigger_guards Hn Hb Htn Htb. rewrite He, Hq. cbn [negb]. rewrite Hdl.
  unfold transform_and_reorder in Htr.
  cbn [bind try_except emit print lift ret report_and_raise].
  destruct (transform (DataFrame_of_records rows)) as [l1 [d1|e1]] eqn:Ht.
  - rewrite bind_ok in Htr.
    destruct (reorder d1) as [l2 [d2|e2]] eqn:Hr; [discriminate|].
    cbn [fst snd] in Htr. injection Htr as <- <-.
    cbn [bind try_except emit print lift ret report_and_raise].
    rewrite Hr. reflexivity.
  - injection Htr as <- <-. reflexivity.
Qed.

(** C3 (as the code has it).  Whenever the transformation and the
    projection return a frame, it has one row per input record, exactly
    the 24 schema fields in schema order, and one cell per row in every
    field.  When a source field is absent from every record, they raise
    instead, and so does the run: the exception leaves the function and
    nothing is uploaded or loaded.  (That every source field is present
    does not make the run succeed: a value that cannot be converted is
    fatal as well.) *)
Theorem schema_projection `{Lib} (rows : list record) :
  (forall l df,
      transform_and_reorder rows = (l, Ok df) ->
      nrows df = List.length rows
      /\ column_names df = BQ_SCHEMA_COLUMNS
      /\ List.length (columns df) = 24%nat
      /\ rectangular df)
  /\ (forall k,
        In k source_fields -> ~ In k (keys_of rows) ->
        (exists l e, transform_and_reorder rows = (l, Raise e))
        /\ (forall w fields n,
              dict_value fields "name" = PStr n ->
              truthy (PStr n) = true ->
              truthy (dict_value fields "bucket") = true ->
              endswith n ".json" = true ->
              eq_env (dict_value fields "bucket") (RAW_BUCKET_NAME w) = true ->
              download_rows w (dict_value fields "bucket") n = Ok rows ->
              exists l e,
                etl_transportation_data w (storage_event fields) = (l, Raise e)
                /\ Forall (fun ev => is_output_call ev = false) l)).
Proof.
  destruct (DataFrame_of_records_shape rows) as (N0 & _ & R0 & A0).
  split.
  - intros l df E. unfold transform_and_reorder in E.
    destruct (transform (DataFrame_of_records rows)) as [l1 [d1|e1]] eqn:Ht;
      [|discriminate].
    rewrite bind_ok in E. destruct (reorder d1) as [l2 [d2|e2]] eqn:Hr;
      [|discriminate].
    cbn [fst snd] in E. injection E as _ <-.
    destruct (transform_keeps_shape _ _ _ Ht) as (N1 & R1 & _).
    destruct (reorder_shape _ _ _ Hr) as (N2 & C2 & R2).
    split; [congruence|]. split; [exact C2|]. split; [|auto].
    unfold column_names in C2.
    rewrite <- (length_map fst), C2. reflexivity.
  - intros k Hk Habsent.
    assert (Hraise : exists l e, transform_and_reorder rows = (l, Raise e)).
    { unfold transform_and_reorder.
      destruct (transform (DataFrame_of_records rows)) as [l1 [d1|e1]] eqn:Ht;
        [|rewrite bind_raise; eauto].
      destruct (transform_keeps_shape _ _ _ Ht) as (_ & _ & A1).
      assert (Hin : In k BQ_SCHEMA_COLUMNS).
      { rewrite <- (firstn_skipn 22 BQ_SCHEMA_COLUMNS).
        apply in_or_app. left. exact Hk. }
      destruct (reorder_missing d1 k Hin (A1 k Hk (A0 k Habsent))) as (l2 & e & Hr).
      rewrite bind_ok, Hr. cbn [fst snd]. eauto. }
    split; [exact Hraise|].
    intros w fields n Hname Htn Htb He Hq Hdl.
    destruct Hraise as (l & e & Htr).
    exists ([Print (MsgProcessing n (dict_value fields "bucket"));
             Download (dict_value fields "bucket") n;
             Print MsgExtractionComplete] ++ l), e.
    split; [exact (run_fails w fields n rows l e Hname Htn Htb He Hq Hdl Htr)|].
    assert (Hl := quiet_transform_and_reorder rows).
    unfold quiet in Hl. rewrite Htr in Hl. cbn [events fst] in Hl.
    repeat (constructor; [reflexivity|]).
    eapply Forall_impl; [|exact Hl]. intros ev Hev. now destruct ev.
Qed.

Lemma schema_projection_witness :
  (let rows := [trip "08:00" "09:10" (PInt 50); trip "23:30" "00:15" (PInt 60)] in
   match @transform_and_reorder plain_lib rows with
   | (_, Ok df) => nrows df = 2%nat /\ column_names df = BQ_SCHEMA_COLUMNS
   | (_, Raise _) => False
   end)
  /\ (let rows := [[("id_viaje", PStr "V001")]]%string in
      In "fecha_viaje"%string source_fields
      /\ ~ In "fecha_viaje"%string (keys_of rows)
      /\ exists l e, @transform_and_reorder plain_lib rows = (l, Raise e)).
Proof.
  split.
  - intros rows.
    destruct (@transform_and_reorder plain_lib rows) as [l [df|e]] eqn:E.
    + exact (let S := proj1 (@schema_projection plain_lib rows) l df E in
             conj (proj1 S) (proj1 (proj2 S))).
    + vm_compute in E. discriminate E.
  - intros rows.
    assert (Hk : In "fecha_viaje"%string source_fields)
      by (cbn; right; left; reflexivity).
    assert (Ha : ~ In "fecha_viaje"%string (keys_of rows))
      by (cbn; intros [E|[]]; discriminate E).
    split; [exact Hk|]. split; [exact Ha|].
    exact (proj1 (proj2 (@schema_projection plain_lib rows)
                    "fecha_viaje"%string Hk Ha)).
Defined.

(** C3, the counterexample: two records that have every source field,
    the second with a null travel time.  The column cannot be cast to
    integers and no record set is produced. *)
Lemma complete_rows_can_fail :
  let rows := [trip "08:00" "09:10" (PInt 50); trip "23:30" "00:15" PNone] in
  forallb (fun k => existsb (String.eqb k) (keys_of rows)) source_fields = true
  /\ outcome (@transform_and_reorder plain_lib rows) = Raise ValueError.
Proof. split; vm_compute; reflexivity. Qed.

(** A complete and well-formed record set goes through. *)
Example two_trips :
  outcome (@transform_and_reorder plain_lib
             [trip "08:00" "09:10" (PInt 50); trip "23:30" "00:15" (PInt 60)])
  = Ok (mk_df 2
          [("id_viaje", [PStr "V001"; PStr "V001"]);
           ("fecha_viaje", [PDate 2024 1 15; PDate 2024 1 15]);
           ("hora_salida_programada", [PStr "08:00"; PStr "23:30"]);
           ("hora_llegada_real", [PStr "09:10"; PStr "00:15"]);
           ("origen_ciudad", [PStr "Madrid"; PStr "Madrid"]);
           ("destino_ciudad", [PStr "Lisboa"; PStr "Lisboa"]);
           ("pais_operacion", [PStr "España"; PStr "España"]);
           ("numero_viajeros", [PInt 40; PInt 40]);
           ("distancia_km", [PFloat (Float64.of_int 120);
                             PFloat (Float64.of_int 120)]);
           ("tiempo_viaje_minutos", [PInt 50; PInt 60]);
           ("tarifa_media_por_viajero_eur",
            [PFloat (Float64.div (Float64.of_int 125) (Float64.of_int 10));
             PFloat (Float64.div (Float64.of_int 125) (Float64.of_int 10))]);
           ("marca_autocar", [PStr "Volvo"; PStr "Volvo"]);
           ("modelo_autocar", [PStr "N/A"; PStr "N/A"]);
           ("matricula_autocar", [PStr "1234ABC"; PStr "1234ABC"]);
           ("tipo_servicio", [PStr "Regular"; PStr "Regular"]);
           ("incidencia_averia", [PBool false; PBool false]);
           ("descripcion_averia", [PStr "Sin Avería"; PStr "Sin Avería"]);
           ("costo_averia_eur", [PFloat Float64.zero; PFloat Float64.zero]);
           ("puntuacion_cliente", [PInt 5; PInt 5]);
           ("combustible_consumido_litros",
            [PFloat (Float64.of_int 30); PFloat (Float64.of_int 30)]);
           ("id_conductor", [PStr "C01"; PStr "C01"]);
           ("edad_conductor", [PInt 45; PInt 45]);
           ("retraso_minutos", [PInt 20; PInt 0]);
           ("velocidad_media_kmh",
            [PFloat (Float64.of_int 144); PFloat (Float64.of_int 120)])]%string).
Proof. vm_compute. reflexivity. Qed.

(* ================================================================== *)
(** ** Failures of the services (lines 85-93 and 215-257) *)

Lemma filter_quiet (l : list event) :
  Forall (fun ev => is_service_call ev = false) l ->
  filter is_service_call l = [].
Proof.
  induction 1 as [|ev l Hev _ IH]; [reflexivity|]. cbn. now rewrite Hev.
Qed.

(** A run that reaches the load phase continues with it. *)
Lemma run_loads `{Lib} (w : World) (fields : record) (n : string)
  (rows : list record) (l : list event) (df : DataFrame) :
  dict_value fields "name" = PStr n ->
  truthy (PStr n) = true ->
  truthy (dict_value fields "bucket") = true ->
  endswith n ".json" = true ->
  eq_env (dict_value fields "bucket") (RAW_BUCKET_NAME w) = true ->
  download_rows w (dict_value fields "bucket") n = Ok rows ->
  transform_and_reorder rows = (l, Ok df) ->
  etl_transportation_data w (storage_event fields)
  = ([Print (MsgProcessing n (dict_value fields "bucket"));
      Download (dict_value fields "bucket") n;
      Print MsgExtractionComplete] ++ l ++ [Print MsgFrameInfo]
     ++ events (load_phase w df),
     outcome (load_phase w df)).
Proof.
  intros Hname Htn Htb He Hq Hdl Htr.
  assert (Hn := dict_get_value fields "name"). rewrite Hname in Hn.
  assert (Hb := dict_get_value fields "bucket").
  trigger_guards Hn Hb Htn Htb. rewrite He, Hq. cbn [negb]. rewrite Hdl.
  unfold transform_and_reorder in Htr.
  destruct (transform (DataFrame_of_records rows)) as [l1 [d1|e1]] eqn:Ht;
    [|discriminate].
  rewrite bind_ok in Htr.
  destruct (reorder d1) as [l2 [d2|e2]] eqn:Hr; [|discriminate].
  cbn [fst snd] in Htr. injection Htr as <- <-.
  unfold load_phase, events, outcome, output_file_name, table_id, uri.
  cbn [bind try_except emit print lift ret report_and_raise].
  rewrite Ht. cbn [bind try_except emit print lift ret report_and_raise].
  rewrite Hr. cbn [bind try_except emit print lift ret report_and_raise].
  destruct (upload_from_string w _ _ d2) as [[]|e1];
    [destruct (get_table w _) as [[]|e2];
     [destruct (load_table_from_uri w _ _) as [[]|e3];
      [destruct (load_job_result w _ _) as [[]|e4]|]|]|];
    cbn [bind try_except emit print lift ret report_and_raise fst snd app];
    rewrite <- ?app_assoc; reflexivity.
Qed.

Lemma accepted_guards `{Lib} (w : World) (fields : record) (n : string) :
  accepted w fields n ->
  etl_transportation_data w (storage_event fields)
  = (print (MsgProcessing n (dict_value fields "bucket")) ;;;
     df <- try_except
             (emit (Download (dict_value fields "bucket") n) ;;;
              data <- lift (download_rows w (dict_value fields "bucket") n) ;;
              print MsgExtractionComplete ;;;
              ret (DataFrame_of_records data))
             (report_and_raise (MsgExtractionError n)) ;;
     df <- transform df ;;
     df <- reorder df ;;
     print MsgFrameInfo ;;;
     load_phase w df).
Proof.
  intros (Hname & Htn & Htb & He & Hq).
  assert (Hn := dict_get_value fields "name"). rewrite Hname in Hn.
  assert (Hb := dict_get_value fields "bucket").
  trigger_guards Hn Hb Htn Htb. rewrite He, Hq. reflexivity.
Qed.

Lemma sample_accepted (download : result (list record))
  (up gt ld res : result unit) :
  accepted (sample_world download up gt ld res) sample_event "trips.json".
Proof. repeat split. Qed.

(** X1.  When the download or the parse of the file raises, the run
    prints the extraction error and raises the same exception again:
    nothing is transformed, written or loaded. *)
Theorem extraction_error_reported `{Lib} (w : World) (fields : record)
  (n : string) (e : exn) :
  accepted w fields n ->
  download_rows w (dict_value fields "bucket") n = Raise e ->
  etl_transportation_data w (storage_event fields)
  = ([Print (MsgProcessing n (dict_value fields "bucket"));
      Download (dict_value fields "bucket") n;
      Print (MsgExtractionError n e)], Raise e).
Proof.
  intros Ha Hdl. rewrite (accepted_guards w fields n Ha), Hdl. reflexivity.
Qed.

Lemma extraction_error_reported_witness :
  @etl_transportation_data plain_lib
    (sample_world (Raise (ServiceError "not found")) (Ok tt) (Ok tt) (Ok tt) (Ok tt))
    (storage_event sample_event)
  = ([Print (MsgProcessing "trips.json" (PStr "raw"));
      Download (PStr "raw") "trips.json";
      Print (MsgExtractionError "trips.json" (ServiceError "not found"))],
     Raise (ServiceError "not found")).
Proof.
  exact (@extraction_error_reported plain_lib _ sample_event "trips.json" _
           (sample_accepted _ _ _ _ _) eq_refl).
Defined.

(** X2.  When the upload of the CSV raises, the run prints the save
    error and raises the same exception again; the table is neither
    looked up nor loaded. *)
Theorem save_error_reported `{Lib} (w : World) (fields : record) (n : string)
  (rows : list record) (l : list event) (df : DataFrame) (e : exn) :
  accepted w fields n ->
  download_rows w (dict_value fields "bucket") n = Ok rows ->
  transform_and_reorder rows = (l, Ok df) ->
  upload_from_string w (PROCESSED_BUCKET_NAME w) (output_file_name w) df = Raise e ->
  etl_transportation_data w (storage_event fields)
  = (extraction_log fields n ++ l
     ++ [Print MsgFrameInfo;
         Upload (PROCESSED_BUCKET_NAME w) (output_file_name w);
         Print (MsgSaveError e)], Raise e).
Proof.
  intros (Hname & Htn & Htb & He & Hq) Hdl Htr Hup.
  rewrite (run_loads w fields n rows l df Hname Htn Htb He Hq Hdl Htr).
  unfold load_phase, events, outcome. rewrite Hup. reflexivity.
Qed.

(** X3.  When the table cannot be looked up, the exception leaves the
    function unreported: the last event is the call itself.  The CSV has
    been uploaded by then and stays in the processed bucket. *)
Theorem missing_table_not_reported `{Lib} (w : World) (fields : record)
  (n : string) (rows : list record) (l : list event) (df : DataFrame) (e : exn) :
  accepted w fields n ->
  download_rows w (dict_value fields "bucket") n = Ok rows ->
  transform_and_reorder rows = (l, Ok df) ->
  upload_from_string w (PROCESSED_BUCKET_NAME w) (output_file_name w) df = Ok tt ->
  get_table w (table_id w) = Raise e ->
  etl_transportation_data w (storage_event fields)
  = (extraction_log fields n ++ l
     ++ [Print MsgFrameInfo;
         Upload (PROCESSED_BUCKET_NAME w) (output_file_name w);
         Print (MsgSaved (output_file_name w));
         GetTable (table_id w)], Raise e).
Proof.
  intros (Hname & Htn & Htb & He & Hq) Hdl Htr Hup Hgt.
  rewrite (run_loads w fields n rows l df Hname Htn Htb He Hq Hdl Htr).
  unfold load_phase, events, outcome. rewrite Hup, Hgt. reflexivity.
Qed.

(** X4.  When the load job cannot be started, or fails, the run prints
    the load error and raises the same exception again; the uploaded CSV
    is not removed. *)
Theorem load_error_reported `{Lib} (w : World) (fields : record) (n : string)
  (rows : list record) (l : list event) (df : DataFrame) (e : exn) :
  accepted w fields n ->
  download_rows w (dict_value fields "bucket") n = Ok rows ->
  transform_and_reorder rows = (l, Ok df) ->
  upload_from_string w (PROCESSED_BUCKET_NAME w) (output_file_name w) df = Ok tt ->
  get_table w (table_id w) = Ok tt ->
  (load_table_from_uri w (uri w) (table_id w) = Raise e ->
   etl_transportation_data w (storage_event fields)
   = (extraction_log fields n ++ l
      ++ [Print MsgFrameInfo;
          Upload (PROCESSED_BUCKET_NAME w) (output_file_name w);
          Print (MsgSaved (output_file_name w));
          GetTable (table_id w);
          LoadTable (uri w) (table_id w);
          Print (MsgLoadError e)], Raise e))
  /\ (load_table_from_uri w (uri w) (table_id w) = Ok tt ->
      load_job_result w (uri w) (table_id w) = Raise e ->
      etl_transportation_data w (storage_event fields)
      = (extraction_log fields n ++ l
         ++ [Print MsgFrameInfo;
             Upload (PROCESSED_BUCKET_NAME w) (output_file_name w);
             Print (MsgSaved (output_file_name w));
             GetTable (table_id w);
             LoadTable (uri w) (table_id w);
             Print MsgLoadStarted;
             Print (MsgLoadError e)], Raise e)).
Proof.
  intros (Hname & Htn & Htb & He & Hq) Hdl Htr Hup Hgt.
  rewrite (run_loads w fields n rows l df Hname Htn Htb He Hq Hdl Htr).
  unfold load_phase, events, outcome. rewrite Hup, Hgt. split.
  - intros Hld. rewrite Hld. reflexivity.
  - intros Hld Hres. rewrite Hld, Hres. reflexivity.
Qed.

Lemma sample_transformed :
  exists l df, @transform_and_reorder plain_lib sample_rows = (l, Ok df).
Proof.
  destruct (@transform_and_reorder plain_lib sample_rows) as [l [df|e]] eqn:E.
  - eauto.
  - vm_compute in E. discriminate E.
Defined.

Lemma save_error_reported_witness :
  outcome (@etl_transportation_data plain_lib
             (sample_world (Ok sample_rows) (Raise (ServiceError "denied"))
                (Ok tt) (Ok tt) (Ok tt))
             (storage_event sample_event))
  = Raise (ServiceError "denied").
Proof.
  destruct sample_transformed as (l & df & E).
  exact (f_equal snd
           (@save_error_reported plain_lib _ sample_event "trips.json"
              sample_rows l df _ (sample_accepted _ _ _ _ _) eq_refl E eq_refl)).
Defined.

Lemma missing_table_not_reported_witness :
  outcome (@etl_transportation_data plain_lib
             (sample_world (Ok sample_rows) (Ok tt)
                (Raise (ServiceError "no table")) (Ok tt) (Ok tt))
             (storage_event sample_event))
  = Raise (ServiceError "no table").
Proof.
  destruct sample_transformed as (l & df & E).
  exact (f_equal snd
           (@missing_table_not_reported plain_lib _ sample_event "trips.json"
              sample_rows l df _ (sample_accepted _ _ _ _ _) eq_refl E
              eq_refl eq_refl)).
Defined.

Lemma load_error_reported_witness :
  outcome (@etl_transportation_data plain_lib
             (sample_world (Ok sample_rows) (Ok tt) (Ok tt) (Ok tt)
                (Raise (ServiceError "bad row")))
             (storage_event sample_event))
  = Raise (ServiceError "bad row").
Proof.
  destruct sample_transformed as (l & df & E).
  exact (f_equal snd
           (proj2 (@load_error_reported plain_lib _ sample_event "trips.json"
                     sample_rows l df _ (sample_accepted _ _ _ _ _) eq_refl E
                     eq_refl eq_refl) eq_refl eq_refl)).
Defined.

(* ================================================================== *)
(** ** Every run (lines 58-257) *)

Lemma load_phase_calls (w : World) (df : DataFrame) :
  exists k,
    filter is_service_call (events (load_phase w df))
    = firstn k [Upload (PROCESSED_BUCKET_NAME w) (output_file_name w);
                GetTable (table_id w);
                LoadTable (uri w) (table_id w)]
    /\ (forall resp, outcome (load_phase w df) = Ok resp ->
                     resp = ("OK"%string, 200) /\ k = 3%nat).
Proof.
  unfold load_phase, events, outcome.
  destruct (upload_from_string w _ _ df) as [[]|e1];
    [destruct (get_table w _) as [[]|e2];
     [destruct (load_table_from_uri w _ _) as [[]|e3];
      [destruct (load_job_result w _ _) as [[]|e4]|]|]|];
    cbn [bind try_except emit print lift ret report_and_raise fst snd app filter
         is_service_call].
  - exists 3%nat. split; [reflexivity|]. intros resp E. injection E as <-. auto.
  - exists 3%nat. split; [reflexivity|]. discriminate.
  - exists 3%nat. split; [reflexivity|]. discriminate.
  - exists 2%nat. split; [reflexivity|]. discriminate.
  - exists 1%nat. split; [reflexivity|]. discriminate.
Qed.

Lemma not_json_response `{Lib} (w : World) (g : result json_body) :
  etl_transportation_data w (mk_request false g)
  = ([Print MsgNotJson], Ok ("Not JSON"%string, 400)).
Proof. reflexivity. Qed.

(** X5.  In every run, whatever the request and whatever the services
    answer, the calls to the services are an initial part of the sequence
    download, upload, look-up of the table, load: none is made twice or
    out of order, and nothing is written unless the file was downloaded
    and transformed.  A run that returns a response returns "OK" after
    all four calls, or one of the four rejections after none. *)
Theorem service_calls_in_order `{Lib} (w : World) (request : Request) :
  exists bucket n k,
    filter is_service_call (events (etl_transportation_data w request))
    = firstn k (service_calls w bucket n)
    /\ (forall resp,
          outcome (etl_transportation_data w request) = Ok resp ->
          (resp = ("OK"%string, 200) /\ k = 4%nat)
          \/ (In resp rejections /\ k = 0%nat)).
Proof.
  destruct request as [[|] g].
  2:{ exists PNone, ""%string, 0%nat. rewrite not_json_response.
      split; [reflexivity|]. intros resp E. injection E as <-.
      right. split; [now left|reflexivity]. }
  destruct g as [[fields|]|e].
  3:{ exists PNone, ""%string, 0%nat. split; [reflexivity|]. discriminate. }
  2:{ exists PNone, ""%string, 0%nat. split; [reflexivity|]. discriminate. }
  change (mk_request true (Ok (JDict fields))) with (storage_event fields).
  assert (Hn := dict_get_value fields "name").
  assert (Hb := dict_get_value fields "bucket").
  set (name := dict_value fields "name") in *.
  set (bucket := dict_value fields "bucket") in *.
  destruct (truthy name) eqn:Htn.
  2:{ exists PNone, ""%string, 0%nat.
      rewrite (reject_missing w fields name bucket Hn Hb (or_introl Htn)).
      split; [reflexivity|]. intros resp E. injection E as <-.
      right. split; [right; now left|reflexivity]. }
  destruct (truthy bucket) eqn:Htb.
  2:{ exists PNone, ""%string, 0%nat.
      rewrite (reject_missing w fields name bucket Hn Hb (or_intror Htb)).
      split; [reflexivity|]. intros resp E. injection E as <-.
      right. split; [right; now left|reflexivity]. }
  destruct name as [|b|z|f|n|y m d| |] eqn:Hname;
    try (exists PNone, ""%string, 0%nat;
         unfold etl_transportation_data, storage_event;
         cbn [is_json get_json negb];
         rewrite bind_lift_ok, Hn, bind_lift_ok, Hb, bind_lift_ok, Htn, Htb;
         split; [reflexivity|discriminate]).
  destruct (endswith n ".json") eqn:He.
  2:{ exists PNone, ""%string, 0%nat.
      unfold etl_transportation_data, storage_event.
      trigger_guards Hn Hb Htn Htb. rewrite He.
      split; [reflexivity|]. intros resp E. injection E as <-.
      right. split; [right; right; now left|reflexivity]. }
  destruct (eq_env bucket (RAW_BUCKET_NAME w)) eqn:Hq.
  2:{ exists PNone, ""%string, 0%nat.
      unfold etl_transportation_data, storage_event.
      trigger_guards Hn Hb Htn Htb. rewrite He, Hq.
      split; [reflexivity|]. intros resp E. injection E as <-.
      right. split; [right; right; right; now left|reflexivity]. }
  assert (Ha : accepted w fields n) by (repeat split; assumption).
  exists bucket, n.
  destruct (download_rows w bucket n) as [rows|e] eqn:Hdl.
  2:{ exists 1%nat. fold bucket in Hdl.
      rewrite (accepted_guards w fields n Ha). fold bucket. rewrite Hdl.
      split; [reflexivity|discriminate]. }
  destruct (transform_and_reorder rows) as [l [df|e]] eqn:Htr.
  2:{ exists 1%nat.
      rewrite (run_fails w fields n rows l e Hname Htn Htb He Hq Hdl Htr).
      assert (Hl := quiet_transform_and_reorder rows).
      unfold quiet in Hl. rewrite Htr in Hl. cbn [events fst] in Hl.
      split; [|discriminate]. cbn [events fst app filter is_service_call].
      now rewrite (filter_quiet l Hl). }
  destruct (load_phase_calls w df) as (k & Hk & Hresp).
  exists (S k).
  rewrite (run_loads w fields n rows l df Hname Htn Htb He Hq Hdl Htr).
  assert (Hl := quiet_transform_and_reorder rows).
  unfold quiet in Hl. rewrite Htr in Hl. cbn [events fst] in Hl.
  split.
  - cbn [events fst app filter is_service_call]. rewrite !filter_app.
    rewrite (filter_quiet l Hl). cbn [app filter is_service_call].
    fold (events (load_phase w df)). rewrite Hk. reflexivity.
  - cbn [outcome snd]. intros resp E. left.
    destruct (Hresp resp E) as [-> ->]. auto.
Qed.

(** X6.  An event that is not a JSON object, or whose name is not a
    string, gets no response: [get] or [endswith] is missing and the run
    ends with [AttributeError], before anything is printed or called. *)
Theorem malformed_event_raises `{Lib} (w : World) :
  etl_transportation_data w (mk_request true (Ok JOther))
  = ([], Raise AttributeError)
  /\ (forall e, etl_transportation_data w (mk_request true (Raise e))
                = ([], Raise e))
  /\ (forall fields,
        isinstance_str (dict_value fields "name") = false ->
        truthy (dict_value fields "name") = true ->
        truthy (dict_value fields "bucket") = true ->
        etl_transportation_data w (storage_event fields)
        = ([], Raise AttributeError)).
Proof.
  split; [reflexivity|]. split; [reflexivity|].
  intros fields Hstr Htn Htb.
  assert (Hn := dict_get_value fields "name").
  assert (Hb := dict_get_value fields "bucket").
  unfold etl_transportation_data, storage_event. cbn [is_json get_json negb].
  rewrite bind_lift_ok, Hn, bind_lift_ok, Hb, bind_lift_ok, Htn, Htb.
  destruct (dict_value fields "name"); try discriminate; reflexivity.
Qed.

Lemma malformed_event_raises_witness :
  @etl_transportation_data plain_lib
    (sample_world (Ok []) (Ok tt) (Ok tt) (Ok tt) (Ok tt))
    (storage_event [("name", PInt 7); ("bucket", PStr "raw")]%string)
  = ([], Raise AttributeError).
Proof.
  exact (proj2 (proj2 (@malformed_event_raises plain_lib _))
           [("name", PInt 7); ("bucket", PStr "raw")]%string
           eq_refl eq_refl eq_refl).
Defined.

(* ================================================================== *)
(** ** [calculate_delay] on any arguments (lines 148-171) *)

Lemma strptime_obj_raises (v : pyobj) (e : exn) :
  strptime_obj v = Raise e -> e = ValueError \/ e = TypeError.
Proof.
  destruct v; cbn; try (intros E; injection E as <-; now right).
  unfold strptime_HM. destruct (first_match _) as [[[h m] [|c r]]|];
    intros E; try discriminate; injection E as <-; now left.
Qed.

Lemma int_of_positive (f : float) (z : Z) :
  Float64.ltb Float64.zero f = true -> int_of_float f = Ok z -> 0 <= z.
Proof.
  intros Hpos E. destruct f as [s|s| |s m e]; try discriminate.
  destruct s; [discriminate|]. cbn in E. injection E as <-.
  apply Z.shiftl_nonneg. lia.
Qed.

Lemma int_of_float_raises (f : float) (e : exn) :
  Float64.ltb Float64.zero f = true -> int_of_float f = Raise e ->
  e = OverflowError.
Proof.
  intros Hpos E. destruct f as [s|s| |s m x]; try discriminate.
  cbn in E. now injection E as <-.
Qed.

(** X7.  Whatever its three arguments are, [calculate_delay] ends in
    one of three ways: it returns [None], it returns an integer that is
    not negative, or it lets an [OverflowError] through (the only
    exception its handler does not catch and its body can raise).  It
    prints at most one warning. *)
Theorem calculate_delay_results (scheduled actual travel : pyobj) :
  (outcome (calculate_delay scheduled actual travel) = Ok PNone
   \/ (exists z, outcome (calculate_delay scheduled actual travel) = Ok (PInt z)
                 /\ 0 <= z)
   \/ outcome (calculate_delay scheduled actual travel) = Raise OverflowError)
  /\ (List.length (events (calculate_delay scheduled actual travel)) <= 1)%nat.
Proof.
  unfold calculate_delay, calculate_delay_try.
  destruct (negb (isinstance_str scheduled) || negb (truthy scheduled)
            || negb (isinstance_str actual) || negb (truthy actual));
    [split; [now left|cbn; lia]|].
  destruct (strptime_obj scheduled) as [ts|e1] eqn:E1.
  2:{ rewrite bind_lift_raise.
      destruct (strptime_obj_raises _ _ E1) as [-> | ->];
        (split; [now left|cbn; lia]). }
  rewrite bind_lift_ok.
  destruct (strptime_obj actual) as [ta|e2] eqn:E2.
  2:{ rewrite bind_lift_raise.
      destruct (strptime_obj_raises _ _ E2) as [-> | ->];
        (split; [now left|cbn; lia]). }
  rewrite bind_lift_ok. cbv zeta.
  set (sdt := combine (datetime_ymd 2000 1 1) ts).
  set (adt := combine (datetime_ymd 2000 1 1) ta).
  assert (Hmove : exists r,
             (if datetime_ltb adt sdt
              then lift (datetime_add adt (timedelta_new 1 0 0))
              else ret adt) = ([], r)
             /\ forall e, r = Raise e -> e = OverflowError).
  { destruct (datetime_ltb adt sdt).
    - exists (datetime_add adt (timedelta_new 1 0 0)). split; [reflexivity|].
      unfold datetime_add. intros e.
      destruct (_ && _); [discriminate|]. intros E. now injection E as <-.
    - exists (Ok adt). split; [reflexivity|]. discriminate. }
  destruct Hmove as (r & -> & Hr).
  destruct r as [adt'|e3].
  2:{ rewrite (Hr e3 eq_refl). split; [right; now right|cbn; lia]. }
  fold (@lift datetime (Ok adt')). rewrite bind_lift_ok.
  destruct (as_float travel) as [t|e4] eqn:E4.
  2:{ rewrite bind_lift_raise.
      assert (He : e4 = OverflowError \/ e4 = TypeError).
      { destruct travel; cbn in E4; try (injection E4 as <-; now right);
          try discriminate.
        destruct (Float64.is_inf _); [injection E4 as <-; now left|discriminate]. }
      destruct He as [-> | ->];
        [split; [right; now right|cbn; lia]|split; [now left|cbn; lia]]. }
  rewrite bind_lift_ok.
  set (delay := Float64.sub _ t).
  destruct (Float64.ltb Float64.zero delay) eqn:Hpos.
  2:{ split; [|cbn; lia]. right. left. exists 0. split; [reflexivity|lia]. }
  destruct (int_of_float delay) as [z|e5] eqn:E5.
  - rewrite bind_lift_ok. split; [|cbn; lia]. right. left. exists z.
    split; [reflexivity|]. exact (int_of_positive delay z Hpos E5).
  - rewrite bind_lift_raise, (int_of_float_raises delay e5 Hpos E5).
    split; [right; now right|cbn; lia].
Qed.

(** The exception does get through: an infinite travel time makes
    [int(delay)] raise. *)
Example calculate_delay_overflow :
  calculate_delay (PStr "08:00") (PStr "09:00") (PFloat Float64.neg_inf)
  = ([], Raise OverflowError).
Proof. reflexivity. Qed.

(* ================================================================== *)
(** ** The other column statements (lines 101-129) *)

(** X8.  The three text defaults, followed through the later statements
    on the same column: a missing country becomes "Desconocido" (which
    the alias table keeps), a missing model becomes "N/A" (which
    title-casing keeps), a missing description becomes "Sin Avería". *)
Theorem text_defaults `{Lib} (col : list pyobj) (i : nat) :
  (i < List.length col)%nat -> isna (nth i col NaN) = true ->
  nth i (pais_column (fillna (PStr "Desconocido") col)) NaN = PStr "Desconocido"
  /\ nth i (title_column (fillna (PStr "N/A") col)) NaN = PStr "N/A"
  /\ nth i (fillna (PStr "Sin Avería") col) NaN = PStr "Sin Avería".
Proof.
  intros Hi Hna.
  assert (Hf : forall s, nth i (fillna (PStr s) col) NaN = PStr s)
    by (intros s; rewrite fillna_nth; [now rewrite Hna|reflexivity|exact Hi]).
  split; [|split].
  - unfold pais_column, astype_str. rewrite map_map.
    rewrite (nth_map_in _ _ i NaN NaN) by (now rewrite fillna_length).
    now rewrite Hf.
  - rewrite title_column_nth by (now rewrite fillna_length). now rewrite Hf.
  - apply Hf.
Qed.

Lemma text_defaults_witness :
  nth 1 (@title_column plain_lib (fillna (PStr "N/A") [PStr "tourismo"; PNone])) NaN
  = PStr "N/A".
Proof.
  exact (proj1 (proj2 (@text_defaults plain_lib [PStr "tourismo"; PNone] 1
                         ltac:(cbn; lia) eq_refl))).
Defined.

(** X9.  The decimal columns ([distancia_km], the fare): each value is
    written as text, commas become points, and [float] reads the result.
    Whenever the column is returned every cell is that float; one cell
    [float] cannot read makes the statement raise. *)
Theorem decimal_column_spec `{Lib} (col : list pyobj) :
  (forall out i,
      decimal_column col = Ok out -> (i < List.length col)%nat ->
      List.length out = List.length col
      /\ exists f, nth i out NaN = PFloat f
                   /\ float_of_str (str_replace_char "," "." (py_str (nth i col NaN)))
                      = Some f)
  /\ (forall v, In v col ->
                float_of_str (str_replace_char "," "." (py_str v)) = None ->
                exists e, decimal_column col = Raise e).
Proof.
  unfold decimal_column, astype_float, str_replace_comma, astype_str.
  rewrite !map_map. split.
  - intros out i Hout Hi.
    destruct (map_result_nth _ _ _ NaN NaN Hout) as [L N].
    rewrite length_map in L, N. split; [exact L|].
    specialize (N i Hi).
    rewrite (nth_map_in _ col i NaN NaN) in N by exact Hi.
    cbn [py_float] in N.
    destruct (float_of_str _) as [f|]; [|discriminate].
    exists f. split; [congruence|reflexivity].
  - intros v Hin Hnone.
    apply (map_result_raise _ _ (PStr (str_replace_char "," "." (py_str v)))
             ValueError).
    + apply in_map_iff. exists v. now split.
    + cbn [py_float]. now rewrite Hnone.
Qed.

Lemma decimal_column_spec_witness :
  @decimal_column plain_lib [PStr "12,5"; PInt 120]
  = Ok [PFloat (Float64.div (Float64.of_int 125) (Float64.of_int 10));
        PFloat (Float64.of_int 120)]
  /\ exists e, @decimal_column plain_lib [PStr "12,5"; PStr "doce"] = Raise e.
Proof.
  split; [reflexivity|].
  exact (proj2 (@decimal_column_spec plain_lib [PStr "12,5"; PStr "doce"])
           (PStr "doce") ltac:(cbn; tauto) eq_refl).
Defined.

(** X10.  [incidencia_averia] after [astype(bool)]: every cell is a
    boolean, the truth value of the source value.  So every non-empty
    text is true (the text "False" as well), [NaN] is true, and [None],
    0 and the empty text are false. *)
Theorem incidencia_flags (col : list pyobj) (i : nat) :
  (i < List.length col)%nat ->
  List.length (astype_bool col) = List.length col
  /\ nth i (astype_bool col) NaN = PBool (truthy (nth i col NaN))
  /\ (forall s, nth i col NaN = PStr s -> s <> ""%string ->
                nth i (astype_bool col) NaN = PBool true)
  /\ (nth i col NaN = NaN -> nth i (astype_bool col) NaN = PBool true)
  /\ (nth i col NaN = PNone -> nth i (astype_bool col) NaN = PBool false).
Proof.
  intros Hi. unfold astype_bool.
  assert (E : nth i (map (fun v => PBool (truthy v)) col) NaN
              = PBool (truthy (nth i col NaN)))
    by (now rewrite (nth_map_in _ col i NaN NaN)).
  split; [apply length_map|]. split; [exact E|]. rewrite E. repeat split.
  - intros s -> Hs. cbn. apply String.eqb_neq in Hs. now rewrite Hs.
  - intros ->. reflexivity.
  - intros ->. reflexivity.
Qed.

Lemma incidencia_flags_witness :
  astype_bool [PStr "False"; PNone; NaN; PBool false; PStr ""; PInt 0]
  = [PBool true; PBool false; PBool true; PBool false; PBool false; PBool false]
  /\ nth 0 (astype_bool [PStr "False"; PNone]) NaN = PBool true.
Proof.
  split; [reflexivity|].
  exact (proj1 (proj2 (proj2 (incidencia_flags [PStr "False"; PNone] 0
                                ltac:(cbn; lia))))
           "False"%string eq_refl ltac:(discriminate)).
Defined.

(** X11.  The plain integer casts ([tiempo_viaje_minutos],
    [edad_conductor]) have no default: one missing value in the column
    makes [astype(int)] raise, for the whole batch. *)
Theorem missing_integer_is_fatal `{Lib} (col : list pyobj) (v : pyobj) :
  In v col -> isna v = true -> exists e, astype_int col = Raise e.
Proof.
  intros Hin Hna. unfold astype_int.
  destruct (is_numeric_column col) eqn:Hnum.
  - assert (E : existsb is_non_finite col = true).
    { apply existsb_exists. exists v. split; [exact Hin|].
      unfold is_numeric_column in Hnum. rewrite forallb_forall in Hnum.
      specialize (Hnum v Hin).
      destruct v as [| | |f| | | |]; try discriminate.
      destruct f; try discriminate. reflexivity. }
    rewrite E. eauto.
  - rewrite (not_uint64_column col v Hin)
      by (destruct v; try discriminate; reflexivity).
    destruct v as [| | |f| | | |]; try discriminate.
    + apply (map_result_raise _ _ PNone TypeError Hin). reflexivity.
    + destruct f; try discriminate.
      apply (map_result_raise _ _ (PFloat S754_nan) ValueError Hin). reflexivity.
    + apply (map_result_raise _ _ PNaT TypeError Hin). reflexivity.
    + apply (map_result_raise _ _ PNA TypeError Hin). reflexivity.
Qed.

Lemma missing_integer_is_fatal_witness :
  exists e, @astype_int plain_lib (infer_column [PInt 45; PNone]) = Raise e.
Proof.
  exact (@missing_integer_is_fatal plain_lib (infer_column [PInt 45; PNone]) NaN
           ltac:(cbn; tauto) eq_refl).
Defined.

(* ================================================================== *)
(** ** Times, keys and names *)

Lemma no_unread_clocks : unread_clocks = [].
Proof. vm_compute. reflexivity. Qed.

(** X12.  Reading is the inverse of writing: the text "HH:MM" of every
    minute of the day is read back by [strptime] as that hour and that
    minute, with no seconds.  Every time of day can therefore be given to
    [calculate_delay]. *)
Theorem strptime_reads_clock (k : Z) :
  0 <= k < 1440 ->
  strptime_HM (clock k) = Ok (mk_time (k / 60) (k mod 60) 0 0).
Proof.
  intros Hk.
  destruct (strptime_HM (clock k)) as [t|e] eqn:E.
  - destruct t as [h m s u].
    destruct ((h =? k / 60) && (m =? k mod 60) && (s =? 0) && (u =? 0)) eqn:B.
    + apply andb_prop in B. destruct B as [B Bu].
      apply andb_prop in B. destruct B as [B Bs].
      apply andb_prop in B. destruct B as [Bh Bm].
      apply Z.eqb_eq in Bh, Bm, Bs, Bu. now subst.
    + exfalso.
      assert (H : In k unread_clocks).
      { unfold unread_clocks.
        refine (proj2 (filter_In _ k (map Z.of_nat (seq 0 1440))) (conj _ _)).
        - replace k with (Z.of_nat (Z.to_nat k)) by lia.
          apply in_map. refine (proj2 (in_seq _ _ _) _).
          assert (Hn : (Z.to_nat k < Z.to_nat 1440)%nat)
            by (apply Z2Nat.inj_lt; lia).
          change (Z.to_nat 1440) with 1440%nat in Hn.
          split; [apply Nat.le_0_l|exact Hn].
        - rewrite E. cbn [t_hour t_minute t_second t_microsecond].
          rewrite B. reflexivity. }
      rewrite no_unread_clocks in H. destruct H.
  - exfalso.
    assert (H : In k unread_clocks).
    { unfold unread_clocks.
      refine (proj2 (filter_In _ k (map Z.of_nat (seq 0 1440))) (conj _ _)).
      - replace k with (Z.of_nat (Z.to_nat k)) by lia.
        apply in_map. refine (proj2 (in_seq _ _ _) _).
        assert (Hn : (Z.to_nat k < Z.to_nat 1440)%nat)
          by (apply Z2Nat.inj_lt; lia).
        change (Z.to_nat 1440) with 1440%nat in Hn.
        split; [apply Nat.le_0_l|exact Hn].
      - rewrite E. reflexivity. }
    rewrite no_unread_clocks in H. destruct H.
Qed.

Lemma strptime_reads_clock_witness :
  strptime_HM "23:30" = Ok (mk_time 23 30 0 0).
Proof. exact (strptime_reads_clock 1410 ltac:(lia)). Defined.

(** What the format accepts beside the two-digit form, and what it
    rejects. *)
Example strptime_forms :
  strptime_HM "8:5" = Ok (mk_time 8 5 0 0)
  /\ strptime_HM "24:00" = Raise ValueError
  /\ strptime_HM "08:60" = Raise ValueError
  /\ strptime_HM "0800" = Raise ValueError
  /\ strptime_HM "08:00:00" = Raise ValueError
  /\ strptime_HM " 08:00" = Raise ValueError.
Proof. repeat split. Qed.

Lemma add_key_In (seen : list string) (k x : string) :
  In x (add_key seen k) <-> In x seen \/ x = k.
Proof.
  unfold add_key. destruct (existsb (String.eqb k) seen) eqn:E.
  - split; [now left|]. intros [Hx| ->]; [exact Hx|].
    apply existsb_exists in E. destruct E as (y & Hy & Hky).
    apply String.eqb_eq in Hky. now subst.
  - rewrite in_app_iff. cbn. intuition.
Qed.

Lemma add_key_NoDup (seen : list string) (k : string) :
  NoDup seen -> NoDup (add_key seen k).
Proof.
  intros Hnd. unfold add_key. destruct (existsb (String.eqb k) seen) eqn:E;
    [exact Hnd|].
  apply NoDup_app; [exact Hnd|repeat constructor; intros []|].
  intros x Hx [Hk|[]]. subst x.
  assert (E' : existsb (String.eqb k) seen = true).
  { apply existsb_exists. exists k. split; [exact Hx|apply String.eqb_refl]. }
  congruence.
Qed.

Lemma fold_add_key (ks seen : list string) :
  NoDup seen ->
  NoDup (fold_left add_key ks seen)
  /\ forall x, In x (fold_left add_key ks seen) <-> In x seen \/ In x ks.
Proof.
  revert seen. induction ks as [|k ks IH]; intros seen Hnd; cbn [fold_left].
  - split; [exact Hnd|]. intros x. cbn. tauto.
  - destruct (IH (add_key seen k) (add_key_NoDup seen k Hnd)) as [N I].
    split; [exact N|]. intros x. rewrite I, add_key_In. cbn. intuition.
Qed.

Lemma fold_rows_keys (rows : list record) (seen : list string) :
  NoDup seen ->
  let keys := fold_left (fun seen r => fold_left add_key (map fst r) seen)
                rows seen in
  NoDup keys
  /\ forall x, In x keys
               <-> In x seen \/ exists r, In r rows /\ In x (map fst r).
Proof.
  revert seen. induction rows as [|r rows IH]; intros seen Hnd; cbn [fold_left].
  - split; [exact Hnd|]. intros x. split; [now left|].
    intros [Hx|(r & [] & _)]. exact Hx.
  - destruct (fold_add_key (map fst r) seen Hnd) as [N1 I1].
    destruct (IH _ N1) as [N I]. split; [exact N|].
    intros x. rewrite I, I1. split.
    + intros [[Hx|Hx]|(r' & Hr' & Hx)]; [now left| |].
      * right. exists r. split; [now left|exact Hx].
      * right. exists r'. split; [now right|exact Hx].
    + intros [Hx|(r' & [<-|Hr'] & Hx)]; [now left; left|now left; right|].
      right. exists r'. now split.
Qed.

(** X13.  The frame built from the downloaded records has one column
    for every key that occurs in some record, and only one, whatever the
    order and the number of its occurrences; a record that lacks the key
    has [NaN] in that column. *)
Theorem frame_of_records_columns (rows : list record) :
  NoDup (column_names (DataFrame_of_records rows))
  /\ (forall k, In k (column_names (DataFrame_of_records rows))
                <-> exists r, In r rows /\ In k (map fst r))
  /\ (forall k i, In k (column_names (DataFrame_of_records rows)) ->
                  (i < List.length rows)%nat ->
                  lookup k (nth i rows []) = None ->
                  row_get (DataFrame_of_records rows) i k = Ok NaN).
Proof.
  assert (Hnames : column_names (DataFrame_of_records rows) = keys_of rows).
  { unfold column_names, DataFrame_of_records. cbn [columns].
    rewrite map_map. apply map_id. }
  rewrite Hnames.
  destruct (fold_rows_keys rows [] (NoDup_nil _)) as [N I].
  split; [exact N|]. split.
  - intros k. unfold keys_of. rewrite I. cbn. tauto.
  - intros k i Hk Hi Hnone. unfold row_get.
    rewrite (getitem_of_records rows k Hk).
    f_equal.
    assert (E : nth i (map (fun r => cell r k) rows) NaN = NaN).
    { rewrite (nth_map_in (fun r => cell r k) rows i [] NaN Hi).
      unfold cell. now rewrite Hnone. }
    destruct (infer_column_nth (map (fun r => cell r k) rows) i) as [E'|E'];
      rewrite E', E; reflexivity.
Qed.

Lemma substring_all (s : string) : substring 0 (String.length s) s = s.
Proof. induction s as [|c s IH]; cbn; [reflexivity|now rewrite IH]. Qed.

Lemma substring_append (p s : string) (m : nat) :
  substring (String.length p) m (p ++ s) = substring 0 m s.
Proof. induction p as [|c p IH]; cbn; [reflexivity|exact IH]. Qed.

Lemma length_append (p s : string) :
  String.length (p ++ s) = (String.length p + String.length s)%nat.
Proof. induction p as [|c p IH]; cbn; [reflexivity|now rewrite IH]. Qed.

Lemma substring_split (s : string) (m : nat) :
  (m <= String.length s)%nat ->
  s = (substring 0 m s ++ substring m (String.length s - m) s)%string.
Proof.
  revert m. induction s as [|c s IH]; intros m Hm.
  - destruct m; reflexivity.
  - destruct m as [|m].
    + cbn [substring String.append]. cbn [String.length Nat.sub].
      now rewrite substring_all.
    + cbn [substring String.append String.length Nat.sub]. f_equal.
      apply IH. cbn in Hm. lia.
Qed.

(** X14.  The test on the file name is the suffix test: [endswith]
    answers true exactly for the names that are some text followed by
    the suffix.  It compares characters, so ".JSON" is not ".json". *)
Theorem endswith_spec (s suffix : string) :
  endswith s suffix = true <-> exists p, s = (p ++ suffix)%string.
Proof.
  unfold endswith. split.
  - intros H. apply andb_prop in H. destruct H as [Hle Heq].
    apply Nat.leb_le in Hle. apply String.eqb_eq in Heq.
    exists (substring 0 (String.length s - String.length suffix) s).
    set (k := String.length suffix) in *. set (n := String.length s) in *.
    assert (Hs := substring_split s (n - k) ltac:(fold n; lia)).
    fold n in Hs. replace (n - (n - k))%nat with k in Hs by lia.
    rewrite Heq in Hs. exact Hs.
  - intros [p ->]. rewrite length_append. apply andb_true_intro. split.
    + apply Nat.leb_le. lia.
    + replace (String.length p + String.length suffix - String.length suffix)%nat
        with (String.length p) by lia.
      rewrite substring_append, substring_all. apply String.eqb_refl.
Qed.

Example endswith_forms :
  endswith "trips.json" ".json" = true
  /\ endswith ".json" ".json" = true
  /\ endswith "trips.JSON" ".json" = false
  /\ endswith "json" ".json" = false
  /\ endswith "trips.json.bak" ".json" = false.
Proof. repeat split. Qed.

(* ================================================================== *)
(** ** The projection and the untouched fields *)

Lemma select_ok (df : DataFrame) (names : list string) :
  (forall k, In k names -> lookup k (columns df) <> None) ->
  exists cols,
    select df names = Ok (mk_df (nrows df) cols)
    /\ map fst cols = names
    /\ forall k, In k names -> lookup k cols = lookup k (columns df).
Proof.
  unfold select. induction names as [|k names IH]; intros Hall.
  - exists []. cbn. repeat split. intros k [].
  - destruct IH as (cols & E & Hn & Hl); [intros k' Hk'; apply Hall; now right|].
    cbn [map_result]. unfold getitem at 1.
    destruct (lookup k (columns df)) as [col|] eqn:G;
      [|exfalso; apply (Hall k); [now left|exact G]].
    destruct (map_result _ names) as [cs|e]; [|discriminate].
    injection E as <-. exists ((k, col) :: cs). cbn [map fst].
    split; [reflexivity|]. split; [now rewrite Hn|].
    intros k' Hk'. cbn [lookup].
    destruct (String.eqb_spec k' k) as [->|Hne]; [now rewrite G|].
    apply Hl. destruct Hk' as [->|Hk']; [contradiction|exact Hk'].
Qed.

(** X15.  The projection on the schema.  A frame that has the 24
    columns is cut down to them, in schema order, each with the cells it
    had: columns outside the schema are dropped and one line is printed.
    A frame that lacks one is reported with its actual column names and
    the [KeyError] is raised again. *)
Theorem reorder_projects (df : DataFrame) :
  ((forall k, In k BQ_SCHEMA_COLUMNS -> lookup k (columns df) <> None) ->
   exists df',
     reorder df = ([Print MsgReordered], Ok df')
     /\ column_names df' = BQ_SCHEMA_COLUMNS
     /\ nrows df' = nrows df
     /\ forall k, In k BQ_SCHEMA_COLUMNS -> getitem df' k = getitem df k)
  /\ (forall k, In k BQ_SCHEMA_COLUMNS -> lookup k (columns df) = None ->
      exists key,
        reorder df
        = ([Print (MsgColumnMismatch (KeyError key));
            Print (MsgActualColumns (column_names df))],
           Raise (KeyError key))).
Proof.
  split.
  - intros Hall. destruct (select_ok df BQ_SCHEMA_COLUMNS Hall) as (cols & E & Hn & Hl).
    exists (mk_df (nrows df) cols). unfold reorder. rewrite E.
    split; [reflexivity|]. split; [exact Hn|]. split; [reflexivity|].
    intros k Hk. unfold getitem. cbn [columns]. now rewrite (Hl k Hk).
  - intros k Hin Hk. unfold reorder, select.
    assert (Hraise : exists key,
               map_result (fun k => match getitem df k with
                                    | Ok col => Ok (k, col)
                                    | Raise e => Raise e
                                    end) BQ_SCHEMA_COLUMNS
               = Raise (KeyError key)).
    { generalize BQ_SCHEMA_COLUMNS Hin. intros names.
      induction names as [|k' names IH]; [intros []|].
      intros Hin'. cbn [map_result]. unfold getitem at 1.
      destruct (lookup k' (columns df)) as [col|] eqn:G; [|eauto].
      destruct Hin' as [->|Hin']; [congruence|].
      destruct (IH Hin') as [key ->]. eauto. }
    destruct Hraise as [key ->]. exists key. reflexivity.
Qed.

Lemma reorder_projects_witness :
  let df := mk_df 1 [("extra", [PInt 1]); ("id_viaje", [PStr "V001"])]%string in
  exists key,
    reorder df
    = ([Print (MsgColumnMismatch (KeyError key));
        Print (MsgActualColumns ["extra"; "id_viaje"]%string)],
       Raise (KeyError key)).
Proof.
  intros df.
  exact (proj2 (reorder_projects df) "fecha_viaje"%string
           ltac:(cbn; tauto) eq_refl).
Defined.

Lemma update_keeps_column (k name : string)
  (f : list pyobj -> result (list pyobj)) (df : DataFrame) (l : list event)
  (df' : DataFrame) :
  k <> name -> update name f df = (l, Ok df') -> getitem df' k = getitem df k.
Proof.
  intros Hne. unfold update.
  destruct (getitem df name) as [col|e]; [|discriminate].
  rewrite bind_lift_ok. destruct (f col) as [col'|e]; [|discriminate].
  rewrite bind_lift_ok. intros E. injection E as _ <-.
  now apply getitem_setitem_other.
Qed.

Lemma derive_keeps_column (k name : string)
  (f : (string -> result pyobj) -> M pyobj) (df : DataFrame) (l : list event)
  (df' : DataFrame) :
  k <> name -> derive name f df = (l, Ok df') -> getitem df' k = getitem df k.
Proof.
  intros Hne. unfold derive.
  destruct (apply_rows df f) as [l0 [col|e]]; [|discriminate].
  rewrite bind_ok. cbn [ret fst snd]. intros E. injection E as _ <-.
  now apply getitem_setitem_other.
Qed.

Lemma run_keeps_column (k : string) (fs : list (DataFrame -> M DataFrame)) :
  Forall (fun f => forall df l df', f df = (l, Ok df') ->
                                    getitem df' k = getitem df k) fs ->
  forall df l df', run fs df = (l, Ok df') -> getitem df' k = getitem df k.
Proof.
  intros Hfs. induction Hfs as [|f fs Hf _ IH]; intros df l df'; cbn [run].
  - intros E. now injection E as _ <-.
  - destruct (f df) as [l1 [d1|e]] eqn:F; [|discriminate].
    rewrite bind_ok. destruct (run fs d1) as [l2 [d2|e]] eqn:R; [|discriminate].
    cbn. intros E. injection E as _ <-.
    rewrite (IH _ _ _ R). exact (Hf _ _ _ F).
Qed.

(** X16.  Five fields go through the transformation untouched: the trip
    and driver identifiers, the plate and the two time texts.  No
    statement assigns them, so whenever the transformation returns, each
    of these columns is the column of the input frame, cell for cell. *)
Theorem untouched_fields `{Lib} (df : DataFrame) (l : list event)
  (df' : DataFrame) (k : string) :
  In k ["id_viaje"; "hora_salida_programada"; "hora_llegada_real";
        "matricula_autocar"; "id_conductor"]%string ->
  transform df = (l, Ok df') ->
  getitem df' k = getitem df k.
Proof.
  intros Hk. unfold transform.
  destruct (run stages df) as [l1 [d1|e]] eqn:R; cbn; [|discriminate].
  intros E. injection E as _ <-.
  apply (run_keeps_column k stages) with (l := l1); [|exact R].
  unfold stages. cbn [In] in Hk.
  repeat (destruct Hk as [<-|Hk];
          [repeat (constructor;
                   [intros d l' d';
                    first [ apply update_keeps_column; discriminate
                          | apply derive_keeps_column; discriminate ]|]);
           constructor|]).
  destruct Hk.
Qed.

Lemma untouched_fields_witness :
  match @transform plain_lib (DataFrame_of_records sample_rows) with
  | (_, Ok df') =>
      getitem df' "hora_llegada_real" = Ok [PStr "09:10"; PStr "00:15"]
  | (_, Raise _) => False
  end.
Proof.
  destruct (@transform plain_lib (DataFrame_of_records sample_rows))
    as [l [df'|e]] eqn:E.
  - exact (@untouched_fields plain_lib _ l df' "hora_llegada_real"%string
             ltac:(cbn; tauto) E).
  - vm_compute in E. discriminate E.
Defined.

(** X17.  The schema list names 24 different fields: the 22 source
    fields, then the two derived ones.  (A name listed twice would put
    the column twice in the CSV.) *)
Theorem schema_columns_distinct :
  NoDup BQ_SCHEMA_COLUMNS
  /\ List.length BQ_SCHEMA_COLUMNS = 24%nat
  /\ BQ_SCHEMA_COLUMNS
     = source_fields ++ ["retraso_minutos"%string; "velocidad_media_kmh"%string].
Proof.
  split; [|split; reflexivity].
  unfold BQ_SCHEMA_COLUMNS.
  repeat (constructor;
          [cbn [In]; intros Hin;
           repeat (destruct Hin as [Hin|Hin]; [discriminate Hin|]);
           exact Hin|]).
  constructor.
Qed.
